(** * The egress path of libwebsockets: lib/output.c

    A shallow embedding of [lws_issue_raw], [lws_write] and one pass of
    the loop of [lws_serve_http_file_fragment], together with the
    plain-socket transport adapter, and the properties of the write
    pipeline that follow from the code.

    Conventions.
    - C integers are [Z]; every conversion the C code performs is written
      out with the functions of [CInt].
    - Pointers are addresses in [Z], [0] is [NULL]; memory is a total
      function from addresses to bytes.
    - Calls that leave the file (extension callbacks, [send], [lws_malloc],
      the random source, the VFS, user callbacks) take their results from
      an environment record and leave an [event] in the trace of the call. *)

From Stdlib Require Import ZArith List Bool Lia.
Import ListNotations.
Open Scope Z_scope.

(** ** Machine integers *)

Module CInt.

Definition to_uint (x : Z) : Z := x mod 2 ^ 32.

Definition to_int (x : Z) : Z :=
  let u := x mod 2 ^ 32 in if u <? 2 ^ 31 then u else u - 2 ^ 32.

Definition to_uchar (x : Z) : Z := x mod 256.

Definition to_u64 (x : Z) : Z := x mod 2 ^ 64.

(** [size_t] is 64 bits wide under [__LP64__] and 32 bits otherwise. *)
Definition size_bits (lp64 : bool) : Z := if lp64 then 64 else 32.

Definition to_size (lp64 : bool) (x : Z) : Z := x mod 2 ^ size_bits lp64.

Definition INT_MAX : Z := 2 ^ 31 - 1.

End CInt.

Import CInt.

(** ** Memory *)

Definition memory := Z -> Z.

Definition store (m : memory) (a v : Z) : memory :=
  fun x => if x =? a then v else m x.

Fixpoint store_bytes (m : memory) (a : Z) (l : list Z) : memory :=
  match l with
  | [] => m
  | b :: l' => store_bytes (store m a b) (a + 1) l'
  end.

Definition load_bytes (m : memory) (a : Z) (n : Z) : list Z :=
  map (fun i => m (a + Z.of_nat i)) (seq 0 (Z.to_nat n)).

(** [memcpy (dst, src, n)]: the [n] bytes at [dst] become the bytes that
    were at [src]. *)
Definition memcpy (m : memory) (dst src n : Z) : memory :=
  fun x => if (dst <=? x) && (x <? dst + n) then m (src + (x - dst)) else m x.

(** ** Build configuration

    The preprocessor switches the file depends on, and the two constants
    of the headers that the file uses but does not define. *)

Record build := {
  lp64 : bool;                    (* __LP64__ *)
  ndebug : bool;                  (* NDEBUG: assert() compiles to nothing *)
  without_extensions : bool;      (* LWS_WITHOUT_EXTENSIONS *)
  with_http2 : bool;              (* LWS_WITH_HTTP2 *)
  with_ranges : bool;             (* LWS_WITH_RANGES *)
  with_access_log : bool;         (* LWS_WITH_ACCESS_LOG *)
  LWS_PRE : Z;
  LWS_H2_FRAME_HEADER_LENGTH : Z
}.

(** ** Connection state *)

Inductive lws_connection_states :=
| LWSS_HTTP
| LWSS_ESTABLISHED
| LWSS_RETURNED_CLOSE_ALREADY
| LWSS_AWAITING_CLOSE_ACK
| LWSS_FLUSHING_SEND_BEFORE_CLOSE
| LWSS_WAITING_TO_SEND_CLOSE_NOTIFICATION
| LWSS_other (n : nat).

Definition state_eqb (a b : lws_connection_states) : bool :=
  match a, b with
  | LWSS_HTTP, LWSS_HTTP
  | LWSS_ESTABLISHED, LWSS_ESTABLISHED
  | LWSS_RETURNED_CLOSE_ALREADY, LWSS_RETURNED_CLOSE_ALREADY
  | LWSS_AWAITING_CLOSE_ACK, LWSS_AWAITING_CLOSE_ACK
  | LWSS_FLUSHING_SEND_BEFORE_CLOSE, LWSS_FLUSHING_SEND_BEFORE_CLOSE
  | LWSS_WAITING_TO_SEND_CLOSE_NOTIFICATION,
    LWSS_WAITING_TO_SEND_CLOSE_NOTIFICATION => true
  | LWSS_other n, LWSS_other k => Nat.eqb n k
  | _, _ => false
  end.

Inductive connection_mode :=
| LWSCM_HTTP_SERVING
| LWSCM_WS_SERVING
| LWSCM_WS_CLIENT
| LWSCM_HTTP2_SERVING
| LWSCM_HTTP2_WS_SERVING.

Definition mode_eqb (a b : connection_mode) : bool :=
  match a, b with
  | LWSCM_HTTP_SERVING, LWSCM_HTTP_SERVING
  | LWSCM_WS_SERVING, LWSCM_WS_SERVING
  | LWSCM_WS_CLIENT, LWSCM_WS_CLIENT
  | LWSCM_HTTP2_SERVING, LWSCM_HTTP2_SERVING
  | LWSCM_HTTP2_WS_SERVING, LWSCM_HTTP2_WS_SERVING => true
  | _, _ => false
  end.

(** [struct lws_protocols], the two size hints the issuer reads. *)
Record lws_protocols := {
  tx_packet_size : Z;
  rx_buffer_size : Z
}.

(** [wsi->ws], the WebSocket block of a connection. *)
Record lws_ws := {
  mask : list Z;                  (* uint8_t mask[4] *)
  mask_idx : Z;                   (* uint8_t *)
  inside_frame : bool;
  clean_buffer : bool;
  tx_draining_ext : bool;
  tx_draining_stashed_wp : Z;
  stashed_write_pending : bool;
  stashed_write_type : Z;
  ietf_spec_revision : Z
}.

(** [wsi->http.range] *)
Record lws_range_parsing := {
  range_start : Z;
  range_end : Z;
  range_extent : Z;
  range_budget : Z;
  range_inside : bool;
  range_send_ctr : Z;
  range_count_ranges : Z
}.

Record lws_http := {
  filepos : Z;
  filelen : Z;
  tx_content_length : Z;
  tx_content_remain : Z;
  multipart_content_type : list Z;
  range : lws_range_parsing
}.

Record lws_h2 := {
  send_END_STREAM : bool;
  my_sid : Z
}.

(** [struct lws], the fields the egress path reads or writes. *)
Record lws := {
  could_have_pending : bool;
  socket_is_permanently_unusable : bool;
  state : lws_connection_states;
  mode : connection_mode;
  trunc_alloc : Z;                (* unsigned char *, 0 when NULL *)
  trunc_alloc_len : Z;            (* unsigned int *)
  trunc_offset : Z;               (* unsigned int *)
  trunc_len : Z;                  (* unsigned int *)
  protocol : lws_protocols;
  http2_substream : bool;
  parent_carries_io : bool;
  h2_stream_carries_ws : bool;
  sending_chunked : bool;
  interpreting : bool;
  vhost_tx : option Z;            (* wsi->vhost->conn_stats.tx, None: no vhost *)
  access_log_sent : Z;
  ws : option lws_ws;             (* None: wsi->ws is NULL *)
  h2 : lws_h2;
  http : lws_http
}.

Definition set_could_have_pending (w : lws) (b : bool) : lws :=
  {| could_have_pending := b;
     socket_is_permanently_unusable := socket_is_permanently_unusable w;
     state := state w; mode := mode w;
     trunc_alloc := trunc_alloc w; trunc_alloc_len := trunc_alloc_len w;
     trunc_offset := trunc_offset w; trunc_len := trunc_len w;
     protocol := protocol w; http2_substream := http2_substream w;
     parent_carries_io := parent_carries_io w;
     h2_stream_carries_ws := h2_stream_carries_ws w;
     sending_chunked := sending_chunked w; interpreting := interpreting w;
     vhost_tx := vhost_tx w; access_log_sent := access_log_sent w;
     ws := ws w; h2 := h2 w; http := http w |}.

Definition set_socket_is_permanently_unusable (w : lws) (b : bool) : lws :=
  {| could_have_pending := could_have_pending w;
     socket_is_permanently_unusable := b;
     state := state w; mode := mode w;
     trunc_alloc := trunc_alloc w; trunc_alloc_len := trunc_alloc_len w;
     trunc_offset := trunc_offset w; trunc_len := trunc_len w;
     protocol := protocol w; http2_substream := http2_substream w;
     parent_carries_io := parent_carries_io w;
     h2_stream_carries_ws := h2_stream_carries_ws w;
     sending_chunked := sending_chunked w; interpreting := interpreting w;
     vhost_tx := vhost_tx w; access_log_sent := access_log_sent w;
     ws := ws w; h2 := h2 w; http := http w |}.

(** The four truncation-buffer fields are always updated together. *)
Definition set_trunc (w : lws) (alloc alloc_len offset len : Z) : lws :=
  {| could_have_pending := could_have_pending w;
     socket_is_permanently_unusable := socket_is_permanently_unusable w;
     state := state w; mode := mode w;
     trunc_alloc := alloc; trunc_alloc_len := alloc_len;
     trunc_offset := offset; trunc_len := len;
     protocol := protocol w; http2_substream := http2_substream w;
     parent_carries_io := parent_carries_io w;
     h2_stream_carries_ws := h2_stream_carries_ws w;
     sending_chunked := sending_chunked w; interpreting := interpreting w;
     vhost_tx := vhost_tx w; access_log_sent := access_log_sent w;
     ws := ws w; h2 := h2 w; http := http w |}.

Definition set_tx_accounting (w : lws) (vtx : option Z) (sent : Z) : lws :=
  {| could_have_pending := could_have_pending w;
     socket_is_permanently_unusable := socket_is_permanently_unusable w;
     state := state w; mode := mode w;
     trunc_alloc := trunc_alloc w; trunc_alloc_len := trunc_alloc_len w;
     trunc_offset := trunc_offset w; trunc_len := trunc_len w;
     protocol := protocol w; http2_substream := http2_substream w;
     parent_carries_io := parent_carries_io w;
     h2_stream_carries_ws := h2_stream_carries_ws w;
     sending_chunked := sending_chunked w; interpreting := interpreting w;
     vhost_tx := vtx; access_log_sent := sent;
     ws := ws w; h2 := h2 w; http := http w |}.

Definition set_ws (w : lws) (x : lws_ws) : lws :=
  {| could_have_pending := could_have_pending w;
     socket_is_permanently_unusable := socket_is_permanently_unusable w;
     state := state w; mode := mode w;
     trunc_alloc := trunc_alloc w; trunc_alloc_len := trunc_alloc_len w;
     trunc_offset := trunc_offset w; trunc_len := trunc_len w;
     protocol := protocol w; http2_substream := http2_substream w;
     parent_carries_io := parent_carries_io w;
     h2_stream_carries_ws := h2_stream_carries_ws w;
     sending_chunked := sending_chunked w; interpreting := interpreting w;
     vhost_tx := vhost_tx w; access_log_sent := access_log_sent w;
     ws := Some x; h2 := h2 w; http := http w |}.

Definition set_h2_http (w : lws) (x : lws_h2) (y : lws_http) : lws :=
  {| could_have_pending := could_have_pending w;
     socket_is_permanently_unusable := socket_is_permanently_unusable w;
     state := state w; mode := mode w;
     trunc_alloc := trunc_alloc w; trunc_alloc_len := trunc_alloc_len w;
     trunc_offset := trunc_offset w; trunc_len := trunc_len w;
     protocol := protocol w; http2_substream := http2_substream w;
     parent_carries_io := parent_carries_io w;
     h2_stream_carries_ws := h2_stream_carries_ws w;
     sending_chunked := sending_chunked w; interpreting := interpreting w;
     vhost_tx := vhost_tx w; access_log_sent := access_log_sent w;
     ws := ws w; h2 := x; http := y |}.

(** [struct lws_context], the fields read here. *)
Record lws_context := {
  pt_serv_buf_size : Z;           (* unsigned int *)
  serv_buf : Z;                   (* pt->serv_buf *)
  timeout_secs : Z
}.

(** ** The world outside the file *)

Inductive lws_stats :=
| LWSSTATS_C_API_WRITE
| LWSSTATS_C_API_LWS_WRITE
| LWSSTATS_B_WRITE
| LWSSTATS_C_WRITE_PARTIALS
| LWSSTATS_B_PARTIALS_ACCEPTED_PARTS.

Inductive h2_frame_type :=
| LWS_H2_FRAME_TYPE_DATA
| LWS_H2_FRAME_TYPE_HEADERS
| LWS_H2_FRAME_TYPE_CONTINUATION.

(** The [flags] byte of an HTTP/2 frame, one field per flag bit the file
    sets. *)
Record h2_flags := {
  LWS_H2_FLAG_END_STREAM : bool;
  LWS_H2_FLAG_END_HEADERS : bool
}.

Inductive event :=
| EvStats (which : lws_stats) (by_ : Z)         (* lws_stats_atomic_bump *)
| EvExtPacketTx (buf len : Z)                   (* LWS_EXT_CB_PACKET_TX_DO_SEND *)
| EvExtPayloadTx (buf len wp : Z)               (* LWS_EXT_CB_PAYLOAD_TX *)
| EvInvalidSockWarning
| EvSend (buf len : Z) (bytes : list Z)         (* send() on the socket:
                                                   len is the size_t count *)
| EvSetBlockingSend                             (* lws_set_blocking_send *)
| EvCallbackOnWritable                          (* lws_callback_on_writable *)
| EvFree (p : Z)
| EvMalloc (size : Z)
| EvChildWriteViaParent (buf len wp : Z)        (* parent protocol callback *)
| EvRestartPingPongTimer
| EvDrainListRemove                             (* unlink from pt->tx_draining_ext_list *)
| EvDrainListAdd                                (* push on pt->tx_draining_ext_list *)
| EvGetRandom
| EvH2FrameWrite (type : h2_frame_type) (flags : h2_flags)
                 (sid len buf : Z) (bytes : list Z).

(** The three outcomes of [lws_ssl_capable_write]: a byte count, or one of
    the two negative codes of [enum lws_ssl_capable_status]. *)
Inductive ssl_capable :=
| Wrote (n : Z)
| LWS_SSL_CAPABLE_MORE_SERVICE
| LWS_SSL_CAPABLE_ERROR.

Record environment := {
  (* lws_ext_cb_active (wsi, LWS_EXT_CB_PACKET_TX_DO_SEND, &buf, len):
     the return value and the possibly replaced buf *)
  ext_packet_tx_do_send : Z -> Z -> Z * Z;
  (* lws_ext_cb_active (wsi, LWS_EXT_CB_PAYLOAD_TX, &eff_buf, wp):
     the return value, eff_buf.token and eff_buf.token_len afterwards *)
  ext_payload_tx : Z -> Z -> Z -> Z * (Z * Z);
  lws_socket_is_valid : bool;
  (* send (wsi->desc.sockfd, buf, len, MSG_NOSIGNAL), as a function of
     buf and of the int len of the adapter (which send takes as a
     size_t): the return value and errno afterwards *)
  socket_send : Z -> Z -> Z * Z;
  (* the values of the platform's errno.h behind LWS_EAGAIN,
     LWS_EWOULDBLOCK and LWS_EINTR; the first two are one number on
     Linux *)
  LWS_EAGAIN : Z;
  LWS_EWOULDBLOCK : Z;
  LWS_EINTR : Z;
  lws_malloc : Z -> Z;
  (* lws_get_random (context, wsi->ws->mask, 4): the return value and the
     content of mask[] afterwards *)
  lws_get_random : Z * list Z;
  (* parent->protocol->callback (.., LWS_CALLBACK_CHILD_WRITE_VIA_PARENT, ..) *)
  child_write_via_parent : Z -> Z -> Z -> Z;
  lws_state_is_ws : lws_connection_states -> bool;
  (* lws_h2_frame_write (wsi, type, flags, sid, len, buf): the return
     value, the memory afterwards (the framer writes the frame header
     into the headroom before buf) and what it sends, oldest first: the
     buffer, the count and the bytes of each send *)
  lws_h2_frame_write :
    memory -> h2_frame_type -> h2_flags -> Z -> Z -> Z ->
    Z * memory * list (Z * Z * list Z)
}.

(** The result of a call: what it returned, the connection and the memory
    afterwards, and what it did to the outside, oldest event first.
    [AssertFailed] is the abort of a failing [assert]; [NullDeref] is the
    dereference of a NULL [wsi->ws]. *)
Inductive outcome :=
| Ret (v : Z)
| AssertFailed
| NullDeref.

Record result := {
  res : outcome;
  wsi_out : lws;
  mem_out : memory;
  trace : list event
}.

Definition done (r : outcome) (w : lws) (m : memory) (t : list event) : result :=
  {| res := r; wsi_out := w; mem_out := m; trace := t |}.

(** ** The transport adapter: [lws_ssl_capable_write_no_ssl] *)

Definition lws_ssl_capable_write_no_ssl (E : environment) (buf len : Z)
  : ssl_capable * list event :=
  let '(r, errno) := socket_send E buf len in
  let n := to_int r in
  if n >=? 0 then (Wrote n, [])
  else if (errno =? LWS_EAGAIN E) || (errno =? LWS_EWOULDBLOCK E) ||
          (errno =? LWS_EINTR E)
  then (LWS_SSL_CAPABLE_MORE_SERVICE,
        if errno =? LWS_EWOULDBLOCK E then [EvSetBlockingSend] else [])
  else (LWS_SSL_CAPABLE_ERROR, []).

(** [lws_ssl_pending_no_ssl]: nothing is buffered on a plain socket
    (the ESP32 build, which answers 100, is not modelled). *)
Definition lws_ssl_pending_no_ssl : Z := 0.

(** ** L2: the raw issuer, [lws_issue_raw] *)

(** The code from the label [handle_truncated_send] to the end of the
    function.  [n] is the [unsigned int] byte count that was sent, [buf]
    and [real_len] are the write being issued, [t] the trace so far. *)
Definition handle_truncated_send (B : build) (E : environment)
    (wsi : lws) (m : memory) (buf real_len n : Z) (t : list event) : result :=
  if negb (trunc_len wsi =? 0) then
    (* we were already handling a truncated send *)
    let offset' := to_uint (trunc_offset wsi + n) in
    let len' := to_uint (trunc_len wsi - n) in
    let wsi1 := set_trunc wsi (trunc_alloc wsi) (trunc_alloc_len wsi) offset' len' in
    if len' =? 0 then
      let n' := to_uint (to_int real_len) in
      if state_eqb (state wsi1) LWSS_FLUSHING_SEND_BEFORE_CLOSE then
        done (Ret (-1)) wsi1 m t
      else
        done (Ret (to_int n')) wsi1 m (t ++ [EvCallbackOnWritable])
    else
      done (Ret (to_int n)) wsi1 m (t ++ [EvCallbackOnWritable])
  else if n =? real_len then
    (* what we just sent went out cleanly *)
    done (Ret (to_int n)) wsi m t
  else
    (* newly truncated send *)
    let t1 := t ++ [EvStats LWSSTATS_C_WRITE_PARTIALS 1;
                    EvStats LWSSTATS_B_PARTIALS_ACCEPTED_PARTS n] in
    let rest := to_size (lp64 B) (real_len - n) in
    if (trunc_alloc wsi =? 0) || (rest >? trunc_alloc_len wsi) then
      let p := lws_malloc E rest in
      let t2 := t1 ++ [EvFree (trunc_alloc wsi); EvMalloc rest] in
      let wsi1 := set_trunc wsi p (to_uint rest) (trunc_offset wsi) (trunc_len wsi) in
      if p =? 0 then
        done (Ret (-1)) wsi1 m t2
      else
        done (Ret (to_int real_len))
             (set_trunc wsi1 p (to_uint rest) 0 (to_uint rest))
             (memcpy m p (buf + n) rest)
             (t2 ++ [EvCallbackOnWritable])
    else
      done (Ret (to_int real_len))
           (set_trunc wsi (trunc_alloc wsi) (trunc_alloc_len wsi) 0 (to_uint rest))
           (memcpy m (trunc_alloc wsi) (buf + n) rest)
           (t1 ++ [EvCallbackOnWritable]).

(** "limit sending": the byte count offered to the transport, still as
    [unsigned int]. *)
Definition limit_sending (B : build) (cx : lws_context) (wsi : lws) (len : Z) : Z :=
  let n :=
    if negb (tx_packet_size (protocol wsi) =? 0) then
      to_uint (to_int (tx_packet_size (protocol wsi)))
    else
      let n := to_uint (to_int (rx_buffer_size (protocol wsi))) in
      if n =? 0 then pt_serv_buf_size cx else n in
  let n := to_uint (n + (LWS_PRE B + 4)) in
  if n >? len then to_uint (to_int len) else n.

Definition lws_issue_raw (B : build) (cx : lws_context) (E : environment)
    (wsi : lws) (m : memory) (buf len : Z) : result :=
  let real_len := len in
  (* called twice without going through the event loop? *)
  if could_have_pending wsi then done (Ret (-1)) wsi m [] else
  let t := [EvStats LWSSTATS_C_API_WRITE 1] in
  if len =? 0 then done (Ret 0) wsi m t else
  (* just ignore sends after we cleared the truncation buffer *)
  if state_eqb (state wsi) LWSS_FLUSHING_SEND_BEFORE_CLOSE && (trunc_len wsi =? 0)
  then done (Ret (to_int len)) wsi m t else
  if negb (trunc_len wsi =? 0) &&
     ((buf <? trunc_alloc wsi) ||
      (buf >? trunc_alloc wsi + trunc_len wsi + trunc_offset wsi))
  then done (if ndebug B then Ret (-1) else AssertFailed) wsi m t else
  let '(mx, buf, t) :=
    if without_extensions B then (0, buf, t)
    else let '(mx, b) := ext_packet_tx_do_send E buf (to_int len) in
         (mx, b, t ++ [EvExtPacketTx buf (to_int len)]) in
  if mx <? 0 then done (Ret (-1)) wsi m t else
  if negb (mx =? 0) then
    (* handled by an extension *)
    handle_truncated_send B E wsi m buf real_len (to_uint mx) t
  else
    let t := if negb (http2_substream wsi) && negb (lws_socket_is_valid E)
             then t ++ [EvInvalidSockWarning] else t in
    let n := limit_sending B cx wsi len in
    (* nope, send it on the socket directly *)
    let '(r, te) := lws_ssl_capable_write_no_ssl E buf (to_int n) in
    (* send takes the int count as a size_t *)
    let count := to_size (lp64 B) (to_int n) in
    let t := t ++ [EvSend buf count (load_bytes m buf count)] ++ te in
    (* something got written, it can have been truncated now *)
    let wsi := set_could_have_pending wsi true in
    match r with
    | LWS_SSL_CAPABLE_ERROR =>
        done (Ret (-1)) (set_socket_is_permanently_unusable wsi true) m t
    | LWS_SSL_CAPABLE_MORE_SERVICE =>
        handle_truncated_send B E wsi m buf real_len 0 t
    | Wrote k =>
        handle_truncated_send B E wsi m buf real_len (to_uint k) t
    end.

(** Modelled from the spec: [lws_issue_raw_ext_access] is defined in
    lib/extensions.c, which is not part of this file.  Section 4.2 of the
    specification describes it as a pass-through to the raw issuer, whose
    only addition is the [PACKET_TX_DO_SEND] extension callback that
    [lws_issue_raw] above makes itself. *)
Definition lws_issue_raw_ext_access := lws_issue_raw.

(** ** L4: the write dispatcher, [lws_write] *)

(** [enum lws_write_protocol] and [LWS_WRITE_CLOSE] are declared in the
    library headers, not in this file: the dispatcher is defined for any
    assignment of values to the names it uses. *)
Record lws_write_protocol := {
  LWS_WRITE_TEXT : Z;
  LWS_WRITE_BINARY : Z;
  LWS_WRITE_CONTINUATION : Z;
  LWS_WRITE_HTTP : Z;
  LWS_WRITE_CLOSE : Z;
  LWS_WRITE_PING : Z;
  LWS_WRITE_PONG : Z;
  LWS_WRITE_HTTP_FINAL : Z;
  LWS_WRITE_HTTP_HEADERS : Z;
  LWS_WRITE_HTTP_HEADERS_CONTINUATION : Z;
  LWS_WRITE_NO_FIN : Z;
  LWS_WRITE_H2_STREAM_END : Z
}.

(** Modelled from the spec: the RFC 6455 opcodes [LWSWSOPC_*] are declared
    in a header outside this file; section 4.1 step 8 of the specification
    lists them as 0 = continuation, 1 = text, 2 = binary, 8 = close,
    9 = ping, 10 = pong. *)
Definition LWSWSOPC_CONTINUATION : Z := 0.
Definition LWSWSOPC_TEXT_FRAME : Z := 1.
Definition LWSWSOPC_BINARY_FRAME : Z := 2.
Definition LWSWSOPC_CLOSE : Z := 8.
Definition LWSWSOPC_PING : Z := 9.
Definition LWSWSOPC_PONG : Z := 10.

Section Write.

Variable K : lws_write_protocol.
Variable B : build.
Variable cx : lws_context.
Variable E : environment.

(** [lws_0405_frame_mask_generate]: fetch the per-frame nonce.  The first
    component is the return value. *)
Definition lws_0405_frame_mask_generate (w : lws_ws) : Z * lws_ws :=
  let '(n, bytes) := lws_get_random E in
  let w1 := {| mask := bytes; mask_idx := mask_idx w;
               inside_frame := inside_frame w; clean_buffer := clean_buffer w;
               tx_draining_ext := tx_draining_ext w;
               tx_draining_stashed_wp := tx_draining_stashed_wp w;
               stashed_write_pending := stashed_write_pending w;
               stashed_write_type := stashed_write_type w;
               ietf_spec_revision := ietf_spec_revision w |} in
  if negb (n =? 4) then (1, w1)
  else
    (* start masking from first byte of masking key buffer *)
    (0, {| mask := bytes; mask_idx := 0;
           inside_frame := inside_frame w; clean_buffer := clean_buffer w;
           tx_draining_ext := tx_draining_ext w;
           tx_draining_stashed_wp := tx_draining_stashed_wp w;
           stashed_write_pending := stashed_write_pending w;
           stashed_write_type := stashed_write_type w;
           ietf_spec_revision := ietf_spec_revision w |}).

Definition set_inside_frame (w : lws_ws) (b : bool) : lws_ws :=
  {| mask := mask w; mask_idx := mask_idx w;
     inside_frame := b; clean_buffer := clean_buffer w;
     tx_draining_ext := tx_draining_ext w;
     tx_draining_stashed_wp := tx_draining_stashed_wp w;
     stashed_write_pending := stashed_write_pending w;
     stashed_write_type := stashed_write_type w;
     ietf_spec_revision := ietf_spec_revision w |}.

Definition set_mask_idx (w : lws_ws) (i : Z) : lws_ws :=
  {| mask := mask w; mask_idx := i;
     inside_frame := inside_frame w; clean_buffer := clean_buffer w;
     tx_draining_ext := tx_draining_ext w;
     tx_draining_stashed_wp := tx_draining_stashed_wp w;
     stashed_write_pending := stashed_write_pending w;
     stashed_write_type := stashed_write_type w;
     ietf_spec_revision := ietf_spec_revision w |}.

Definition set_clean_buffer (w : lws_ws) (b : bool) : lws_ws :=
  {| mask := mask w; mask_idx := mask_idx w;
     inside_frame := inside_frame w; clean_buffer := b;
     tx_draining_ext := tx_draining_ext w;
     tx_draining_stashed_wp := tx_draining_stashed_wp w;
     stashed_write_pending := stashed_write_pending w;
     stashed_write_type := stashed_write_type w;
     ietf_spec_revision := ietf_spec_revision w |}.

Definition set_draining (w : lws_ws) (b : bool) (stashed_wp : Z) : lws_ws :=
  {| mask := mask w; mask_idx := mask_idx w;
     inside_frame := inside_frame w; clean_buffer := clean_buffer w;
     tx_draining_ext := b;
     tx_draining_stashed_wp := stashed_wp;
     stashed_write_pending := stashed_write_pending w;
     stashed_write_type := stashed_write_type w;
     ietf_spec_revision := ietf_spec_revision w |}.

Definition set_stashed_write (w : lws_ws) (pending : bool) (type : Z) : lws_ws :=
  {| mask := mask w; mask_idx := mask_idx w;
     inside_frame := inside_frame w; clean_buffer := clean_buffer w;
     tx_draining_ext := tx_draining_ext w;
     tx_draining_stashed_wp := tx_draining_stashed_wp w;
     stashed_write_pending := pending;
     stashed_write_type := type;
     ietf_spec_revision := ietf_spec_revision w |}.

(** The [switch (wp & 0xf)] that picks the frame opcode; [None] is the
    [default:] case. *)
Definition ws_opcode (wp : Z) : option Z :=
  let c := Z.land wp 0xf in
  if c =? LWS_WRITE_TEXT K then Some LWSWSOPC_TEXT_FRAME
  else if c =? LWS_WRITE_BINARY K then Some LWSWSOPC_BINARY_FRAME
  else if c =? LWS_WRITE_CONTINUATION K then Some LWSWSOPC_CONTINUATION
  else if c =? LWS_WRITE_CLOSE K then Some LWSWSOPC_CLOSE
  else if c =? LWS_WRITE_PING K then Some LWSWSOPC_PING
  else if c =? LWS_WRITE_PONG K then Some LWSWSOPC_PONG
  else None.

(** What the header stage leaves behind: the memory, [pre] and
    [dropmask] (0 when NULL). *)
Record framed := {
  fr_mem : memory;
  fr_pre : Z;
  fr_dropmask : Z
}.

(** [case 13:] of [switch (wsi->ws->ietf_spec_revision)]: the RFC 6455
    header is written at [buf[-pre]].  [None] is the [return -1] of an
    unknown opcode. *)
Definition ws_frame_header (masked7 : bool) (m : memory) (buf len wp : Z)
  : option framed :=
  let pre := if masked7 then 4 else 0 in
  let dropmask := if masked7 then buf + (0 - pre) else 0 in
  let is_masked_bit := if masked7 then 0x80 else 0 in
  match ws_opcode wp with
  | None => None
  | Some n =>
    let n := if Z.land wp (LWS_WRITE_NO_FIN K) =? 0
             then Z.lor n (Z.shiftl 1 7) else n in
    if len <? 126 then
      let pre := pre + 2 in
      let m := store m (buf + - pre) (to_uchar n) in
      let m := store m (buf + (- pre + 1)) (to_uchar (Z.lor len is_masked_bit)) in
      Some {| fr_mem := m; fr_pre := pre; fr_dropmask := dropmask |}
    else if len <? 65536 then
      let pre := pre + 4 in
      let m := store m (buf + - pre) (to_uchar n) in
      let m := store m (buf + (- pre + 1)) (to_uchar (Z.lor 126 is_masked_bit)) in
      let m := store m (buf + (- pre + 2)) (to_uchar (Z.shiftr len 8)) in
      let m := store m (buf + (- pre + 3)) (to_uchar len) in
      Some {| fr_mem := m; fr_pre := pre; fr_dropmask := dropmask |}
    else
      let pre := pre + 10 in
      let m := store m (buf + - pre) (to_uchar n) in
      let m := store m (buf + (- pre + 1)) (to_uchar (Z.lor 127 is_masked_bit)) in
      let m :=
        if lp64 B then
          let m := store m (buf + (- pre + 2))
                         (to_uchar (Z.land (Z.shiftr len 56) 0x7f)) in
          let m := store m (buf + (- pre + 3)) (to_uchar (Z.shiftr len 48)) in
          let m := store m (buf + (- pre + 4)) (to_uchar (Z.shiftr len 40)) in
          store m (buf + (- pre + 5)) (to_uchar (Z.shiftr len 32))
        else
          let m := store m (buf + (- pre + 2)) 0 in
          let m := store m (buf + (- pre + 3)) 0 in
          let m := store m (buf + (- pre + 4)) 0 in
          store m (buf + (- pre + 5)) 0 in
      let m := store m (buf + (- pre + 6)) (to_uchar (Z.shiftr len 24)) in
      let m := store m (buf + (- pre + 7)) (to_uchar (Z.shiftr len 16)) in
      let m := store m (buf + (- pre + 8)) (to_uchar (Z.shiftr len 8)) in
      let m := store m (buf + (- pre + 9)) (to_uchar len) in
      Some {| fr_mem := m; fr_pre := pre; fr_dropmask := dropmask |}
  end.

(** The masking loop
    [for (n = 4; n < (int)len + 4; n++)
       dropmask[n] = dropmask[n] ^ mask[(mask_idx++) & 3]]:
    [count] iterations starting at index [n]. *)
Fixpoint mask_loop (count : nat) (m : memory) (dropmask n : Z)
    (key : list Z) (idx : Z) : memory * Z :=
  match count with
  | O => (m, idx)
  | S c =>
      let m' := store m (dropmask + n)
                  (Z.lxor (m (dropmask + n)) (nth (Z.to_nat (Z.land idx 3)) key 0)) in
      mask_loop c m' dropmask (n + 1) key (to_uchar (idx + 1))
  end.

(** The masking stage at the label [do_more_inside_frame].  [None] is the
    [return -1] of a failed mask generation (the connection keeps the
    bytes the random source did deliver). *)
Definition mask_stage (masked7 : bool) (w : lws_ws) (m : memory)
    (dropmask len : Z) : (option memory) * lws_ws * list event :=
  if masked7 then
    let '(failed, w, t) :=
      if negb (inside_frame w) then
        let '(r, w') := lws_0405_frame_mask_generate w in (r, w', [EvGetRandom])
      else (0, w, []) in
    if negb (failed =? 0) then (None, w, t)
    else if negb (dropmask =? 0) then
      (* never set if already inside frame *)
      let '(m1, idx) :=
        mask_loop (Z.to_nat (to_int len + 4 - 4)) m dropmask 4 (mask w) (mask_idx w) in
      (* copy the frame nonce into place *)
      let m2 := store_bytes m1 dropmask (firstn 4 (mask w)) in
      (Some m2, set_mask_idx w idx, t)
    else (Some m, w, t)
  else (Some m, w, []).

(** The sends of the HTTP/2 framer, as events of the call. *)
Definition framer_sends (sent : list (Z * Z * list Z)) : list event :=
  map (fun s => EvSend (fst (fst s)) (snd (fst s)) (snd s)) sent.

(** The HTTP/2 reframing inside [send_raw] (built under LWS_WITH_HTTP2). *)
Definition h2_reframe (wsi : lws) (m : memory) (buf len pre wp wp1f : Z)
    (t : list event) : result :=
  let nofin := negb (Z.land wp (LWS_WRITE_NO_FIN K) =? 0) in
  let stream_end := negb (Z.land wp (LWS_WRITE_H2_STREAM_END K) =? 0) in
  let n := LWS_H2_FRAME_TYPE_DATA in
  let eh := false in
  let es := false in
  let s := send_END_STREAM (h2 wsi) in
  let '(n, eh, es, s) :=
    if wp1f =? LWS_WRITE_HTTP_HEADERS K then
      let eh := if negb nofin then true else eh in
      if s || stream_end then (LWS_H2_FRAME_TYPE_HEADERS, eh, true, true)
      else (LWS_H2_FRAME_TYPE_HEADERS, eh, es, s)
    else (n, eh, es, s) in
  let '(n, eh, es, s) :=
    if wp1f =? LWS_WRITE_HTTP_HEADERS_CONTINUATION K then
      let '(eh, es) := if negb nofin then (true, false) else (eh, es) in
      if s || stream_end then (LWS_H2_FRAME_TYPE_CONTINUATION, eh, true, true)
      else (LWS_H2_FRAME_TYPE_CONTINUATION, eh, es, s)
    else (n, eh, es, s) in
  let '(remain, wp, wp1f) :=
    if ((wp1f =? LWS_WRITE_HTTP K) || (wp1f =? LWS_WRITE_HTTP_FINAL K)) &&
       negb (tx_content_length (http wsi) =? 0) then
      let remain := to_u64 (tx_content_remain (http wsi) - len) in
      if remain =? 0 then
        (remain, LWS_WRITE_HTTP_FINAL K, Z.land (LWS_WRITE_HTTP_FINAL K) 0x1f)
      else (remain, wp, wp1f)
    else (tx_content_remain (http wsi), wp, wp1f) in
  let '(es, s) :=
    if (wp1f =? LWS_WRITE_HTTP_FINAL K) ||
       negb (Z.land wp (LWS_WRITE_H2_STREAM_END K) =? 0)
    then (true, true) else (es, s) in
  let wsi :=
    set_h2_http wsi
      {| send_END_STREAM := s; my_sid := my_sid (h2 wsi) |}
      {| filepos := filepos (http wsi); filelen := filelen (http wsi);
         tx_content_length := tx_content_length (http wsi);
         tx_content_remain := remain;
         multipart_content_type := multipart_content_type (http wsi);
         range := range (http wsi) |} in
  let flags := {| LWS_H2_FLAG_END_STREAM := es; LWS_H2_FLAG_END_HEADERS := eh |} in
  (* if any ws framing, account for that too *)
  let l := to_int len + pre in
  let '(v, m', sent) :=
    lws_h2_frame_write E m n flags (my_sid (h2 wsi)) l (buf - pre) in
  done (Ret v) wsi m'
       (t ++ [EvH2FrameWrite n flags (my_sid (h2 wsi)) l (buf - pre)
                             (load_bytes m (buf - pre) l)] ++
        framer_sends sent).

(** [switch (wp1f)] at the label [send_raw]: does the write go straight
    to [lws_issue_raw] (or to the HTTP/2 framer)? *)
Definition goes_raw (wsi : lws) (wp1f : Z) : bool :=
  if (wp1f =? LWS_WRITE_TEXT K) || (wp1f =? LWS_WRITE_BINARY K) ||
     (wp1f =? LWS_WRITE_CONTINUATION K)
  then h2_stream_carries_ws wsi
  else (wp1f =? LWS_WRITE_CLOSE K) || (wp1f =? LWS_WRITE_HTTP K) ||
       (wp1f =? LWS_WRITE_HTTP_FINAL K) || (wp1f =? LWS_WRITE_HTTP_HEADERS K) ||
       (wp1f =? LWS_WRITE_HTTP_HEADERS_CONTINUATION K) ||
       (wp1f =? LWS_WRITE_PONG K) || (wp1f =? LWS_WRITE_PING K).

(** From the label [send_raw] to the end of [lws_write]. *)
Definition send_raw (wsi : lws) (m : memory) (buf len pre wp wp1f orig_len : Z)
    (t : list event) : result :=
  if goes_raw wsi wp1f then
    if with_http2 B &&
       (mode_eqb (mode wsi) LWSCM_HTTP2_SERVING ||
        mode_eqb (mode wsi) LWSCM_HTTP2_WS_SERVING)
    then h2_reframe wsi m buf len pre wp wp1f t
    else
      let r := lws_issue_raw B cx E wsi m (buf - pre) (to_size (lp64 B) (len + pre)) in
      done (res r) (wsi_out r) (mem_out r) (t ++ trace r)
  else
    let r := lws_issue_raw_ext_access B cx E wsi m (buf - pre)
                                      (to_size (lp64 B) (len + pre)) in
    let t := t ++ trace r in
    match ws (wsi_out r) with
    | None => done NullDeref (wsi_out r) (mem_out r) t
    | Some w =>
      let wsi1 := set_ws (wsi_out r) (set_inside_frame w true) in
      match res r with
      | Ret n =>
        if n <=? 0 then done (Ret n) wsi1 (mem_out r) t
        else if n =? to_int len + pre then
          (* everything in the buffer was handled (or rebuffered...) *)
          done (Ret (to_int orig_len))
               (set_ws (wsi_out r) (set_inside_frame w false)) (mem_out r) t
        else done (Ret (n - pre)) wsi1 (mem_out r) t
      | o => done o (wsi_out r) (mem_out r) t
      end
    end.

(** From the label [do_more_inside_frame] on. *)
Definition do_more_inside_frame (wsi : lws) (w : lws_ws) (m : memory)
    (buf len pre dropmask wp wp1f orig_len : Z) (t : list event) : result :=
  let masked7 := mode_eqb (mode wsi) LWSCM_WS_CLIENT in
  let '(om, w', te) := mask_stage masked7 w m dropmask len in
  match om with
  | None => done (Ret (-1)) (set_ws wsi w') m (t ++ te)
  | Some m' => send_raw (set_ws wsi w') m' buf len pre wp wp1f orig_len (t ++ te)
  end.

(** The extension TX stage: either the write returns here, or it goes on
    with a possibly different buffer, length and write type. *)
Inductive payload_tx_result :=
| TxReturn (v : Z) (w : lws_ws) (t : list event)
| TxContinue (w : lws_ws) (buf len wp wp1f : Z) (t : list event).

Definition payload_tx_stage (w : lws_ws) (buf len wp wp1f : Z)
  : payload_tx_result :=
  let w := set_clean_buffer w true in
  let token := buf in
  let token_len := to_int len in
  if (wp =? LWS_WRITE_PING K) || (wp =? LWS_WRITE_PONG K) ||
     (wp =? LWS_WRITE_CLOSE K)
  then
    if token =? 0 then TxReturn (-1) w []
    else TxContinue w token (to_size (lp64 B) token_len) wp wp1f []
  else
    let '(n, w1, tok1, len1, wp1, t) :=
      if without_extensions B then (0, w, token, token_len, wp, [])
      else
        let '(n, (tok', len')) := ext_payload_tx E token token_len wp in
        let t := [EvExtPayloadTx token token_len wp] in
        if (0 <=? n) && negb (n =? 0) && negb (len' =? 0) then
          (* extension requires further draining *)
          (n, set_draining w true (to_uchar wp), tok', len',
           Z.lor wp (LWS_WRITE_NO_FIN K),
           t ++ [EvDrainListAdd; EvCallbackOnWritable])
        else (n, w, tok', len', wp, t) in
    if n <? 0 then TxReturn (-1) w1 t else
    let '(w2, wp2, wp1f2) :=
      if negb (len1 =? 0) && stashed_write_pending w1 then
        let wp' := Z.lor (Z.land wp1 0xc0) (stashed_write_type w1) in
        (set_stashed_write w1 false (stashed_write_type w1), wp', Z.land wp' 0x1f)
      else (w1, wp1, wp1f) in
    if negb (buf =? tok1) && negb (len =? 0) && (len1 =? 0) then
      (* ext might eat it, but not have anything to issue yet *)
      let type := if negb (stashed_write_pending w2)
                  then Z.land wp2 0x3f else stashed_write_type w2 in
      TxReturn (to_int len) (set_stashed_write w2 true type) t
    else
      let w3 := if negb (buf =? tok1) then set_clean_buffer w2 false else w2 in
      if tok1 =? 0 then TxReturn (-1) w3 t
      else TxContinue w3 tok1 (to_size (lp64 B) len1) wp2 wp1f2 t.

Definition lws_write (wsi : lws) (m : memory) (buf len wp : Z) : result :=
  let masked7 := mode_eqb (mode wsi) LWSCM_WS_CLIENT in
  let orig_len := len in
  let wp1f := Z.land wp 0x1f in
  if parent_carries_io wsi then
    let t := [EvChildWriteViaParent buf len wp] in
    if negb (child_write_via_parent E buf len wp =? 0)
    then done (Ret 1) wsi m t
    else done (Ret (to_int len)) wsi m t
  else
  let t := [EvStats LWSSTATS_C_API_LWS_WRITE 1] in
  if to_int len <? 0 then done (Ret (-1)) wsi m t else
  let t := t ++ [EvStats LWSSTATS_B_WRITE len] in
  let wsi :=
    set_tx_accounting wsi
      (option_map (fun tx => to_u64 (tx + len)) (vhost_tx wsi))
      (if with_access_log B
       then to_size (lp64 B) (access_log_sent wsi + len)
       else access_log_sent wsi) in
  let '(wsi, wp, wp1f, t) :=
    match ws wsi with
    | Some w =>
      if tx_draining_ext w && lws_state_is_ws E (state wsi) then
        let wp' := Z.lor (Z.land (tx_draining_stashed_wp w) 0xc0)
                         (LWS_WRITE_CONTINUATION K) in
        (set_ws wsi (set_draining w false (tx_draining_stashed_wp w)),
         wp', Z.land wp' 0x1f, t ++ [EvDrainListRemove])
      else (wsi, wp, wp1f, t)
    | None => (wsi, wp, wp1f, t)
    end in
  let t := t ++ [EvRestartPingPongTimer] in
  if (wp1f =? LWS_WRITE_HTTP K) || (wp1f =? LWS_WRITE_HTTP_FINAL K) ||
     (wp1f =? LWS_WRITE_HTTP_HEADERS_CONTINUATION K) ||
     (wp1f =? LWS_WRITE_HTTP_HEADERS K)
  then send_raw wsi m buf len 0 wp wp1f orig_len t else
  (* if not in a state to send ws stuff, then just send nothing *)
  if negb (lws_state_is_ws E (state wsi)) &&
     ((negb (state_eqb (state wsi) LWSS_RETURNED_CLOSE_ALREADY) &&
       negb (state_eqb (state wsi) LWSS_WAITING_TO_SEND_CLOSE_NOTIFICATION) &&
       negb (state_eqb (state wsi) LWSS_AWAITING_CLOSE_ACK)) ||
      negb (wp1f =? LWS_WRITE_CLOSE K))
  then done (Ret 0) wsi m t else
  match ws wsi with
  | None => done NullDeref wsi m t
  | Some w =>
    (* if we are continuing a frame that already had its header done *)
    if inside_frame w then
      do_more_inside_frame wsi w m buf len 0 0 wp wp1f orig_len t
    else
      match payload_tx_stage w buf len wp wp1f with
      | TxReturn v w' te => done (Ret v) (set_ws wsi w') m (t ++ te)
      | TxContinue w' buf len wp wp1f te =>
        if ietf_spec_revision w' =? 13 then
          match ws_frame_header masked7 m buf len wp with
          | None => done (Ret (-1)) (set_ws wsi w') m (t ++ te)
          | Some f =>
            do_more_inside_frame wsi w' (fr_mem f) buf len (fr_pre f)
                                 (fr_dropmask f) wp wp1f orig_len (t ++ te)
          end
        else
          do_more_inside_frame wsi w' m buf len 0 0 wp wp1f orig_len (t ++ te)
      end
  end.

End Write.

(** ** The file fragment pump: the payload stage of
       [lws_serve_http_file_fragment]

    One pass of the loop body from the test [filepos == filelen] to the
    call of [lws_write]: the payload is assembled in the per-thread
    scratch buffer and the arguments of the write are fixed. *)

(** What the pump needs from outside the file. *)
Record pump_environment := {
  (* lws_vfs_file_seek_cur (fop_fd, offset) *)
  lws_vfs_file_seek_cur : Z -> Z;
  (* lws_vfs_file_read (fop_fd, &amount, p, poss): the return value and
     the bytes delivered at p; amount is their number *)
  lws_vfs_file_read : Z -> Z -> Z * list Z;
  (* lws_h2_tx_cr_get (wsi) *)
  lws_h2_tx_cr_get : Z;
  (* the LWS_CALLBACK_PROCESS_HTML callback on args = {p, len, max_len,
     final, chunked}: the return value, args.p and args.len afterwards,
     and the memory it leaves *)
  process_html : memory -> Z -> Z -> Z -> bool -> bool -> Z * (Z * Z) * memory;
  (* lws_snprintf (str, size, format, ...) applied to the expansion of the
     format: the memory afterwards and the return value *)
  lws_snprintf : memory -> Z -> Z -> list Z -> memory * Z
}.

(** [lws_snprintf] is defined in lib/libwebsockets.c, not in this file.
    This is the bounded formatter of ISO C that it wraps: at most
    [size - 1] characters of the expansion are stored, followed by a
    terminating NUL, and the count that is returned never exceeds
    [size]. *)
Definition snprintf_bounded (m : memory) (str size : Z) (text : list Z)
  : memory * Z :=
  if size =? 0 then (m, 0)
  else
    let n := Z.of_nat (length text) in
    (store_bytes m str (firstn (Z.to_nat (size - 1)) text ++ [0]),
     if n >=? to_int size then to_int size else n).

(** The expansion of [%llu]. *)
Fixpoint digits (fuel : nat) (x : Z) (acc : list Z) : list Z :=
  match fuel with
  | O => acc
  | S f =>
      let acc' := (48 + x mod 10) :: acc in
      if x / 10 =? 0 then acc' else digits f (x / 10) acc'
  end.

Definition llu (x : Z) : list Z := digits 20 (to_u64 x) [].

Definition CRLF : list Z := [13; 10].

(** ["_lws\x0d\x0a"] *)
Definition boundary : list Z := [95; 108; 119; 115] ++ CRLF.

(** ["Content-Type: "] and ["Content-Range: bytes "] *)
Definition content_type_ : list Z :=
  [67; 111; 110; 116; 101; 110; 116; 45; 84; 121; 112; 101; 58; 32].
Definition content_range_bytes_ : list Z :=
  [67; 111; 110; 116; 101; 110; 116; 45; 82; 97; 110; 103; 101; 58; 32;
   98; 121; 116; 101; 115; 32].

(** The expansion of the part header format
    ["_lws\r\nContent-Type: %s\r\nContent-Range: bytes %llu-%llu/%llu\r\n\r\n"]. *)
Definition part_header (type : list Z) (start end_ extent : Z) : list Z :=
  boundary ++ content_type_ ++ type ++ CRLF ++
  content_range_bytes_ ++ llu start ++ [45] ++ llu end_ ++ [47] ++ llu extent ++
  CRLF ++ CRLF.

Definition set_range (h : lws_http) (pos : Z) (r : lws_range_parsing) : lws_http :=
  {| filepos := pos; filelen := filelen h;
     tx_content_length := tx_content_length h;
     tx_content_remain := tx_content_remain h;
     multipart_content_type := multipart_content_type h;
     range := r |}.

(** How one pass ends before or at the write. *)
Inductive fragment :=
| FileHadIt                       (* goto file_had_it *)
| NoTxCredit                      (* return 0: no HTTP/2 tx credit *)
| AllSent                         (* goto all_sent: filepos == filelen *)
| NothingToSend (wsi : lws) (m : memory)      (* n == 0 *)
| WriteFragment (wsi : lws) (m : memory) (p n wp amount : Z).

Section Pump.

Variable K : lws_write_protocol.
Variable B : build.
Variable cx : lws_context.
Variable P : pump_environment.

Definition serve_http_file_fragment_payload (wsi : lws) (m : memory) : fragment :=
  let h := http wsi in
  if filepos h =? filelen h then AllSent else
  let pstart := serv_buf cx + LWS_H2_FRAME_HEADER_LENGTH B in
  let r := range h in
  (* entering a range *)
  let enter := with_ranges B && negb (range_count_ranges r =? 0) &&
               negb (range_inside r) in
  if enter && (lws_vfs_file_seek_cur P (to_u64 (range_start r - filepos h)) <? 0)
  then FileHadIt else
  let '(h, m, n) :=
    if enter then
      let '(m, n) :=
        if range_count_ranges r >? 1 then
          lws_snprintf P m pstart
            (to_uint (pt_serv_buf_size cx - LWS_H2_FRAME_HEADER_LENGTH B))
            (part_header (multipart_content_type h)
                         (range_start r) (range_end r) (range_extent r))
        else (m, 0) in
      (set_range h (range_start r)
         {| range_start := range_start r; range_end := range_end r;
            range_extent := range_extent r;
            range_budget := to_u64 (range_end r - range_start r + 1);
            range_inside := true;
            range_send_ctr := range_send_ctr r;
            range_count_ranges := range_count_ranges r |},
       m, n)
    else (h, m, 0) in
  let r := range h in
  let p := pstart + n in
  let poss := to_uint (pt_serv_buf_size cx - n - LWS_H2_FRAME_HEADER_LENGTH B) in
  let poss :=
    if negb (tx_content_length h =? 0) && (poss >? tx_content_remain h)
    then tx_content_remain h else poss in
  (* a hint about how much we will do well to send at one time *)
  let poss :=
    if negb (tx_packet_size (protocol wsi) =? 0) &&
       (poss >? tx_packet_size (protocol wsi))
    then tx_packet_size (protocol wsi) else poss in
  if with_http2 B && (lws_h2_tx_cr_get P =? 0) then NoTxCredit else
  let poss :=
    if with_http2 B && (to_u64 (lws_h2_tx_cr_get P) <? poss)
    then to_u64 (lws_h2_tx_cr_get P) else poss in
  let poss :=
    if with_ranges B && negb (range_count_ranges r =? 0) then
      (* allow for final boundary *)
      let poss := if range_count_ranges r >? 1 then to_u64 (poss - 7) else poss in
      if poss >? range_budget r then range_budget r else poss
    else poss in
  let '(p, poss) :=
    if sending_chunked wsi then (p + 10, to_u64 (poss - (10 + 128)))
    else (p, poss) in
  let '(rd, bytes) := lws_vfs_file_read P p poss in
  if rd <? 0 then FileHadIt else
  let amount := Z.of_nat (length bytes) in
  let m := store_bytes m p bytes in
  let n := if sending_chunked wsi then to_int amount
           else (p - pstart) + to_int amount in
  let wsi := set_h2_http wsi (h2 wsi) h in
  if n =? 0 then NothingToSend wsi m else
  let interpreted :=
    if interpreting wsi then
      process_html P m p n (to_uint poss + 128)
                   (to_u64 (filepos h + n) =? filelen h) (sending_chunked wsi)
    else (0, (pstart, n), m) in
  let '(cb, (p, n), m) := interpreted in
  if cb <? 0 then FileHadIt else
  let '(m, n) :=
    if with_ranges B &&
       (range_send_ctr r + 1 =? range_count_ranges r) &&   (* last range *)
       (range_count_ranges r >? 1) &&          (* was 2+ ranges (ie, multipart) *)
       (to_u64 (range_budget r - amount) =? 0)               (* final part *)
    then
      (* append trailing boundary *)
      let '(m, k) := lws_snprintf P m (pstart + n) 6 boundary in
      (m, n + k)
    else (m, n) in
  WriteFragment wsi m p n
    (if to_u64 (filepos h + amount) =? filelen h
     then LWS_WRITE_HTTP_FINAL K else LWS_WRITE_HTTP K)
    amount.

End Pump.

(** ** Vocabulary of the statements *)

(** Big-endian encoding of [x] on [k] bytes. *)
Fixpoint be_bytes (k : nat) (x : Z) : list Z :=
  match k with
  | O => []
  | S k' => (x / 2 ^ (8 * Z.of_nat k')) mod 256 :: be_bytes k' x
  end.

(** The transport attempts of a call: the byte counts offered to the
    socket, in order. *)
Fixpoint offered (t : list event) : list Z :=
  match t with
  | [] => []
  | EvSend _ len _ :: t' => len :: offered t'
  | _ :: t' => offered t'
  end.

(** The bytes put before the transport by a call, in order. *)
Fixpoint offered_bytes (t : list event) : list Z :=
  match t with
  | [] => []
  | EvSend _ _ bytes :: t' => bytes ++ offered_bytes t'
  | _ :: t' => offered_bytes t'
  end.

(** How often a call asked for another writable notification. *)
Fixpoint rearms (t : list event) : nat :=
  match t with
  | [] => O
  | EvCallbackOnWritable :: t' => S (rearms t')
  | _ :: t' => rearms t'
  end.

(** The outcome is a negative return value. *)
Definition failed (o : outcome) : Prop :=
  match o with Ret v => v < 0 | _ => False end.

(** The call was turned away: a negative return value, or the abort of
    the failing [assert] in a build that keeps assertions. *)
Definition rejected (o : outcome) : Prop :=
  match o with Ret v => v < 0 | AssertFailed => True | NullDeref => False end.

(** The truncation-buffer invariant of the connection. *)
Definition trunc_invariant (wsi : lws) : Prop :=
  0 < trunc_len wsi -> trunc_offset wsi + trunc_len wsi <= trunc_alloc_len wsi.

(** The three [unsigned int] fields hold values of their type. *)
Definition trunc_fields_in_range (wsi : lws) : Prop :=
  0 <= trunc_alloc_len wsi < 2 ^ 32 /\
  0 <= trunc_offset wsi < 2 ^ 32 /\
  0 <= trunc_len wsi < 2 ^ 32.

(** What the transport took of a write of [len] bytes at [buf]: [None]
    when it failed for good, nothing when it asked to be called later. *)
Definition accepted (E : environment) (buf len : Z) : option Z :=
  match fst (lws_ssl_capable_write_no_ssl E buf len) with
  | Wrote k => Some k
  | LWS_SSL_CAPABLE_MORE_SERVICE => Some 0
  | LWS_SSL_CAPABLE_ERROR => None
  end.

(** No extension takes the packet over: the build has no extensions, or
    the [PACKET_TX_DO_SEND] callback answers 0 and leaves [buf] alone. *)
Definition ext_passes (B : build) (E : environment) (buf len : Z) : Prop :=
  without_extensions B = true \/
  ext_packet_tx_do_send E buf (to_int len) = (0, buf).

(** [send] gives back -1 or a count that is at most what it was asked to
    send; an extension that handles a packet handles at most the bytes it
    was given. *)
Definition send_contract (E : environment) : Prop :=
  forall buf len, fst (socket_send E buf len) = -1 \/
                  0 <= fst (socket_send E buf len) <= len.

Definition ext_contract (E : environment) : Prop :=
  forall buf len, fst (ext_packet_tx_do_send E buf len) <= Z.max 0 len.

(** The bytes still owed to the peer, as the truncation buffer holds
    them. *)
Definition pending_bytes (wsi : lws) (m : memory) : list Z :=
  load_bytes m (trunc_alloc wsi + trunc_offset wsi) (trunc_len wsi).

(** The size cap of one transport attempt, as section 4.3 of the
    specification words it. *)
Definition rate_cap (B : build) (cx : lws_context) (wsi : lws) : Z :=
  Z.max (Z.max (tx_packet_size (protocol wsi)) (rx_buffer_size (protocol wsi)))
        (pt_serv_buf_size cx) + LWS_PRE B + 4.

(** ** Sample data

    The values of [enum lws_write_protocol] in libwebsockets.h, a 64-bit
    release build without extensions, and a connection with an
    established WebSocket session. *)

Definition libwebsockets_h : lws_write_protocol :=
  {| LWS_WRITE_TEXT := 0; LWS_WRITE_BINARY := 1; LWS_WRITE_CONTINUATION := 2;
     LWS_WRITE_HTTP := 3; LWS_WRITE_CLOSE := 4; LWS_WRITE_PING := 5;
     LWS_WRITE_PONG := 6; LWS_WRITE_HTTP_FINAL := 7;
     LWS_WRITE_HTTP_HEADERS := 8; LWS_WRITE_HTTP_HEADERS_CONTINUATION := 9;
     LWS_WRITE_NO_FIN := 0x40; LWS_WRITE_H2_STREAM_END := 0x80 |}.

Definition release64 : build :=
  {| lp64 := true; ndebug := true; without_extensions := true;
     with_http2 := false; with_ranges := true; with_access_log := false;
     LWS_PRE := 16; LWS_H2_FRAME_HEADER_LENGTH := 9 |}.

Definition debug64 : build :=
  {| lp64 := true; ndebug := false; without_extensions := true;
     with_http2 := false; with_ranges := true; with_access_log := false;
     LWS_PRE := 16; LWS_H2_FRAME_HEADER_LENGTH := 9 |}.

Definition release32 : build :=
  {| lp64 := false; ndebug := true; without_extensions := true;
     with_http2 := false; with_ranges := true; with_access_log := false;
     LWS_PRE := 16; LWS_H2_FRAME_HEADER_LENGTH := 9 |}.

Definition context4k : lws_context :=
  {| pt_serv_buf_size := 4096; serv_buf := 100000; timeout_secs := 5 |}.

(** A world whose socket takes at most [room] bytes per [send], whose
    allocator answers [heap], whose random source delivers the nonce
    A1 B2 C3 D4 and whose parent callback answers [parent].  The [errno]
    numbers are those of Linux: EAGAIN and EWOULDBLOCK are 11, EINTR is
    4, and 32 is EPIPE. *)
Definition world (room heap parent : Z) : environment :=
  {| ext_packet_tx_do_send := fun b _ => (0, b);
     ext_payload_tx := fun b l _ => (0, (b, l));
     lws_socket_is_valid := true;
     socket_send := fun _ l => (if l <? 0 then -1 else Z.min room l, 32);
     LWS_EAGAIN := 11; LWS_EWOULDBLOCK := 11; LWS_EINTR := 4;
     lws_malloc := fun _ => heap;
     lws_get_random := (4, [161; 178; 195; 212]);
     child_write_via_parent := fun _ _ _ => parent;
     lws_state_is_ws := fun s => state_eqb s LWSS_ESTABLISHED;
     lws_h2_frame_write := fun m _ _ _ l _ => (l, m, []) |}.

(** A world whose socket answers EWOULDBLOCK. *)
Definition blocked_world : environment :=
  {| ext_packet_tx_do_send := fun b _ => (0, b);
     ext_payload_tx := fun b l _ => (0, (b, l));
     lws_socket_is_valid := true;
     socket_send := fun _ _ => (-1, 11);
     LWS_EAGAIN := 11; LWS_EWOULDBLOCK := 11; LWS_EINTR := 4;
     lws_malloc := fun _ => 5000;
     lws_get_random := (4, [161; 178; 195; 212]);
     child_write_via_parent := fun _ _ _ => 0;
     lws_state_is_ws := fun s => state_eqb s LWSS_ESTABLISHED;
     lws_h2_frame_write := fun m _ _ _ l _ => (l, m, []) |}.

Definition ws_idle : lws_ws :=
  {| mask := [0; 0; 0; 0]; mask_idx := 0; inside_frame := false;
     clean_buffer := true; tx_draining_ext := false;
     tx_draining_stashed_wp := 0; stashed_write_pending := false;
     stashed_write_type := 0; ietf_spec_revision := 13 |}.


Definition no_range : lws_range_parsing :=
  {| range_start := 0; range_end := 0; range_extent := 0; range_budget := 0;
     range_inside := false; range_send_ctr := 0; range_count_ranges := 0 |}.

(** A connection that still owes the peer the [len] bytes at [offset] of
    the truncation buffer at [alloc]. *)
Definition owing (wsi : lws) (alloc alloc_len offset len : Z) : lws :=
  set_trunc wsi alloc alloc_len offset len.

Definition connection (md : connection_mode) (w : lws_ws) : lws :=
  {| could_have_pending := false; socket_is_permanently_unusable := false;
     state := LWSS_ESTABLISHED; mode := md;
     trunc_alloc := 0; trunc_alloc_len := 0; trunc_offset := 0; trunc_len := 0;
     protocol := {| tx_packet_size := 0; rx_buffer_size := 0 |};
     http2_substream := false; parent_carries_io := false;
     h2_stream_carries_ws := false; sending_chunked := false;
     interpreting := false; vhost_tx := Some 0; access_log_sent := 0;
     ws := Some w; h2 := {| send_END_STREAM := false; my_sid := 1 |};
     http := {| filepos := 0; filelen := 0; tx_content_length := 0;
                tx_content_remain := 0; multipart_content_type := [];
                range := no_range |} |}.

(** A memory whose byte at address [a] is [a mod 256]. *)
Definition ramp : memory := fun a => a mod 256.

(** A connection whose I/O is carried by its parent. *)
Definition carried_by_parent (wsi : lws) : lws :=
  {| could_have_pending := could_have_pending wsi;
     socket_is_permanently_unusable := socket_is_permanently_unusable wsi;
     state := state wsi; mode := mode wsi;
     trunc_alloc := trunc_alloc wsi; trunc_alloc_len := trunc_alloc_len wsi;
     trunc_offset := trunc_offset wsi; trunc_len := trunc_len wsi;
     protocol := protocol wsi; http2_substream := http2_substream wsi;
     parent_carries_io := true;
     h2_stream_carries_ws := h2_stream_carries_ws wsi;
     sending_chunked := sending_chunked wsi; interpreting := interpreting wsi;
     vhost_tx := vhost_tx wsi; access_log_sent := access_log_sent wsi;
     ws := ws wsi; h2 := h2 wsi; http := http wsi |}.

(** The second of two ranges of a 1000-byte file, bytes 990-999, with
    the part header already sent. *)
Definition last_range : lws_range_parsing :=
  {| range_start := 990; range_end := 999; range_extent := 1000;
     range_budget := 10; range_inside := true;
     range_send_ctr := 1; range_count_ranges := 2 |}.

Definition serving_last_range : lws :=
  set_h2_http (connection LWSCM_HTTP_SERVING ws_idle)
    {| send_END_STREAM := false; my_sid := 1 |}
    {| filepos := 990; filelen := 1000; tx_content_length := 0;
       tx_content_remain := 0; multipart_content_type := [];
       range := last_range |}.

(** The same connection before it enters that range: the first range,
    bytes 0-9, has been sent. *)
Definition entering_last_range : lws :=
  set_h2_http (connection LWSCM_HTTP_SERVING ws_idle)
    {| send_END_STREAM := false; my_sid := 1 |}
    {| filepos := 10; filelen := 1000; tx_content_length := 0;
       tx_content_remain := 0;
       multipart_content_type := [116; 101; 120; 116];
       range := {| range_start := 990; range_end := 999;
                   range_extent := 1000; range_budget := 0;
                   range_inside := false;
                   range_send_ctr := 1; range_count_ranges := 2 |} |}.

(** A file whose every read delivers the ten bytes 0 .. 9. *)
Definition ten_byte_file : pump_environment :=
  {| lws_vfs_file_seek_cur := fun _ => 0;
     lws_vfs_file_read := fun _ _ => (0, [0; 1; 2; 3; 4; 5; 6; 7; 8; 9]);
     lws_h2_tx_cr_get := 65535;
     process_html := fun m p n _ _ _ => (0, (p, n), m);
     lws_snprintf := snprintf_bounded |}.

(** ** The file fragment pump: one pass of the loop of
    [lws_serve_http_file_fragment]

    [serve_http_file_fragment_payload] above is the part of the loop body
    that prepares a fragment.  What follows is the whole body: the
    [lws_send_pipe_choked] test of the loop head, the replay of a pending
    truncation, the write, the bookkeeping after it and the completion
    block at the label [all_sent].  The file is a stream with a position
    of its own, which the oracles of [pump_environment] do not carry from
    one call to the next, so the unit that is modelled is one pass.
    Timeouts ([lws_set_timeout]) and log lines leave no trace. *)

Record service_environment := {
  (* lws_send_pipe_choked (wsi): the answer and the connection afterwards *)
  lws_send_pipe_choked : lws -> bool * lws;
  (* lws_ranges_next (&wsi->http.range): the return value and the range
     afterwards *)
  lws_ranges_next : lws_range_parsing -> Z * lws_range_parsing;
  (* user_callback_handle_rxflow (wsi->protocol->callback, wsi,
     LWS_CALLBACK_HTTP_FILE_COMPLETION, ..): None when
     wsi->protocol->callback is NULL *)
  http_file_completion : option Z;
  (* the conversion to the type of range.send_ctr, which is declared
     outside this file *)
  to_send_ctr : Z -> Z
}.

Definition set_state (w : lws) (s : lws_connection_states) : lws :=
  {| could_have_pending := could_have_pending w;
     socket_is_permanently_unusable := socket_is_permanently_unusable w;
     state := s; mode := mode w;
     trunc_alloc := trunc_alloc w; trunc_alloc_len := trunc_alloc_len w;
     trunc_offset := trunc_offset w; trunc_len := trunc_len w;
     protocol := protocol w; http2_substream := http2_substream w;
     parent_carries_io := parent_carries_io w;
     h2_stream_carries_ws := h2_stream_carries_ws w;
     sending_chunked := sending_chunked w; interpreting := interpreting w;
     vhost_tx := vhost_tx w; access_log_sent := access_log_sent w;
     ws := ws w; h2 := h2 w; http := http w |}.

(** How one pass of the loop ends.  [t] is what the pass did through
    [lws_issue_raw] and [lws_write], oldest event first. *)
Inductive pass :=
| Stopped (o : outcome)            (* an assert or a NULL [wsi->ws] in a callee *)
| FileClosed (t : list event)      (* file_had_it: the file is closed, return -1 *)
| NoCredit                         (* return 0: no HTTP/2 tx credit *)
| Choked (wsi : lws) (m : memory) (t : list event)
                                   (* the loop is left: return 0 *)
| Completed (v : Z) (wsi : lws) (m : memory) (t : list event)
                                   (* the file is closed, return v *)
| NextPass (wsi : lws) (m : memory) (t : list event).
                                   (* back to the loop head *)

Section PumpPass.

Variable K : lws_write_protocol.
Variable B : build.
Variable cx : lws_context.
Variable E : environment.
Variable P : pump_environment.
Variable S : service_environment.

(** From the label [all_sent] to the end of the loop body. *)
Definition all_sent (finished : bool) (wsi : lws) (m : memory)
    (t : list event) : pass :=
  if ((trunc_len wsi =? 0) && (filepos (http wsi) >=? filelen (http wsi)))
     || (with_ranges B && finished)
  then
    let wsi := set_state wsi LWSS_HTTP in
    (* we might be in keepalive, so close it off here *)
    match http_file_completion S with
    | Some r =>
        if r <? 0 then Completed (if http2_substream wsi then 1 else -1) wsi m t
        else Completed 1 wsi m t
    | None => Completed 1 wsi m t   (* >0 indicates completed *)
    end
  else NextPass wsi m t.

(** [wsi->http.range] after [budget -= amount]. *)
Definition spend_budget (r : lws_range_parsing) (amount : Z) : lws_range_parsing :=
  {| range_start := range_start r; range_end := range_end r;
     range_extent := range_extent r;
     range_budget := to_u64 (range_budget r - amount);
     range_inside := range_inside r;
     range_send_ctr := range_send_ctr r;
     range_count_ranges := range_count_ranges r |}.

(** [range.inside = 0; range.send_ctr++] *)
Definition leave_range (r : lws_range_parsing) : lws_range_parsing :=
  {| range_start := range_start r; range_end := range_end r;
     range_extent := range_extent r;
     range_budget := range_budget r;
     range_inside := false;
     range_send_ctr := to_send_ctr S (range_send_ctr r + 1);
     range_count_ranges := range_count_ranges r |}.

(** From the return of [lws_write (wsi, p, n, ..)], whose result is [w], to
    the end of the loop body. *)
Definition after_write (w : result) (n amount : Z) : pass :=
  match res w with
  | Ret m_ =>
      if m_ <? 0 then FileClosed (trace w) else
      let wsi := wsi_out w in
      let h := http wsi in
      let pos := to_u64 (filepos h + amount) in
      let '(r, finished) :=
        if with_ranges B && (range_count_ranges (range h) >=? 1) then
          let r := spend_budget (range h) amount in
          if range_budget r =? 0 then
            (* range budget exhausted *)
            let '(nx, r') := lws_ranges_next S (leave_range r) in
            (r', nx <? 1)
          else (r, false)
        else (range h, false) in
      let wsi := set_h2_http wsi (h2 wsi) (set_range h pos r) in
      if finished then all_sent true wsi (mem_out w) (trace w)
      else if negb (m_ =? n) && (lws_vfs_file_seek_cur P (m_ - n) =? -1)
      then FileClosed (trace w)   (* adjust for what was not sent *)
      else all_sent false wsi (mem_out w) (trace w)
  | o => Stopped o
  end.

(** The replay of a pending truncation. *)
Definition replay_truncated (wsi : lws) (m : memory) : pass :=
  let r := lws_issue_raw B cx E wsi m (trunc_alloc wsi + trunc_offset wsi)
                         (trunc_len wsi) in
  match res r with
  | Ret v => if v <? 0 then FileClosed (trace r)
             else NextPass (wsi_out r) (mem_out r) (trace r)
  | o => Stopped o
  end.

(** One evaluation of the loop condition followed, when the pipe is not
    choked, by the loop body. *)
Definition serve_http_file_fragment_pass (wsi : lws) (m : memory) : pass :=
  let '(choked, wsi) := lws_send_pipe_choked S wsi in
  if choked then Choked wsi m [EvCallbackOnWritable]
  else if negb (trunc_len wsi =? 0) then replay_truncated wsi m
  else
    match serve_http_file_fragment_payload K B cx P wsi m with
    | FileHadIt => FileClosed []
    | NoTxCredit => NoCredit
    | AllSent => all_sent false wsi m []
    | NothingToSend wsi m => all_sent false wsi m []
    | WriteFragment wsi m p n wp amount =>
        after_write (lws_write K B cx E wsi m p (to_size (lp64 B) n) wp) n amount
    end.

End PumpPass.

(** ** Vocabulary of the further properties *)

(** The entry conditions under which a call gets as far as the socket. *)
Definition reaches_transport (B : build) (E : environment) (wsi : lws)
    (buf len : Z) : Prop :=
  could_have_pending wsi = false /\
  len <> 0 /\
  state_eqb (state wsi) LWSS_FLUSHING_SEND_BEFORE_CLOSE &&
    (trunc_len wsi =? 0) = false /\
  negb (trunc_len wsi =? 0) &&
    ((buf <? trunc_alloc wsi) ||
     (buf >? trunc_alloc wsi + trunc_len wsi + trunc_offset wsi)) = false /\
  ext_passes B E buf len.

(** The four HTTP write types, which bypass the WebSocket framing. *)
Definition http_code (K : lws_write_protocol) (c : Z) : bool :=
  (c =? LWS_WRITE_HTTP K) || (c =? LWS_WRITE_HTTP_FINAL K) ||
  (c =? LWS_WRITE_HTTP_HEADERS_CONTINUATION K) ||
  (c =? LWS_WRITE_HTTP_HEADERS K).

(** The three data write types. *)
Definition data_code (K : lws_write_protocol) (c : Z) : bool :=
  (c =? LWS_WRITE_TEXT K) || (c =? LWS_WRITE_BINARY K) ||
  (c =? LWS_WRITE_CONTINUATION K).

(** The states in which a CLOSE frame may still be sent. *)
Definition closing_state (s : lws_connection_states) : bool :=
  state_eqb s LWSS_RETURNED_CLOSE_ALREADY ||
  state_eqb s LWSS_WAITING_TO_SEND_CLOSE_NOTIFICATION ||
  state_eqb s LWSS_AWAITING_CLOSE_ACK.

(** The connection is on the extension drain list and in a state in
    which the dispatcher replays the drain. *)
Definition draining (E : environment) (wsi : lws) : bool :=
  match ws wsi with
  | Some w => tx_draining_ext w && lws_state_is_ws E (state wsi)
  | None => false
  end.

(** The connection after the accounting of a write of [len] bytes. *)
Definition accounted (B : build) (wsi : lws) (len : Z) : lws :=
  set_tx_accounting wsi
    (option_map (fun tx => to_u64 (tx + len)) (vhost_tx wsi))
    (if with_access_log B
     then to_size (lp64 B) (access_log_sent wsi + len)
     else access_log_sent wsi).

(** The connection is served over HTTP/2 by a build that has it. *)
Definition h2_mode (B : build) (wsi : lws) : bool :=
  with_http2 B &&
  (mode_eqb (mode wsi) LWSCM_HTTP2_SERVING ||
   mode_eqb (mode wsi) LWSCM_HTTP2_WS_SERVING).

(** The events of a write before the dispatch. *)
Definition write_prologue (len : Z) : list event :=
  [EvStats LWSSTATS_C_API_LWS_WRITE 1; EvStats LWSSTATS_B_WRITE len;
   EvRestartPingPongTimer].

(** The dispatcher from the test for the HTTP write types on, with the
    write type, the trace and the accounted connection it has reached. *)
Definition write_dispatch (K : lws_write_protocol) (B : build)
    (cx : lws_context) (E : environment) (wsi : lws) (m : memory)
    (buf len wp orig_len : Z) (t : list event) : result :=
  let masked7 := mode_eqb (mode wsi) LWSCM_WS_CLIENT in
  let wp1f := Z.land wp 31 in
  if http_code K wp1f then send_raw K B cx E wsi m buf len 0 wp wp1f orig_len t else
  if negb (lws_state_is_ws E (state wsi)) &&
     ((negb (state_eqb (state wsi) LWSS_RETURNED_CLOSE_ALREADY) &&
       negb (state_eqb (state wsi) LWSS_WAITING_TO_SEND_CLOSE_NOTIFICATION) &&
       negb (state_eqb (state wsi) LWSS_AWAITING_CLOSE_ACK)) ||
      negb (wp1f =? LWS_WRITE_CLOSE K))
  then done (Ret 0) wsi m t else
  match ws wsi with
  | None => done NullDeref wsi m t
  | Some w =>
    if inside_frame w then
      do_more_inside_frame K B cx E wsi w m buf len 0 0 wp wp1f orig_len t
    else
      match payload_tx_stage K B E w buf len wp wp1f with
      | TxReturn v w' te => done (Ret v) (set_ws wsi w') m (t ++ te)
      | TxContinue w' buf len wp wp1f te =>
        if ietf_spec_revision w' =? 13 then
          match ws_frame_header K B masked7 m buf len wp with
          | None => done (Ret (-1)) (set_ws wsi w') m (t ++ te)
          | Some f =>
            do_more_inside_frame K B cx E wsi w' (fr_mem f) buf len (fr_pre f)
                                 (fr_dropmask f) wp wp1f orig_len (t ++ te)
          end
        else
          do_more_inside_frame K B cx E wsi w' m buf len 0 0 wp wp1f orig_len
                               (t ++ te)
      end
  end.

(** A connection on which a first fragment of a WebSocket frame can be
    written: not delegated, not draining, in a WebSocket state, with a
    WebSocket block of protocol revision 13 that is not inside a frame
    and has no stashed write type. *)
Definition ready_for_frame (E : environment) (wsi : lws) (w : lws_ws) : Prop :=
  parent_carries_io wsi = false /\
  ws wsi = Some w /\
  tx_draining_ext w = false /\
  inside_frame w = false /\
  stashed_write_pending w = false /\
  ietf_spec_revision w = 13 /\
  lws_state_is_ws E (state wsi) = true.

(** What a pass did through the write path (nothing is kept of a pass
    that stops inside a callee), and the connection and memory it leaves
    when it ends in the loop or at the completion block. *)
Definition pass_trace (p : pass) : list event :=
  match p with
  | Stopped _ | NoCredit => []
  | FileClosed t | Choked _ _ t | Completed _ _ _ t | NextPass _ _ t => t
  end.

Definition pass_state (p : pass) : option (lws * memory) :=
  match p with
  | Completed _ wsi m _ | NextPass wsi m _ => Some (wsi, m)
  | _ => None
  end.

Definition completed (p : pass) : bool :=
  match p with Completed _ _ _ _ => true | _ => false end.

(** How much a pass asks the file for on a connection that is neither in
    a range nor chunked, in a build without HTTP/2. *)
Definition read_budget (B : build) (cx : lws_context) (wsi : lws) : Z :=
  let h := http wsi in
  let poss := to_uint (pt_serv_buf_size cx - 0 - LWS_H2_FRAME_HEADER_LENGTH B) in
  let poss :=
    if negb (tx_content_length h =? 0) && (poss >? tx_content_remain h)
    then tx_content_remain h else poss in
  if negb (tx_packet_size (protocol wsi) =? 0) &&
     (poss >? tx_packet_size (protocol wsi))
  then tx_packet_size (protocol wsi) else poss.

(** The two write types of the pump are HTTP types in [K], and not data
    frames. *)
Definition pump_codes (K : lws_write_protocol) : Prop :=
  forall wp, wp = LWS_WRITE_HTTP K \/ wp = LWS_WRITE_HTTP_FINAL K ->
             http_code K (Z.land wp 31) = true /\
             data_code K (Z.land wp 31) = false.


(** How often a call raised the blocking-send hint
    ([lws_set_blocking_send]). *)
Fixpoint blocking_hints (t : list event) : nat :=
  match t with
  | [] => O
  | EvSetBlockingSend :: t' => S (blocking_hints t')
  | _ :: t' => blocking_hints t'
  end.

(** The [len] bytes at [buf], byte [i] XORed with [nonce[i mod 4]]. *)
Definition masked_payload (m : memory) (buf len : Z) (nonce : list Z) : list Z :=
  map (fun i => Z.lxor (m (buf + Z.of_nat i))
                       (nth (Z.to_nat (Z.of_nat i mod 4)) nonce 0))
      (seq 0 (Z.to_nat len)).

(** The write types that are never shown to the extensions. *)
Definition control_code (K : lws_write_protocol) (wp : Z) : bool :=
  (wp =? LWS_WRITE_PING K) || (wp =? LWS_WRITE_PONG K) ||
  (wp =? LWS_WRITE_CLOSE K).

(** No extension changes the payload of a write: the build has no
    extensions, or the write type is one the extensions are never shown,
    or the [PAYLOAD_TX] callback answers 0 and leaves the buffer and the
    length (the [int] [token_len]) alone. *)
Definition payload_passes (K : lws_write_protocol) (B : build)
    (E : environment) (buf len wp : Z) : Prop :=
  without_extensions B = true \/ control_code K wp = true \/
  ext_payload_tx E buf (to_int len) wp = (0, (buf, to_int len)).

(** How often a call asked the random source for a nonce. *)
Fixpoint nonces_drawn (t : list event) : nat :=
  match t with
  | [] => O
  | EvGetRandom :: t' => S (nonces_drawn t')
  | _ :: t' => nonces_drawn t'
  end.

(** ** Further sample data *)

(** The connection with another [tx_packet_size] in its protocol. *)
Definition with_packet_size (wsi : lws) (size : Z) : lws :=
  {| could_have_pending := could_have_pending wsi;
     socket_is_permanently_unusable := socket_is_permanently_unusable wsi;
     state := state wsi; mode := mode wsi;
     trunc_alloc := trunc_alloc wsi; trunc_alloc_len := trunc_alloc_len wsi;
     trunc_offset := trunc_offset wsi; trunc_len := trunc_len wsi;
     protocol := {| tx_packet_size := size;
                    rx_buffer_size := rx_buffer_size (protocol wsi) |};
     http2_substream := http2_substream wsi;
     parent_carries_io := parent_carries_io wsi;
     h2_stream_carries_ws := h2_stream_carries_ws wsi;
     sending_chunked := sending_chunked wsi; interpreting := interpreting wsi;
     vhost_tx := vhost_tx wsi; access_log_sent := access_log_sent wsi;
     ws := ws wsi; h2 := h2 wsi; http := http wsi |}.

(** The connection in another state. *)
Definition flushing (wsi : lws) : lws :=
  set_state wsi LWSS_FLUSHING_SEND_BEFORE_CLOSE.

Definition in_http_state (wsi : lws) : lws := set_state wsi LWSS_HTTP.

(** A world whose socket is broken. *)
Definition broken_world : environment :=
  {| ext_packet_tx_do_send := fun b _ => (0, b);
     ext_payload_tx := fun b l _ => (0, (b, l));
     lws_socket_is_valid := true;
     socket_send := fun _ _ => (-1, 32);
     LWS_EAGAIN := 11; LWS_EWOULDBLOCK := 11; LWS_EINTR := 4;
     lws_malloc := fun _ => 5000;
     lws_get_random := (3, [161; 178; 195; 0]);
     child_write_via_parent := fun _ _ _ => 0;
     lws_state_is_ws := fun s => state_eqb s LWSS_ESTABLISHED;
     lws_h2_frame_write := fun m _ _ _ l _ => (l, m, []) |}.

(** A WebSocket block on the drain list; the write that started the
    drain was a TEXT with its FIN. *)
Definition ws_draining : lws_ws :=
  {| mask := [0; 0; 0; 0]; mask_idx := 0; inside_frame := false;
     clean_buffer := true; tx_draining_ext := true;
     tx_draining_stashed_wp := 0; stashed_write_pending := false;
     stashed_write_type := 0; ietf_spec_revision := 13 |}.

(** A build with extensions compiled in. *)
Definition extensions64 : build :=
  {| lp64 := true; ndebug := true; without_extensions := false;
     with_http2 := false; with_ranges := true; with_access_log := false;
     LWS_PRE := 16; LWS_H2_FRAME_HEADER_LENGTH := 9 |}.

(** A world whose extension answers the [PACKET_TX_DO_SEND] callback with
    [k], leaving the buffer where it is. *)
Definition taken_over (k : Z) : environment :=
  {| ext_packet_tx_do_send := fun b _ => (k, b);
     ext_payload_tx := fun b l _ => (0, (b, l));
     lws_socket_is_valid := true;
     socket_send := fun _ l => (if l <? 0 then -1 else l, 32);
     LWS_EAGAIN := 11; LWS_EWOULDBLOCK := 11; LWS_EINTR := 4;
     lws_malloc := fun _ => 5000;
     lws_get_random := (4, [161; 178; 195; 212]);
     child_write_via_parent := fun _ _ _ => 0;
     lws_state_is_ws := fun s => state_eqb s LWSS_ESTABLISHED;
     lws_h2_frame_write := fun m _ _ _ l _ => (l, m, []) |}.

(** A pipe that is never choked, whose check clears [could_have_pending]
    the way the event loop does before a writable callback; a single
    range, a completion callback that answers 0. *)
Definition open_pipe : service_environment :=
  {| lws_send_pipe_choked := fun w => (false, set_could_have_pending w false);
     lws_ranges_next := fun r => (0, r);
     http_file_completion := Some 0;
     to_send_ctr := fun x => x |}.

(** An HTTP/1 connection that serves a ten-byte file from its start. *)
Definition serving_file : lws :=
  set_h2_http (in_http_state (connection LWSCM_HTTP_SERVING ws_idle))
    {| send_END_STREAM := false; my_sid := 1 |}
    {| filepos := 0; filelen := 10; tx_content_length := 0;
       tx_content_remain := 0; multipart_content_type := [];
       range := no_range |}.

(** An HTTP/2 build, and a connection served over HTTP/2 that still owes
    its peer the last 4 bytes of a body with a Content-Length. *)
Definition h2_build : build :=
  {| lp64 := true; ndebug := true; without_extensions := true;
     with_http2 := true; with_ranges := true; with_access_log := false;
     LWS_PRE := 16; LWS_H2_FRAME_HEADER_LENGTH := 9 |}.

Definition h2_last_bytes : lws :=
  {| could_have_pending := false; socket_is_permanently_unusable := false;
     state := LWSS_HTTP; mode := LWSCM_HTTP2_SERVING;
     trunc_alloc := 0; trunc_alloc_len := 0; trunc_offset := 0; trunc_len := 0;
     protocol := {| tx_packet_size := 0; rx_buffer_size := 0 |};
     http2_substream := true; parent_carries_io := false;
     h2_stream_carries_ws := false; sending_chunked := false;
     interpreting := false; vhost_tx := Some 0; access_log_sent := 0;
     ws := None; h2 := {| send_END_STREAM := false; my_sid := 3 |};
     http := {| filepos := 0; filelen := 0; tx_content_length := 100;
                tx_content_remain := 4; multipart_content_type := [];
                range := no_range |} |}.

(** A world whose HTTP/2 framer writes a 9-byte frame header (the
    length on 3 bytes, then zeros) into the headroom and sends header and
    payload in one piece. *)
Definition framing_world : environment :=
  {| ext_packet_tx_do_send := fun b _ => (0, b);
     ext_payload_tx := fun b l _ => (0, (b, l));
     lws_socket_is_valid := true;
     socket_send := fun _ l => (if l <? 0 then -1 else l, 32);
     LWS_EAGAIN := 11; LWS_EWOULDBLOCK := 11; LWS_EINTR := 4;
     lws_malloc := fun _ => 5000;
     lws_get_random := (4, [161; 178; 195; 212]);
     child_write_via_parent := fun _ _ _ => 0;
     lws_state_is_ws := fun s => state_eqb s LWSS_ESTABLISHED;
     lws_h2_frame_write := fun m _ _ _ l b =>
       let m' := store_bytes m (b - 9) (be_bytes 3 l ++ [0; 0; 0; 0; 0; 0]) in
       (l, m', [(b - 9, l + 9, load_bytes m' (b - 9) (l + 9))]) |}.


(** A world with a compressing extension: it swallows writes of 5 bytes
    and answers every other write with 9 bytes of its own at 7000. *)
Definition compressing_world : environment :=
  {| ext_packet_tx_do_send := fun b _ => (0, b);
     ext_payload_tx := fun _ l _ => (0, (7000, if l =? 5 then 0 else 9));
     lws_socket_is_valid := true;
     socket_send := fun _ l => (if l <? 0 then -1 else l, 32);
     LWS_EAGAIN := 11; LWS_EWOULDBLOCK := 11; LWS_EINTR := 4;
     lws_malloc := fun _ => 5000;
     lws_get_random := (4, [161; 178; 195; 212]);
     child_write_via_parent := fun _ _ _ => 0;
     lws_state_is_ws := fun s => state_eqb s LWSS_ESTABLISHED;
     lws_h2_frame_write := fun m _ _ _ l _ => (l, m, []) |}.

(** * Properties *)

(** ** Machine integers *)

Lemma to_uint_small x : 0 <= x < 2 ^ 32 -> to_uint x = x.
Proof. intros H. unfold to_uint. apply Z.mod_small. exact H. Qed.

Lemma to_int_small x : 0 <= x <= INT_MAX -> to_int x = x.
Proof.
  unfold to_int, INT_MAX. intros H.
  rewrite Z.mod_small by lia.
  destruct (Z.ltb_spec x (2 ^ 31)); lia.
Qed.

Lemma to_uint_range x : 0 <= to_uint x < 2 ^ 32.
Proof. unfold to_uint. apply Z.mod_pos_bound. lia. Qed.

Lemma to_uint_le x : 0 <= x -> to_uint x <= x.
Proof. intros H. unfold to_uint. apply Z.mod_le; lia. Qed.

Lemma to_int_le x : 0 <= x -> to_int x <= x.
Proof.
  intros H. unfold to_int.
  pose proof (Z.mod_le x (2 ^ 32) H ltac:(lia)).
  pose proof (Z.mod_pos_bound x (2 ^ 32) ltac:(lia)).
  destruct (Z.ltb_spec (x mod 2 ^ 32) (2 ^ 31)); lia.
Qed.

Lemma to_int_range x : - 2 ^ 31 <= to_int x <= INT_MAX.
Proof.
  unfold to_int, INT_MAX.
  pose proof (Z.mod_pos_bound x (2 ^ 32) ltac:(lia)).
  destruct (Z.ltb_spec (x mod 2 ^ 32) (2 ^ 31)); lia.
Qed.

Lemma to_size_small b x : 0 <= x < 2 ^ 32 -> to_size b x = x.
Proof.
  intros H. unfold to_size, size_bits. apply Z.mod_small.
  destruct b; lia.
Qed.

Lemma to_size_to_int lp x : 0 <= to_int x -> to_size lp (to_int x) = to_int x.
Proof.
  intros H. pose proof (to_int_range x) as Hr.
  apply to_size_small. unfold INT_MAX in Hr. lia.
Qed.

(** ** The raw issuer *)

Lemma offered_app t u : offered (t ++ u) = offered t ++ offered u.
Proof.
  induction t as [|e t IH]; simpl; [reflexivity|].
  destruct e; simpl; rewrite ?IH; reflexivity.
Qed.

Lemma rearms_app t u : rearms (t ++ u) = (rearms t + rearms u)%nat.
Proof.
  induction t as [|e t IH]; simpl; [reflexivity|].
  destruct e; simpl; rewrite ?IH; reflexivity.
Qed.

(** The tail of the issuer makes no transport attempt and leaves
    [could_have_pending] alone. *)
Lemma handle_truncated_send_quiet B E wsi m buf real_len n t :
  let r := handle_truncated_send B E wsi m buf real_len n t in
  offered (trace r) = offered t /\
  could_have_pending (wsi_out r) = could_have_pending wsi.
Proof.
  unfold handle_truncated_send.
  repeat match goal with
         | |- context [if ?c then _ else _] => destruct c
         end; simpl; rewrite ?offered_app; simpl;
    rewrite ?app_nil_r; auto.
Qed.

(** The adapter makes exactly one [send]; what it adds to the trace is no
    transport attempt of its own. *)
Lemma adapter_events_quiet E buf len :
  offered (snd (lws_ssl_capable_write_no_ssl E buf len)) = [].
Proof.
  unfold lws_ssl_capable_write_no_ssl.
  destruct (socket_send E buf len) as [r e].
  destruct (to_int r >=? 0); [reflexivity|].
  repeat match goal with
         | |- context [if ?c then _ else _] => destruct c
         end; reflexivity.
Qed.

(** C10.  With [could_have_pending] clear, a write of length 0 returns 0
    at once: the connection (so [could_have_pending] and the four
    truncation fields) and the memory are what they were, the transport
    is not called and no writable notification is asked for. *)
Theorem issue_raw_zero_length B cx E wsi m buf :
  could_have_pending wsi = false ->
  let r := lws_issue_raw B cx E wsi m buf 0 in
  res r = Ret 0 /\
  wsi_out r = wsi /\
  mem_out r = m /\
  offered (trace r) = [] /\
  rearms (trace r) = O /\
  could_have_pending (wsi_out r) = false /\
  trunc_alloc (wsi_out r) = trunc_alloc wsi /\
  trunc_alloc_len (wsi_out r) = trunc_alloc_len wsi /\
  trunc_offset (wsi_out r) = trunc_offset wsi /\
  trunc_len (wsi_out r) = trunc_len wsi.
Proof.
  intros H. unfold lws_issue_raw. rewrite H. simpl.
  repeat split; auto.
Qed.

Lemma issue_raw_zero_length_witness :
  res (lws_issue_raw release64 context4k (world 100 5000 0)
         (connection LWSCM_WS_SERVING ws_idle) ramp 1000 0) = Ret 0.
Proof.
  apply (issue_raw_zero_length release64 context4k (world 100 5000 0)
           (connection LWSCM_WS_SERVING ws_idle) ramp 1000).
  reflexivity.
Defined.

(** Whenever the issuer reaches the transport it leaves
    [could_have_pending] set. *)
Lemma issue_raw_attempt_sets_pending B cx E wsi m buf len :
  let r := lws_issue_raw B cx E wsi m buf len in
  offered (trace r) <> [] -> could_have_pending (wsi_out r) = true.
Proof.
  unfold lws_issue_raw.
  destruct (could_have_pending wsi) eqn:Hp; [simpl; congruence|].
  destruct (len =? 0); [simpl; congruence|].
  destruct (_ && _); [simpl; congruence|].
  destruct (_ && _); [simpl; congruence|].
  destruct (without_extensions B).
  - simpl.
    destruct (lws_ssl_capable_write_no_ssl E buf _) as [r te] eqn:Hw.
    destruct r; simpl; intros _;
      try apply handle_truncated_send_quiet; reflexivity.
  - destruct (ext_packet_tx_do_send E buf (to_int len)) as [mx b].
    destruct (mx <? 0); [simpl; congruence|].
    destruct (negb (mx =? 0)).
    + intros H. exfalso. apply H.
      rewrite (proj1 (handle_truncated_send_quiet B E wsi m b len (to_uint mx) _)).
      reflexivity.
    + destruct (lws_ssl_capable_write_no_ssl E b _) as [r te] eqn:Hw.
      destruct r; simpl; intros _;
        try apply handle_truncated_send_quiet; reflexivity.
Qed.

(** C3.  Entered with [could_have_pending] set, the issuer fails with -1
    and neither calls the transport nor changes anything; every call in
    which the issuer attempts the transport leaves [could_have_pending]
    set, so that a second issue that follows it without a writable
    dispatch in between fails in this way. *)
Theorem issue_raw_back_to_back B cx E wsi m buf len :
  let r := lws_issue_raw B cx E wsi m buf len in
  (could_have_pending wsi = true ->
   res r = Ret (-1) /\ failed (res r) /\ offered (trace r) = [] /\
   trace r = [] /\ wsi_out r = wsi /\ mem_out r = m) /\
  (offered (trace r) <> [] -> could_have_pending (wsi_out r) = true) /\
  (offered (trace r) <> [] ->
   forall buf' len',
     let r' := lws_issue_raw B cx E (wsi_out r) (mem_out r) buf' len' in
     res r' = Ret (-1) /\ offered (trace r') = []).
Proof.
  intros r. split; [|split].
  - intros H. subst r. unfold lws_issue_raw. rewrite H. simpl.
    repeat split; auto; lia.
  - apply issue_raw_attempt_sets_pending.
  - intros H buf' len'.
    pose proof (issue_raw_attempt_sets_pending B cx E wsi m buf len H) as Hp.
    fold r in Hp. unfold lws_issue_raw. rewrite Hp. simpl. auto.
Qed.

Lemma issue_raw_back_to_back_witness :
  offered (trace (lws_issue_raw release64 context4k (world 3 5000 0)
                    (connection LWSCM_WS_SERVING ws_idle) ramp 1000 10)) <> [] /\
  could_have_pending
    (wsi_out (lws_issue_raw release64 context4k (world 3 5000 0)
                (connection LWSCM_WS_SERVING ws_idle) ramp 1000 10)) = true.
Proof.
  split; [vm_compute; discriminate|].
  apply (issue_raw_back_to_back release64 context4k (world 3 5000 0)
           (connection LWSCM_WS_SERVING ws_idle) ramp 1000 10).
  vm_compute; discriminate.
Defined.

Lemma load_bytes_memcpy m dst src k :
  load_bytes (memcpy m dst src k) dst k = load_bytes m src k.
Proof.
  unfold load_bytes. apply map_ext_in. intros i Hi.
  apply in_seq in Hi. unfold memcpy.
  destruct (Z.leb_spec dst (dst + Z.of_nat i)); [|lia].
  destruct (Z.ltb_spec (dst + Z.of_nat i) (dst + k)); [|lia].
  simpl. f_equal. lia.
Qed.

(** The way from the entry of the issuer to the label
    [handle_truncated_send] through the transport: no pending flag, a
    length that is not 0, both early exits and the aliasing guard passed,
    no extension in the way, and a transport that did not fail. *)
Lemma issue_raw_through_transport B cx E wsi m buf len n :
  could_have_pending wsi = false ->
  len <> 0 ->
  state_eqb (state wsi) LWSS_FLUSHING_SEND_BEFORE_CLOSE &&
    (trunc_len wsi =? 0) = false ->
  negb (trunc_len wsi =? 0) &&
    ((buf <? trunc_alloc wsi) ||
     (buf >? trunc_alloc wsi + trunc_len wsi + trunc_offset wsi)) = false ->
  ext_passes B E buf len ->
  accepted E buf (to_int (limit_sending B cx wsi len)) = Some n ->
  exists t,
    lws_issue_raw B cx E wsi m buf len =
    handle_truncated_send B E (set_could_have_pending wsi true) m buf len
                          (to_uint n) t /\
    offered t = [to_size (lp64 B) (to_int (limit_sending B cx wsi len))] /\
    rearms t = O.
Proof.
  intros Hp Hlen Hflush Hguard Hext Hacc.
  unfold lws_issue_raw. rewrite Hp.
  destruct (Z.eqb_spec len 0) as [|_]; [contradiction|].
  rewrite Hflush, Hguard.
  unfold accepted in Hacc.
  assert (Hsend : forall t0, rearms t0 = O -> offered t0 = [] ->
    exists t,
      (let t1 := if negb (http2_substream wsi) && negb (lws_socket_is_valid E)
                 then t0 ++ [EvInvalidSockWarning] else t0 in
       let n0 := limit_sending B cx wsi len in
       let '(r, te) := lws_ssl_capable_write_no_ssl E buf (to_int n0) in
       let t2 := t1 ++ [EvSend buf (to_size (lp64 B) (to_int n0))
                               (load_bytes m buf (to_size (lp64 B) (to_int n0)))] ++ te in
       let wsi0 := set_could_have_pending wsi true in
       match r with
       | LWS_SSL_CAPABLE_ERROR =>
           done (Ret (-1)) (set_socket_is_permanently_unusable wsi0 true) m t2
       | LWS_SSL_CAPABLE_MORE_SERVICE =>
           handle_truncated_send B E wsi0 m buf len 0 t2
       | Wrote k => handle_truncated_send B E wsi0 m buf len (to_uint k) t2
       end) =
      handle_truncated_send B E (set_could_have_pending wsi true) m buf len
                            (to_uint n) t /\
      offered t = [to_size (lp64 B) (to_int (limit_sending B cx wsi len))] /\ rearms t = O).
  { intros t0 Hr Ho. cbv zeta.
    pose proof (adapter_events_quiet E buf (to_int (limit_sending B cx wsi len))) as Hq.
    assert (Hrq : rearms (snd (lws_ssl_capable_write_no_ssl E buf
                                 (to_int (limit_sending B cx wsi len)))) = O).
    { unfold lws_ssl_capable_write_no_ssl.
      destruct (socket_send E buf _) as [r e].
      destruct (to_int r >=? 0); [reflexivity|].
      repeat match goal with
         | |- context [if ?c then _ else _] => destruct c
         end; reflexivity. }
    destruct (lws_ssl_capable_write_no_ssl E buf _) as [r te].
    simpl in Hacc, Hq, Hrq.
    eexists. split.
    - destruct r; inversion Hacc; subst; reflexivity.
    - destruct (negb (http2_substream wsi) && negb (lws_socket_is_valid E));
        split;
        repeat (rewrite ?offered_app, ?rearms_app; simpl);
        rewrite ?Ho, ?Hr, ?Hq, ?Hrq; reflexivity. }
  destruct Hext as [Hx | Hx].
  - rewrite Hx. apply Hsend; reflexivity.
  - destruct (without_extensions B); [apply Hsend; reflexivity|].
    rewrite Hx. simpl (0 <? 0). simpl (negb (0 =? 0)). cbv iota.
    apply Hsend; rewrite ?offered_app, ?rearms_app; reflexivity.
Qed.

(** The newly truncated send at the end of the issuer. *)
Lemma newly_truncated_send B E wsi m buf len n t :
  trunc_len wsi = 0 ->
  0 < len <= INT_MAX ->
  0 <= n < len ->
  rearms t = O ->
  let r := handle_truncated_send B E wsi m buf len n t in
  let fresh := (trunc_alloc wsi =? 0) || (len - n >? trunc_alloc_len wsi) in
  (fresh = true -> lws_malloc E (len - n) = 0 ->
   res r = Ret (-1) /\ trunc_len (wsi_out r) = 0) /\
  ((fresh = true -> lws_malloc E (len - n) <> 0) ->
   res r = Ret len /\
   trunc_offset (wsi_out r) = 0 /\
   trunc_len (wsi_out r) = len - n /\
   len - n <= trunc_alloc_len (wsi_out r) /\
   trunc_alloc (wsi_out r) <> 0 /\
   pending_bytes (wsi_out r) (mem_out r) = load_bytes m (buf + n) (len - n) /\
   rearms (trace r) = 1%nat).
Proof.
  intros Ht Hlen Hn Hr. unfold INT_MAX in Hlen.
  unfold handle_truncated_send. rewrite Ht. simpl (negb (0 =? 0)). cbv iota.
  destruct (Z.eqb_spec n len) as [|_]; [lia|].
  rewrite (to_size_small (lp64 B) (len - n)) by lia.
  rewrite (to_uint_small (len - n)) by lia.
  rewrite (to_int_small len) by (unfold INT_MAX; lia).
  cbv zeta.
  destruct ((trunc_alloc wsi =? 0) || (len - n >? trunc_alloc_len wsi)) eqn:Hf.
  - split.
    + intros _ Hm. rewrite Hm. simpl. auto.
    + intros Hm. specialize (Hm eq_refl).
      destruct (Z.eqb_spec (lws_malloc E (len - n)) 0) as [|_]; [contradiction|].
      unfold pending_bytes. simpl.
      rewrite Z.add_0_r, load_bytes_memcpy.
      rewrite !rearms_app, Hr. simpl.
      repeat split; auto; lia.
  - apply orb_false_iff in Hf. destruct Hf as [Ha Hl].
    split; [discriminate|]. intros _.
    unfold pending_bytes. simpl.
    rewrite Z.add_0_r, load_bytes_memcpy.
    rewrite !rearms_app, Hr. simpl.
    repeat split; auto; lia.
Qed.

(** The newly truncated send, seen from the entry of the issuer. *)
Lemma issue_raw_newly_truncated_aux B cx E wsi m buf len n :
  could_have_pending wsi = false ->
  trunc_len wsi = 0 ->
  state_eqb (state wsi) LWSS_FLUSHING_SEND_BEFORE_CLOSE = false ->
  0 < len <= INT_MAX ->
  ext_passes B E buf len ->
  accepted E buf (to_int (limit_sending B cx wsi len)) = Some n ->
  0 <= n < len ->
  let r := lws_issue_raw B cx E wsi m buf len in
  let fresh := (trunc_alloc wsi =? 0) || (len - n >? trunc_alloc_len wsi) in
  (fresh = true -> lws_malloc E (len - n) = 0 -> failed (res r)) /\
  ((fresh = true -> lws_malloc E (len - n) <> 0) ->
   res r = Ret len /\
   trunc_offset (wsi_out r) = 0 /\
   trunc_len (wsi_out r) = len - n /\
   len - n <= trunc_alloc_len (wsi_out r) /\
   trunc_alloc (wsi_out r) <> 0 /\
   pending_bytes (wsi_out r) (mem_out r) = load_bytes m (buf + n) (len - n) /\
   rearms (trace r) = 1%nat).
Proof.
  intros Hp Ht Hs Hlen Hext Hacc Hn.
  assert (Hflush : state_eqb (state wsi) LWSS_FLUSHING_SEND_BEFORE_CLOSE &&
                     (trunc_len wsi =? 0) = false) by (rewrite Hs; reflexivity).
  assert (Hguard : negb (trunc_len wsi =? 0) &&
                     ((buf <? trunc_alloc wsi) ||
                      (buf >? trunc_alloc wsi + trunc_len wsi + trunc_offset wsi))
                   = false) by (rewrite Ht; reflexivity).
  assert (Hnz : len <> 0) by lia.
  destruct (issue_raw_through_transport B cx E wsi m buf len n
              Hp Hnz Hflush Hguard Hext Hacc) as (t & Heq & _ & Hr).
  - cbv zeta. rewrite Heq.
    assert (Hn' : 0 <= n < 2 ^ 32) by (unfold INT_MAX in Hlen; lia).
    rewrite (to_uint_small n Hn').
    pose proof (newly_truncated_send B E (set_could_have_pending wsi true)
                  m buf len n t Ht Hlen Hn Hr) as [Hfail Hok].
    split.
    + intros Hf Hm. destruct (Hfail Hf Hm) as [-> _]. simpl. lia.
    + exact Hok.
Qed.

(** C4, as the code has it.  A call with [0 < len <= INT_MAX] that
    reaches the transport without a truncation pending, and whose
    transport accepts [n] bytes with [0 <= n < len] (none at all on
    MORE_SERVICE), keeps exactly the bytes [buf[n .. len-1]] in a
    truncation buffer of at least [len - n] bytes, with
    [trunc_offset = 0] and [trunc_len = len - n], asks for a writable
    notification and returns [len]; when the buffer has to be allocated
    and the allocation fails, it returns a negative value. *)
Theorem issue_raw_newly_truncated B cx E wsi m buf len n :
  could_have_pending wsi = false ->
  trunc_len wsi = 0 ->
  state_eqb (state wsi) LWSS_FLUSHING_SEND_BEFORE_CLOSE = false ->
  0 < len <= INT_MAX ->
  ext_passes B E buf len ->
  accepted E buf (to_int (limit_sending B cx wsi len)) = Some n ->
  0 <= n < len ->
  let r := lws_issue_raw B cx E wsi m buf len in
  let fresh := (trunc_alloc wsi =? 0) || (len - n >? trunc_alloc_len wsi) in
  (fresh = true -> lws_malloc E (len - n) = 0 -> failed (res r)) /\
  ((fresh = true -> lws_malloc E (len - n) <> 0) ->
   res r = Ret len /\
   trunc_offset (wsi_out r) = 0 /\
   trunc_len (wsi_out r) = len - n /\
   len - n <= trunc_alloc_len (wsi_out r) /\
   trunc_alloc (wsi_out r) <> 0 /\
   pending_bytes (wsi_out r) (mem_out r) = load_bytes m (buf + n) (len - n) /\
   rearms (trace r) = 1%nat).
Proof. exact (issue_raw_newly_truncated_aux B cx E wsi m buf len n). Qed.

Lemma issue_raw_newly_truncated_witness :
  let r := lws_issue_raw release64 context4k (world 3 5000 0)
             (connection LWSCM_WS_SERVING ws_idle) ramp 1000 10 in
  res r = Ret 10 /\
  trunc_offset (wsi_out r) = 0 /\
  trunc_len (wsi_out r) = 10 - 3 /\
  10 - 3 <= trunc_alloc_len (wsi_out r) /\
  trunc_alloc (wsi_out r) <> 0 /\
  pending_bytes (wsi_out r) (mem_out r) = load_bytes ramp (1000 + 3) (10 - 3) /\
  rearms (trace r) = 1%nat.
Proof.
  apply (issue_raw_newly_truncated release64 context4k (world 3 5000 0)
           (connection LWSCM_WS_SERVING ws_idle) ramp 1000 10 3);
    try reflexivity; try (unfold INT_MAX; lia).
  - left; reflexivity.
  - intros _. vm_compute. discriminate.
Defined.

Lemma to_uint_to_int x : to_uint (to_int x) = to_uint x.
Proof.
  unfold to_uint, to_int.
  destruct (Z.ltb_spec (x mod 2 ^ 32) (2 ^ 31)).
  - apply Z.mod_mod. lia.
  - replace (x mod 2 ^ 32 - 2 ^ 32) with (x mod 2 ^ 32 + (-1) * 2 ^ 32) by lia.
    rewrite Z.mod_add by lia. apply Z.mod_mod. lia.
Qed.

(** The byte count offered to the transport is capped, whatever the
    sizes are. *)
Lemma limit_sending_bound B cx wsi len :
  0 <= len -> 0 <= LWS_PRE B ->
  0 <= tx_packet_size (protocol wsi) ->
  0 <= rx_buffer_size (protocol wsi) ->
  0 <= pt_serv_buf_size cx ->
  0 <= limit_sending B cx wsi len /\
  limit_sending B cx wsi len <= rate_cap B cx wsi /\
  limit_sending B cx wsi len <= len.
Proof.
  intros Hl Hpre Htx Hrx Hpt. unfold limit_sending, rate_cap.
  rewrite !to_uint_to_int.
  set (n0 := if negb (tx_packet_size (protocol wsi) =? 0)
             then to_uint (tx_packet_size (protocol wsi))
             else if to_uint (rx_buffer_size (protocol wsi)) =? 0
                  then pt_serv_buf_size cx
                  else to_uint (rx_buffer_size (protocol wsi))).
  assert (H0 : 0 <= n0 <= Z.max (Z.max (tx_packet_size (protocol wsi))
                                       (rx_buffer_size (protocol wsi)))
                                (pt_serv_buf_size cx)).
  { subst n0.
    pose proof (to_uint_range (tx_packet_size (protocol wsi))).
    pose proof (to_uint_range (rx_buffer_size (protocol wsi))).
    pose proof (to_uint_le _ Htx). pose proof (to_uint_le _ Hrx).
    destruct (negb _); [lia|].
    destruct (_ =? 0); lia. }
  pose proof (to_uint_range (n0 + (LWS_PRE B + 4))).
  pose proof (to_uint_le (n0 + (LWS_PRE B + 4)) ltac:(lia)).
  pose proof (to_uint_range len).
  pose proof (to_uint_le len Hl).
  destruct (Z.gtb_spec (to_uint (n0 + (LWS_PRE B + 4))) len); lia.
Qed.

(** A call makes at most one transport attempt, of the capped size. *)
Lemma issue_raw_offered B cx E wsi m buf len :
  let r := lws_issue_raw B cx E wsi m buf len in
  offered (trace r) = [] \/
  offered (trace r) = [to_size (lp64 B) (to_int (limit_sending B cx wsi len))].
Proof.
  unfold lws_issue_raw.
  destruct (could_have_pending wsi); [left; reflexivity|].
  destruct (len =? 0); [left; reflexivity|].
  destruct (state_eqb _ _ && _); [left; reflexivity|].
  destruct (negb (trunc_len wsi =? 0) && _); [left; reflexivity|].
  assert (Hsend : forall b t0, offered t0 = [] ->
    offered (trace
      (let t1 := if negb (http2_substream wsi) && negb (lws_socket_is_valid E)
                 then t0 ++ [EvInvalidSockWarning] else t0 in
       let n0 := limit_sending B cx wsi len in
       let '(r, te) := lws_ssl_capable_write_no_ssl E b (to_int n0) in
       let t2 := t1 ++ [EvSend b (to_size (lp64 B) (to_int n0))
                             (load_bytes m b (to_size (lp64 B) (to_int n0)))] ++ te in
       let wsi0 := set_could_have_pending wsi true in
       match r with
       | LWS_SSL_CAPABLE_ERROR =>
           done (Ret (-1)) (set_socket_is_permanently_unusable wsi0 true) m t2
       | LWS_SSL_CAPABLE_MORE_SERVICE =>
           handle_truncated_send B E wsi0 m b len 0 t2
       | Wrote k => handle_truncated_send B E wsi0 m b len (to_uint k) t2
       end)) = [to_size (lp64 B) (to_int (limit_sending B cx wsi len))]).
  { intros b t0 Ho. cbv zeta.
    pose proof (adapter_events_quiet E b (to_int (limit_sending B cx wsi len))) as Hq.
    destruct (lws_ssl_capable_write_no_ssl E b _) as [r te]. simpl in Hq.
    assert (Ht : offered
              ((if negb (http2_substream wsi) && negb (lws_socket_is_valid E)
                then t0 ++ [EvInvalidSockWarning] else t0) ++
               [EvSend b (to_size (lp64 B) (to_int (limit_sending B cx wsi len)))
                  (load_bytes m b
                     (to_size (lp64 B) (to_int (limit_sending B cx wsi len))))]
               ++ te)
              = [to_size (lp64 B) (to_int (limit_sending B cx wsi len))]).
    { destruct (negb (http2_substream wsi) && negb (lws_socket_is_valid E));
        repeat (rewrite ?offered_app; simpl); rewrite Ho, Hq; reflexivity. }
    destruct r; simpl;
      rewrite ?(proj1 (handle_truncated_send_quiet _ _ _ _ _ _ _ _)); exact Ht. }
  destruct (without_extensions B).
  - right. apply Hsend. reflexivity.
  - destruct (ext_packet_tx_do_send E buf (to_int len)) as [mx b].
    destruct (mx <? 0); [left; reflexivity|].
    destruct (negb (mx =? 0)).
    + left. rewrite (proj1 (handle_truncated_send_quiet _ _ _ _ _ _ _ _)).
      reflexivity.
    + right. apply Hsend. reflexivity.
Qed.

(** What the transport accepts is a count of bytes, no more than it was
    offered when [send] keeps its contract. *)
Lemma accepted_range E buf len n :
  accepted E buf len = Some n ->
  0 <= n <= INT_MAX /\ (send_contract E -> n <= Z.max 0 len).
Proof.
  unfold accepted, lws_ssl_capable_write_no_ssl, send_contract.
  intros H.
  destruct (socket_send E buf len) as [r e] eqn:Hs.
  pose proof (to_int_range r) as Hr.
  destruct (Z.geb_spec (to_int r) 0) as [Hge|Hlt].
  - simpl in H. inversion H; subst. split; [lia|].
    intros Hc. specialize (Hc buf len). rewrite Hs in Hc. simpl in Hc.
    destruct Hc as [-> | Hc];
      [change (to_int (-1)) with (-1) in Hge; lia|].
    pose proof (to_int_le r ltac:(lia)). lia.
  - destruct ((e =? LWS_EAGAIN E) || (e =? LWS_EWOULDBLOCK E) ||
              (e =? LWS_EINTR E)); simpl in H; inversion H; subst;
      unfold INT_MAX; split; try lia; intros _; lia.
Qed.

(** Replaying the pending bytes: the buffer keeps what was not sent. *)
Lemma replay_keeps_remainder B E wsi m len n t :
  trunc_fields_in_range wsi ->
  trunc_invariant wsi ->
  0 < trunc_len wsi ->
  len = trunc_len wsi ->
  0 <= n < len ->
  let r := handle_truncated_send B E wsi m
             (trunc_alloc wsi + trunc_offset wsi) len n t in
  res r = Ret (to_int n) /\
  pending_bytes (wsi_out r) (mem_out r) =
  load_bytes m (trunc_alloc wsi + trunc_offset wsi + n) (len - n).
Proof.
  intros (Ha & Ho & Hl) Hinv Hpos -> Hn. specialize (Hinv Hpos).
  unfold handle_truncated_send.
  destruct (Z.eqb_spec (trunc_len wsi) 0) as [|_]; [lia|]. simpl negb. cbv iota.
  rewrite (to_uint_small (trunc_offset wsi + n)) by lia.
  rewrite (to_uint_small (trunc_len wsi - n)) by lia.
  cbv zeta.
  destruct (Z.eqb_spec (trunc_len wsi - n) 0) as [|_]; [lia|].
  unfold pending_bytes. simpl. rewrite Z.add_assoc. auto.
Qed.

(** C5, as the code has it.  When [len] or the cap
    [max (tx_packet_size, rx_buffer_size, pt_serv_buf_size) + LWS_PRE + 4]
    is at most INT_MAX, every transport attempt of a call offers at most
    that cap, and at most [len].  When [len <= INT_MAX] exceeds the cap,
    the call reaches the transport ([could_have_pending] clear, no
    extension taking the packet over) and the transport does not fail
    ([send] reporting no more than it was given), the bytes it did not
    take are in the truncation buffer when the call returns: newly
    buffered when nothing was pending (state not
    FLUSHING_SEND_BEFORE_CLOSE; if an allocation is needed it has to
    succeed), or still there when the call replayed a buffer that
    satisfies the truncation invariant, with
    [buf = trunc_alloc + trunc_offset] and [len = trunc_len]. *)
Theorem issue_raw_rate_cap B cx E wsi m buf len :
  0 <= len -> 0 <= LWS_PRE B ->
  0 <= tx_packet_size (protocol wsi) ->
  0 <= rx_buffer_size (protocol wsi) ->
  0 <= pt_serv_buf_size cx ->
  let r := lws_issue_raw B cx E wsi m buf len in
  (len <= INT_MAX \/ rate_cap B cx wsi <= INT_MAX ->
   forall k, In k (offered (trace r)) ->
             0 <= k /\ k <= rate_cap B cx wsi /\ k <= len) /\
  (forall n,
     rate_cap B cx wsi < len -> len <= INT_MAX ->
     could_have_pending wsi = false ->
     ext_passes B E buf len -> send_contract E ->
     accepted E buf (to_int (limit_sending B cx wsi len)) = Some n ->
     (trunc_len wsi = 0 /\
      state_eqb (state wsi) LWSS_FLUSHING_SEND_BEFORE_CLOSE = false /\
      ((trunc_alloc wsi =? 0) || (len - n >? trunc_alloc_len wsi) = true ->
       lws_malloc E (len - n) <> 0)) \/
     (0 < trunc_len wsi /\ trunc_invariant wsi /\ trunc_fields_in_range wsi /\
      buf = trunc_alloc wsi + trunc_offset wsi /\ len = trunc_len wsi) ->
     n < len /\
     pending_bytes (wsi_out r) (mem_out r) = load_bytes m (buf + n) (len - n)).
Proof.
  intros Hl Hpre Htx Hrx Hpt r.
  pose proof (limit_sending_bound B cx wsi len Hl Hpre Htx Hrx Hpt)
    as (Hlim0 & Hcap & Hlen).
  split.
  - intros Hfit k Hk.
    destruct (issue_raw_offered B cx E wsi m buf len) as [H | H];
      fold r in H; rewrite H in Hk; simpl in Hk; [contradiction|].
    destruct Hk as [<- | []].
    assert (Hsmall : 0 <= limit_sending B cx wsi len <= INT_MAX) by lia.
    rewrite (to_int_small _ Hsmall).
    rewrite to_size_small by (unfold INT_MAX in Hsmall; lia). lia.
  - intros n Hbig Hmax Hp Hext Hsend Hacc Hcase.
    assert (Hoff : to_int (limit_sending B cx wsi len) = limit_sending B cx wsi len)
      by (apply to_int_small; lia).
    destruct (accepted_range E buf _ n Hacc) as (Hn & Hle).
    specialize (Hle Hsend).
    assert (Hnlen : 0 <= n < len) by lia.
    split; [lia|].
    assert (Hnz : len <> 0) by lia.
    destruct Hcase as [(Ht & Hs & Hm) | (Hpos & Hinv & Hrng & Hbuf & Hlt)].
    + pose proof (issue_raw_newly_truncated_aux B cx E wsi m buf len n
                    Hp Ht Hs ltac:(lia) Hext Hacc Hnlen) as [_ Hok].
      apply Hok. exact Hm.
    + destruct Hrng as (Ha & Ho & Hln).
      assert (Hflush : state_eqb (state wsi) LWSS_FLUSHING_SEND_BEFORE_CLOSE &&
                         (trunc_len wsi =? 0) = false).
      { destruct (Z.eqb_spec (trunc_len wsi) 0); [lia|]. apply andb_false_r. }
      assert (Hguard : negb (trunc_len wsi =? 0) &&
                         ((buf <? trunc_alloc wsi) ||
                          (buf >? trunc_alloc wsi + trunc_len wsi + trunc_offset wsi))
                       = false).
      { destruct (Z.ltb_spec buf (trunc_alloc wsi)); [lia|].
        destruct (Z.gtb_spec buf (trunc_alloc wsi + trunc_len wsi + trunc_offset wsi));
          [lia|]. apply andb_false_r. }
      destruct (issue_raw_through_transport B cx E wsi m buf len n
                  Hp Hnz Hflush Hguard Hext Hacc) as (t & Heq & _ & _).
      subst r. rewrite Heq.
      rewrite (to_uint_small n) by (unfold INT_MAX in Hn; lia).
      subst buf.
      apply (replay_keeps_remainder B E (set_could_have_pending wsi true)
               m len n t); auto.
      split; [exact Ha|split; [exact Ho|exact Hln]].
Qed.

Lemma world_send_contract room heap parent :
  0 <= room -> send_contract (world room heap parent).
Proof.
  intros H buf len. simpl. destruct (Z.ltb_spec len 0); lia.
Qed.

Lemma issue_raw_rate_cap_witness :
  let r := lws_issue_raw release64 context4k (world 10000 5000 0)
             (connection LWSCM_WS_SERVING ws_idle) ramp 1000 5000 in
  offered (trace r) = [4116] /\
  (forall k, In k (offered (trace r)) ->
             0 <= k /\
             k <= rate_cap release64 context4k
                    (connection LWSCM_WS_SERVING ws_idle) /\ k <= 5000) /\
  pending_bytes (wsi_out r) (mem_out r) = load_bytes ramp (1000 + 4116) (5000 - 4116).
Proof.
  split; [reflexivity|].
  destruct (issue_raw_rate_cap release64 context4k (world 10000 5000 0)
              (connection LWSCM_WS_SERVING ws_idle) ramp 1000 5000)
    as [H1 H2]; try (simpl; lia).
  split; [apply H1; left; unfold INT_MAX; lia|].
  refine (proj2 (H2 4116 _ _ _ _ _ _ _)).
  - vm_compute. reflexivity.
  - unfold INT_MAX. lia.
  - reflexivity.
  - left. reflexivity.
  - apply world_send_contract. lia.
  - reflexivity.
  - left. split; [reflexivity|]. split; [reflexivity|].
    intros _. simpl. discriminate.
Defined.

Lemma limit_sending_le_len B cx wsi len :
  0 <= len -> 0 <= limit_sending B cx wsi len <= len.
Proof.
  intros Hl. unfold limit_sending.
  set (n1 := to_uint (_ + (LWS_PRE B + 4))).
  pose proof (to_uint_range len). pose proof (to_uint_le len Hl).
  assert (0 <= n1 < 2 ^ 32) by apply to_uint_range.
  rewrite to_uint_to_int.
  destruct (Z.gtb_spec n1 len); lia.
Qed.

(** Within [int], the count that [send] is given is the count the issuer
    computed. *)
Lemma send_count_small B cx wsi len :
  0 <= len <= INT_MAX ->
  to_size (lp64 B) (to_int (limit_sending B cx wsi len)) =
  to_int (limit_sending B cx wsi len).
Proof.
  intros Hl. apply to_size_to_int.
  pose proof (limit_sending_le_len B cx wsi len ltac:(lia)).
  rewrite to_int_small by lia. lia.
Qed.

(** The three ways through the issuer, as far as the truncation buffer
    goes: it is not touched, or the tail of the function runs on it with
    a byte count that the transport or an extension reported. *)
Lemma issue_raw_cases B cx E wsi m buf len :
  let r := lws_issue_raw B cx E wsi m buf len in
  (trunc_alloc (wsi_out r) = trunc_alloc wsi /\
   trunc_alloc_len (wsi_out r) = trunc_alloc_len wsi /\
   trunc_offset (wsi_out r) = trunc_offset wsi /\
   trunc_len (wsi_out r) = trunc_len wsi) \/
  (exists b n t,
     r = handle_truncated_send B E (set_could_have_pending wsi
                                      (could_have_pending (wsi_out r)))
                               m b len n t /\
     0 <= n < 2 ^ 32 /\
     (0 <= len -> send_contract E -> ext_contract E -> n <= len)).
Proof.
  unfold lws_issue_raw.
  destruct (could_have_pending wsi) eqn:Hp; [left; simpl; auto|].
  destruct (len =? 0); [left; simpl; auto|].
  destruct (state_eqb _ _ && _); [left; simpl; auto|].
  destruct (negb (trunc_len wsi =? 0) && _); [left; simpl; auto|].
  assert (Hsend : forall b t0,
    let r :=
      (let t1 := if negb (http2_substream wsi) && negb (lws_socket_is_valid E)
                 then t0 ++ [EvInvalidSockWarning] else t0 in
       let n0 := limit_sending B cx wsi len in
       let '(r, te) := lws_ssl_capable_write_no_ssl E b (to_int n0) in
       let t2 := t1 ++ [EvSend b (to_size (lp64 B) (to_int n0))
                             (load_bytes m b (to_size (lp64 B) (to_int n0)))] ++ te in
       let wsi0 := set_could_have_pending wsi true in
       match r with
       | LWS_SSL_CAPABLE_ERROR =>
           done (Ret (-1)) (set_socket_is_permanently_unusable wsi0 true) m t2
       | LWS_SSL_CAPABLE_MORE_SERVICE =>
           handle_truncated_send B E wsi0 m b len 0 t2
       | Wrote k => handle_truncated_send B E wsi0 m b len (to_uint k) t2
       end) in
    (trunc_alloc (wsi_out r) = trunc_alloc wsi /\
     trunc_alloc_len (wsi_out r) = trunc_alloc_len wsi /\
     trunc_offset (wsi_out r) = trunc_offset wsi /\
     trunc_len (wsi_out r) = trunc_len wsi) \/
    (exists b' n t,
       r = handle_truncated_send B E (set_could_have_pending wsi
                                        (could_have_pending (wsi_out r)))
                                 m b' len n t /\
       0 <= n < 2 ^ 32 /\
       (0 <= len -> send_contract E -> ext_contract E -> n <= len))).
  { intros b t0. cbv zeta.
    pose proof (accepted_range E b (to_int (limit_sending B cx wsi len))) as Hacc.
    unfold accepted in Hacc.
    destruct (lws_ssl_capable_write_no_ssl E b _) as [r te]. simpl in Hacc.
    destruct r as [k| |].
    - right. destruct (Hacc k eq_refl) as (Hk & Hle). unfold INT_MAX in Hk.
      exists b, (to_uint k). eexists.
      rewrite (proj2 (handle_truncated_send_quiet _ _ _ _ _ _ _ _)). simpl.
      split; [reflexivity|]. split; [apply to_uint_range|].
      intros Hl Hs _. specialize (Hle Hs).
      rewrite to_uint_small by lia.
      pose proof (limit_sending_le_len B cx wsi len Hl).
      pose proof (to_int_le (limit_sending B cx wsi len) ltac:(lia)). lia.
    - right. exists b, 0. eexists.
      rewrite (proj2 (handle_truncated_send_quiet _ _ _ _ _ _ _ _)). simpl.
      split; [reflexivity|]. split; lia.
    - left. simpl. auto. }
  destruct (without_extensions B).
  - apply Hsend.
  - destruct (ext_packet_tx_do_send E buf (to_int len)) as [mx b] eqn:Hext.
    destruct (Z.ltb_spec mx 0); [left; simpl; auto|].
    destruct (Z.eqb_spec mx 0); simpl negb; cbv iota.
    + apply Hsend.
    + right. exists b, (to_uint mx). eexists.
      rewrite (proj2 (handle_truncated_send_quiet _ _ _ _ _ _ _ _)). simpl.
      rewrite Hp.
      replace (set_could_have_pending wsi false) with wsi
        by (destruct wsi; simpl in Hp; subst; reflexivity).
      split; [reflexivity|]. split; [apply to_uint_range|].
      intros Hl _ Hc. specialize (Hc buf (to_int len)). rewrite Hext in Hc.
      simpl in Hc. pose proof (to_int_le len Hl).
      pose proof (to_uint_le mx ltac:(lia)). lia.
Qed.

(** The tail of the issuer keeps the truncation buffer well formed when
    it is not told of more bytes than the buffer still owes. *)
Lemma handle_truncated_send_invariant B E wsi m buf real_len n t :
  trunc_fields_in_range wsi -> trunc_invariant wsi ->
  0 <= n < 2 ^ 32 ->
  (0 < trunc_len wsi -> n <= trunc_len wsi) ->
  let r := handle_truncated_send B E wsi m buf real_len n t in
  trunc_invariant (wsi_out r) /\ trunc_fields_in_range (wsi_out r).
Proof.
  intros (Ha & Ho & Hl) Hinv Hn Hle.
  unfold handle_truncated_send, trunc_invariant, trunc_fields_in_range in *.
  destruct (Z.eqb_spec (trunc_len wsi) 0) as [Hz|Hnz]; simpl negb; cbv iota.
  - set (rest := to_size (lp64 B) (real_len - n)).
    assert (Hrest : 0 <= rest).
    { subst rest. unfold to_size. apply Z.mod_pos_bound.
      unfold size_bits. destruct (lp64 B); lia. }
    pose proof (to_uint_range rest) as Hur.
    destruct (n =? real_len); [simpl; lia|].
    cbv zeta.
    destruct ((trunc_alloc wsi =? 0) || (rest >? trunc_alloc_len wsi)) eqn:Hf.
    + destruct (lws_malloc E rest =? 0); simpl; lia.
    + apply orb_false_iff in Hf. destruct Hf as [_ Hf].
      destruct (Z.gtb_spec rest (trunc_alloc_len wsi)); [discriminate|].
      simpl. rewrite (to_uint_small rest) by lia. lia.
  - assert (Hpos : 0 < trunc_len wsi) by lia.
    specialize (Hinv Hpos). specialize (Hle Hpos).
    rewrite (to_uint_small (trunc_offset wsi + n)) by lia.
    rewrite (to_uint_small (trunc_len wsi - n)) by lia.
    cbv zeta.
    destruct (trunc_len wsi - n =? 0); [destruct (state_eqb _ _)|];
      simpl; lia.
Qed.

(** C6, as the code has it.  A call of the issuer that starts with the
    truncation invariant keeps it, provided that any pending truncation
    is replayed with no more than the [trunc_len] bytes that are owed,
    that [send] reports at most the bytes it was given and that an
    extension handles at most the bytes it was given: whenever
    [trunc_len > 0] on exit, [trunc_offset + trunc_len <= trunc_alloc_len]. *)
Theorem issue_raw_keeps_trunc_invariant B cx E wsi m buf len :
  trunc_fields_in_range wsi -> trunc_invariant wsi ->
  0 <= len ->
  send_contract E -> ext_contract E ->
  (0 < trunc_len wsi -> len <= trunc_len wsi) ->
  let r := lws_issue_raw B cx E wsi m buf len in
  trunc_invariant (wsi_out r) /\ trunc_fields_in_range (wsi_out r).
Proof.
  intros Hrng Hinv Hl Hs He Hreplay r.
  destruct (issue_raw_cases B cx E wsi m buf len)
    as [(H1 & H2 & H3 & H4) | (b & n & t & Heq & Hn & Hle)]; fold r in H1 || idtac.
  - fold r in H2, H3, H4.
    unfold trunc_invariant, trunc_fields_in_range in *.
    rewrite H2, H3, H4. auto.
  - fold r in Heq. rewrite Heq.
    apply handle_truncated_send_invariant; auto.
    intros Hpos. simpl in Hpos. specialize (Hle Hl Hs He).
    specialize (Hreplay Hpos). simpl. lia.
Qed.

Lemma issue_raw_keeps_trunc_invariant_witness :
  let wsi := owing (connection LWSCM_HTTP_SERVING ws_idle) 5000 10 3 4 in
  let r := lws_issue_raw release64 context4k (world 2 5000 0) wsi ramp 5003 4 in
  trunc_offset (wsi_out r) = 5 /\ trunc_len (wsi_out r) = 2 /\
  trunc_invariant (wsi_out r).
Proof.
  split; [reflexivity|]. split; [reflexivity|].
  apply (issue_raw_keeps_trunc_invariant release64 context4k (world 2 5000 0)
           (owing (connection LWSCM_HTTP_SERVING ws_idle) 5000 10 3 4)
           ramp 5003 4).
  - unfold trunc_fields_in_range. simpl. lia.
  - unfold trunc_invariant. simpl. lia.
  - lia.
  - apply world_send_contract. lia.
  - intros b l. simpl. lia.
  - simpl. lia.
Defined.

(** C6, as the claim words it, fails: a connection owes 2 bytes of a
    10-byte truncation buffer; a call that passes the aliasing guard with
    5 bytes, all of which the socket takes, leaves [trunc_offset = 5] and
    [trunc_len = 2^32 - 3]. *)
Lemma issue_raw_breaks_trunc_invariant :
  let wsi := owing (connection LWSCM_HTTP_SERVING ws_idle) 5000 10 0 2 in
  let r := lws_issue_raw release64 context4k (world 100 5000 0) wsi ramp 5000 5 in
  trunc_invariant wsi /\ trunc_fields_in_range wsi /\
  res r = Ret 5 /\
  trunc_offset (wsi_out r) = 5 /\
  trunc_len (wsi_out r) = 2 ^ 32 - 3 /\
  trunc_alloc_len (wsi_out r) = 10 /\
  ~ trunc_invariant (wsi_out r).
Proof.
  cbv zeta. split; [unfold trunc_invariant; simpl; lia|].
  split; [unfold trunc_fields_in_range; simpl; lia|].
  split; [reflexivity|]. split; [reflexivity|].
  split; [reflexivity|]. split; [reflexivity|].
  unfold trunc_invariant.
  change (trunc_len _) with (2 ^ 32 - 3).
  change (trunc_offset _) with 5.
  change (trunc_alloc_len _) with 10.
  lia.
Qed.

(** C8, as the claim words it, fails: with the 4 bytes at offset 3 of the
    buffer at 5000 pending, a write from address 5000, which lies before
    the pending region, is let through to the socket and returns 2; and a
    write of length 0 from address 9000, far from the buffer, returns 0. *)
Lemma issue_raw_accepts_before_pending_region :
  let wsi := owing (connection LWSCM_HTTP_SERVING ws_idle) 5000 10 3 4 in
  let r := lws_issue_raw release64 context4k (world 100 5000 0) wsi ramp 5000 2 in
  let r0 := lws_issue_raw release64 context4k (world 100 5000 0) wsi ramp 9000 0 in
  0 < trunc_len wsi /\
  5000 < trunc_alloc wsi + trunc_offset wsi /\
  res r = Ret 2 /\
  ~ rejected (res r) /\
  offered (trace r) = [2] /\
  trunc_alloc wsi + trunc_offset wsi + trunc_len wsi < 9000 /\
  res r0 = Ret 0 /\
  ~ rejected (res r0).
Proof.
  cbv zeta. split; [simpl; lia|]. split; [simpl; lia|].
  split; [reflexivity|]. split; [change (res _) with (Ret 2); simpl; lia|].
  split; [reflexivity|]. split; [simpl; lia|]. split; [reflexivity|].
  change (res _) with (Ret 0). simpl. lia.
Qed.

(** C8, as the code has it.  While [trunc_len > 0], a write of a length
    other than 0 whose [buf] is below [trunc_alloc] or above
    [trunc_alloc + trunc_offset + trunc_len] is turned away before the
    transport is touched and nothing changes: with -1 in a build without
    assertions, by the failing [assert] otherwise.  So a call that is not
    turned away has its [buf] in [trunc_alloc[0 .. offset+len]], the bytes
    before [offset] included. *)
Theorem issue_raw_aliasing_guard B cx E wsi m buf len :
  0 < trunc_len wsi -> len <> 0 ->
  let r := lws_issue_raw B cx E wsi m buf len in
  (buf < trunc_alloc wsi \/
   trunc_alloc wsi + trunc_offset wsi + trunc_len wsi < buf ->
   rejected (res r) /\
   (ndebug B = true -> res r = Ret (-1)) /\
   offered (trace r) = [] /\ wsi_out r = wsi /\ mem_out r = m) /\
  (~ rejected (res r) ->
   trunc_alloc wsi <= buf <= trunc_alloc wsi + trunc_offset wsi + trunc_len wsi).
Proof.
  intros Hpos Hlen r.
  assert (Hout : buf < trunc_alloc wsi \/
                 trunc_alloc wsi + trunc_offset wsi + trunc_len wsi < buf ->
                 rejected (res r) /\
                 (ndebug B = true -> res r = Ret (-1)) /\
                 offered (trace r) = [] /\ wsi_out r = wsi /\ mem_out r = m).
  { intros Hb. subst r. unfold lws_issue_raw.
    destruct (could_have_pending wsi); [simpl; repeat split; auto; lia|].
    destruct (Z.eqb_spec len 0) as [|_]; [contradiction|].
    destruct (Z.eqb_spec (trunc_len wsi) 0) as [|_]; [lia|].
    rewrite andb_false_r. simpl negb.
    assert (Hg : (buf <? trunc_alloc wsi) ||
                 (buf >? trunc_alloc wsi + trunc_len wsi + trunc_offset wsi) = true).
    { apply orb_true_iff.
      destruct Hb; [left; apply Z.ltb_lt; lia|right; apply Z.gtb_lt; lia]. }
    rewrite Hg. simpl.
    destruct (ndebug B); simpl; repeat split; auto; try lia; discriminate. }
  split; [exact Hout|].
  intros Hrej.
  destruct (Z.lt_ge_cases buf (trunc_alloc wsi)) as [H1|H1];
    [exfalso; apply Hrej; apply Hout; lia|].
  destruct (Z.lt_ge_cases (trunc_alloc wsi + trunc_offset wsi + trunc_len wsi) buf)
    as [H2|H2]; [exfalso; apply Hrej; apply Hout; lia|].
  lia.
Qed.

Lemma issue_raw_aliasing_guard_witness :
  let wsi := owing (connection LWSCM_HTTP_SERVING ws_idle) 5000 10 3 4 in
  let r := lws_issue_raw release64 context4k (world 100 5000 0) wsi ramp 5008 2 in
  res r = Ret (-1) /\ offered (trace r) = [].
Proof.
  cbv zeta.
  destruct (issue_raw_aliasing_guard release64 context4k (world 100 5000 0)
              (owing (connection LWSCM_HTTP_SERVING ws_idle) 5000 10 3 4)
              ramp 5008 2) as [H _]; [simpl; lia|lia|].
  destruct H as (_ & Hr & Ho & _); [right; simpl; lia|].
  split; [apply Hr; reflexivity|exact Ho].
Defined.

(** ** The write dispatcher *)

(** C7, on the code.  For a connection marked [parent_carries_io] the
    dispatcher hands [{buf, len, wp}] to the parent's
    [CHILD_WRITE_VIA_PARENT] callback and does nothing else; it returns
    [len] when the callback answers 0, and 1, which is not negative,
    when the callback answers anything else. *)
Theorem write_via_parent K B cx E wsi m buf len wp :
  parent_carries_io wsi = true ->
  let r := lws_write K B cx E wsi m buf len wp in
  trace r = [EvChildWriteViaParent buf len wp] /\
  wsi_out r = wsi /\ mem_out r = m /\
  (child_write_via_parent E buf len wp = 0 -> res r = Ret (to_int len)) /\
  (child_write_via_parent E buf len wp <> 0 ->
   res r = Ret 1 /\ ~ failed (res r)).
Proof.
  intros H. unfold lws_write. rewrite H.
  destruct (Z.eqb_spec (child_write_via_parent E buf len wp) 0) as [Hz|Hz];
    simpl; repeat split; auto; try contradiction; try lia.
Qed.

Lemma write_via_parent_witness :
  let r := lws_write libwebsockets_h release64 context4k (world 100 5000 1)
             (carried_by_parent (connection LWSCM_WS_SERVING ws_idle))
             ramp 1000 5 0 in
  res r = Ret 1 /\ ~ failed (res r).
Proof.
  apply (write_via_parent libwebsockets_h release64 context4k (world 100 5000 1)
           (carried_by_parent (connection LWSCM_WS_SERVING ws_idle))
           ramp 1000 5 0 eq_refl).
  simpl. discriminate.
Defined.

Ltac eqb_decide :=
  repeat match goal with
         | |- context [?a =? ?b] =>
             first [ replace (a =? b) with true
                       by (symmetry; apply Z.eqb_eq; lia)
                   | replace (a =? b) with false
                       by (symmetry; apply Z.eqb_neq; lia) ]
         end;
  cbv iota.














(** ** Masking *)

Lemma store_bytes_get l : forall m a x,
  store_bytes m a l x =
  if (a <=? x) && (x <? a + Z.of_nat (length l))
  then nth (Z.to_nat (x - a)) l 0 else m x.
Proof.
  induction l as [|b l IH]; intros m a x.
  - simpl. rewrite Z.add_0_r.
    destruct (Z.leb_spec a x), (Z.ltb_spec x a); simpl; try reflexivity; lia.
  - cbn [store_bytes length]. rewrite IH. unfold store.
    rewrite Nat2Z.inj_succ.
    destruct (Z.lt_trichotomy x a) as [H|[H|H]].
    + destruct (Z.leb_spec (a + 1) x); [lia|].
      destruct (Z.leb_spec a x); [lia|]. simpl.
      destruct (Z.eqb_spec x a); [lia|reflexivity].
    + subst x. destruct (Z.leb_spec (a + 1) a); [lia|].
      destruct (Z.leb_spec a a); [|lia].
      destruct (Z.ltb_spec a (a + Z.succ (Z.of_nat (length l)))); [|lia].
      simpl. rewrite Z.eqb_refl, Z.sub_diag. reflexivity.
    + destruct (Z.leb_spec (a + 1) x); [|lia].
      destruct (Z.leb_spec a x); [|lia].
      destruct (Z.ltb_spec x (a + 1 + Z.of_nat (length l)));
        destruct (Z.ltb_spec x (a + Z.succ (Z.of_nat (length l))));
        simpl; try lia.
      * replace (Z.to_nat (x - a)) with (S (Z.to_nat (x - (a + 1)))) by lia.
        reflexivity.
      * destruct (Z.eqb_spec x a); [lia|reflexivity].
Qed.

Lemma load_bytes_succ m a n :
  load_bytes m a (Z.of_nat (S n)) = m a :: load_bytes m (a + 1) (Z.of_nat n).
Proof.
  unfold load_bytes. rewrite !Nat2Z.id. cbn [seq map].
  rewrite Z.add_0_r. f_equal.
  rewrite <- seq_shift, map_map. apply map_ext.
  intros i. f_equal. lia.
Qed.

Lemma load_store_bytes l : forall m a,
  load_bytes (store_bytes m a l) a (Z.of_nat (length l)) = l.
Proof.
  induction l as [|b l IH]; intros m a; [reflexivity|].
  cbn [length store_bytes]. rewrite load_bytes_succ, IH. f_equal.
  rewrite store_bytes_get.
  destruct (Z.leb_spec (a + 1) a); [lia|]. simpl.
  unfold store. rewrite Z.eqb_refl. reflexivity.
Qed.

Lemma mod4_of_uchar x k : (to_uchar x + k) mod 4 = (x + k) mod 4.
Proof.
  unfold to_uchar.
  rewrite (Z.div_mod x 256) at 2 by lia.
  replace (256 * (x / 256) + x mod 256 + k)
    with (x mod 256 + k + (64 * (x / 256)) * 4) by lia.
  rewrite Z.mod_add by lia. reflexivity.
Qed.

Lemma land_3 x : Z.land x 3 = x mod 4.
Proof. change 3 with (Z.ones 2). rewrite Z.land_ones by lia. reflexivity. Qed.

(** The masking loop XORs byte [i] of its range with
    [key[(idx + i) mod 4]] and touches nothing else; the index advances
    by the count, in [uint8_t]. *)
Lemma mask_loop_spec key d count : forall m n idx,
  snd (mask_loop count m d n key idx) = 
    (if (count =? 0)%nat then idx else to_uchar (idx + Z.of_nat count)) /\
  forall a,
    fst (mask_loop count m d n key idx) a =
    if (d + n <=? a) && (a <? d + n + Z.of_nat count)
    then Z.lxor (m a) (nth (Z.to_nat ((idx + (a - (d + n))) mod 4)) key 0)
    else m a.
Proof.
  induction count as [|c IH]; intros m n idx.
  - simpl. split; [reflexivity|]. intros a. rewrite Z.add_0_r.
    destruct (Z.leb_spec (d + n) a), (Z.ltb_spec a (d + n)); simpl;
      try reflexivity; lia.
  - cbn [mask_loop].
    destruct (IH (store m (d + n)
                    (Z.lxor (m (d + n)) (nth (Z.to_nat (Z.land idx 3)) key 0)))
                 (n + 1) (to_uchar (idx + 1))) as [Hi Hm].
    split.
    + rewrite Hi. simpl (S c =? 0)%nat. cbv iota.
      destruct c; simpl (_ =? _)%nat; cbv iota.
      * reflexivity.
      * unfold to_uchar. rewrite Zplus_mod_idemp_l. f_equal. lia.
    + intros a. rewrite Hm. unfold store. rewrite Nat2Z.inj_succ.
      destruct (Z.lt_trichotomy a (d + n)) as [H|[H|H]].
      * destruct (Z.leb_spec (d + (n + 1)) a); [lia|].
        destruct (Z.leb_spec (d + n) a); [lia|]. simpl.
        destruct (Z.eqb_spec a (d + n)); [lia|reflexivity].
      * subst a.
        destruct (Z.leb_spec (d + (n + 1)) (d + n)); [lia|].
        destruct (Z.leb_spec (d + n) (d + n)); [|lia].
        destruct (Z.ltb_spec (d + n) (d + n + Z.succ (Z.of_nat c))); [|lia].
        simpl. rewrite Z.eqb_refl, land_3. do 4 f_equal. lia.
      * destruct (Z.leb_spec (d + (n + 1)) a); [|lia].
        destruct (Z.leb_spec (d + n) a); [|lia].
        destruct (Z.eqb_spec a (d + n)); [lia|].
        destruct (Z.ltb_spec a (d + (n + 1) + Z.of_nat c));
          destruct (Z.ltb_spec a (d + n + Z.succ (Z.of_nat c)));
          simpl; try lia; try reflexivity.
        rewrite mod4_of_uchar. do 4 f_equal. lia.
Qed.


(** ** The file fragment pump *)

Lemma store_bytes_app l1 : forall l2 m a,
  store_bytes m a (l1 ++ l2) =
  store_bytes (store_bytes m a l1) (a + Z.of_nat (length l1)) l2.
Proof.
  induction l1 as [|b l1 IH]; intros l2 m a.
  - simpl. rewrite Z.add_0_r. reflexivity.
  - cbn [app store_bytes length]. rewrite IH. f_equal. lia.
Qed.

(** C9, on the code.  When the pump reads the last bytes of the last of
    two or more ranges (no chunking, no interpreter, the part header
    already sent), it adds 6 to the length that goes to [lws_write], but
    the six bytes behind the body in the scratch buffer are
    ['_' 'l' 'w' 's' CR NUL]: the bounded formatter is given room for 6
    bytes, the terminator included, so the LF of the boundary is cut. *)
Theorem trailing_boundary_is_cut K B cx P wsi m bytes :
  with_ranges B = true ->
  lws_snprintf P = snprintf_bounded ->
  sending_chunked wsi = false -> interpreting wsi = false ->
  filepos (http wsi) <> filelen (http wsi) ->
  range_inside (range (http wsi)) = true ->
  range_send_ctr (range (http wsi)) + 1 = range_count_ranges (range (http wsi)) ->
  1 < range_count_ranges (range (http wsi)) ->
  (with_http2 B = true -> lws_h2_tx_cr_get P <> 0) ->
  (forall p poss, lws_vfs_file_read P p poss = (0, bytes)) ->
  Z.of_nat (length bytes) = range_budget (range (http wsi)) ->
  0 < Z.of_nat (length bytes) <= INT_MAX ->
  let pstart := serv_buf cx + LWS_H2_FRAME_HEADER_LENGTH B in
  let amount := Z.of_nat (length bytes) in
  exists wsi' m' n wp,
    serve_http_file_fragment_payload K B cx P wsi m =
    WriteFragment wsi' m' pstart n wp amount /\
    n = amount + 6 /\
    load_bytes m' pstart n = bytes ++ [95; 108; 119; 115; 13; 0] /\
    load_bytes m' pstart n <> bytes ++ boundary.
Proof.
  intros Hrg Hsn Hch Hint Hpos Hin Hlast Hmulti Hcr Hread Hbud Hlen pstart amount.
  unfold serve_http_file_fragment_payload.
  destruct (Z.eqb_spec (filepos (http wsi)) (filelen (http wsi))) as [|_];
    [contradiction|].
  cbv zeta. cbn [set_h2_http interpreting].
  rewrite Hrg, Hin, Hch, Hint, Hsn. simpl negb.
  rewrite !andb_false_r. cbv iota. simpl andb.
  fold pstart.
  assert (Hnocr : with_http2 B && (lws_h2_tx_cr_get P =? 0) = false).
  { destruct (with_http2 B); [|reflexivity].
    destruct (Z.eqb_spec (lws_h2_tx_cr_get P) 0) as [H0|_]; [|reflexivity].
    exfalso. apply Hcr; auto. }
  rewrite Hnocr. rewrite Hread.
  simpl (0 <? 0). cbv iota. fold amount.
  rewrite (to_int_small amount) by (subst amount; lia).
  replace (pstart + 0 - pstart + amount) with amount by lia.
  destruct (Z.eqb_spec amount 0) as [|_]; [lia|].
  simpl (0 <? 0). cbv iota.
  destruct (Z.eqb_spec (range_send_ctr (range (http wsi)) + 1)
                       (range_count_ranges (range (http wsi)))) as [_|]; [|contradiction].
  destruct (Z.gtb_spec (range_count_ranges (range (http wsi))) 1); [|lia].
  assert (Hz : to_u64 (range_budget (range (http wsi)) - amount) = 0).
  { subst amount. rewrite Hbud, Z.sub_diag. reflexivity. }
  rewrite Hz. simpl (0 =? 0). simpl andb. cbv iota.
  unfold snprintf_bounded. simpl (6 =? 0). cbv iota.
  change (Z.of_nat (length boundary) >=? to_int 6) with true. cbv iota.
  change (firstn (Z.to_nat (6 - 1)) boundary ++ [0])
    with [95; 108; 119; 115; 13; 0].
  do 4 eexists. split; [reflexivity|]. split; [reflexivity|].
  assert (Hload : load_bytes
            (store_bytes (store_bytes m (pstart + 0) bytes) (pstart + amount)
                         [95; 108; 119; 115; 13; 0]) pstart (amount + 6)
          = bytes ++ [95; 108; 119; 115; 13; 0]).
  { rewrite Z.add_0_r. subst amount.
    rewrite <- store_bytes_app.
    replace (Z.of_nat (length bytes) + 6)
      with (Z.of_nat (length (bytes ++ [95; 108; 119; 115; 13; 0])))
      by (rewrite length_app; simpl length; lia).
    apply load_store_bytes. }
  split; [exact Hload|].
  intros Heq.
  assert (H' : bytes ++ [95; 108; 119; 115; 13; 0] = bytes ++ boundary)
    by (rewrite <- Hload; exact Heq).
  apply app_inv_head in H'. discriminate.
Qed.

Lemma trailing_boundary_is_cut_witness :
  exists wsi' m',
    serve_http_file_fragment_payload libwebsockets_h release64 context4k
      ten_byte_file serving_last_range (fun _ => 255) =
    WriteFragment wsi' m' 100009 16 7 10 /\
    load_bytes m' 100009 16 =
    [0; 1; 2; 3; 4; 5; 6; 7; 8; 9; 95; 108; 119; 115; 13; 0].
Proof.
  destruct (trailing_boundary_is_cut libwebsockets_h release64 context4k
              ten_byte_file serving_last_range (fun _ => 255)
              [0; 1; 2; 3; 4; 5; 6; 7; 8; 9])
    as (wsi' & m' & n & wp & Heq & Hn & Hb & _);
    try reflexivity; try (simpl; unfold INT_MAX; lia); try discriminate.
  exists wsi', m'. vm_compute in Heq. inversion Heq; subst. split; reflexivity.
Defined.

(** ** The scenarios of the specification *)

(** Short text frame, server to client: 81 02 68 69. *)
Example scenario_short_text_frame :
  let r := lws_write libwebsockets_h release64 context4k (world 100 5000 0)
             (connection LWSCM_WS_SERVING ws_idle)
             (store_bytes (fun _ => 0) 1000 [104; 105]) 1000 2 0 in
  res r = Ret 2 /\ offered_bytes (trace r) = [129; 2; 104; 105].
Proof. split; reflexivity. Qed.

(** Medium binary frame, server to client: 82 7E 00 C8 and 200 zeros. *)
Example scenario_medium_binary_frame :
  let r := lws_write libwebsockets_h release64 context4k (world 1000 5000 0)
             (connection LWSCM_WS_SERVING ws_idle) (fun _ => 0) 1000 200 1 in
  res r = Ret 200 /\
  offered_bytes (trace r) = [130; 126; 0; 200] ++ repeat 0 200%nat.
Proof. split; vm_compute; reflexivity. Qed.

(** The header of a client frame of 70000 bytes:
    82 FF 00 00 00 00 00 01 11 70, and four more bytes for the nonce. *)
Example scenario_large_client_header :
  option_map (fun f => (fr_pre f, load_bytes (fr_mem f) (1000 - fr_pre f) 10))
    (ws_frame_header libwebsockets_h release64 true (fun _ => 0) 1000 70000 1)
  = Some (14, [130; 255; 0; 0; 0; 0; 0; 1; 17; 112]).
Proof. reflexivity. Qed.

(** A client frame of six zero bytes under the nonce A1 B2 C3 D4. *)
Example scenario_small_client_frame :
  let r := lws_write libwebsockets_h release64 context4k (world 100 5000 0)
             (connection LWSCM_WS_CLIENT ws_idle) (fun _ => 0) 1000 6 1 in
  res r = Ret 6 /\
  offered_bytes (trace r) =
    [130; 134; 161; 178; 195; 212; 161; 178; 195; 212; 161; 178].
Proof. split; vm_compute; reflexivity. Qed.

(** A socket that would block: the whole write is kept for later. *)
Example scenario_would_block :
  let r := lws_issue_raw release64 context4k blocked_world
             (connection LWSCM_WS_SERVING ws_idle) ramp 1000 4 in
  res r = Ret 4 /\
  pending_bytes (wsi_out r) (mem_out r) = load_bytes ramp 1000 4 /\
  rearms (trace r) = 1%nat.
Proof. split; [|split]; reflexivity. Qed.

(** Entering the second of two ranges: part header, the ten bytes of the
    range, and the cut trailing boundary, sent as the final write. *)
Example scenario_second_range :
  match serve_http_file_fragment_payload libwebsockets_h release64 context4k
          ten_byte_file entering_last_range (fun _ => 255) with
  | WriteFragment wsi' m' p n wp amount =>
      p = 100009 /\ amount = 10 /\ wp = LWS_WRITE_HTTP_FINAL libwebsockets_h /\
      filepos (http wsi') = 990 /\
      load_bytes m' p n =
        part_header [116; 101; 120; 116] 990 999 1000 ++
        [0; 1; 2; 3; 4; 5; 6; 7; 8; 9] ++ [95; 108; 119; 115; 13; 0]
  | _ => False
  end.
Proof. vm_compute. repeat split; reflexivity. Qed.

(** The length bytes of the 10-byte header in a 32-bit build. *)
Example scenario_large_header_32bit :
  option_map (fun f => load_bytes (fr_mem f) (1000 - fr_pre f) 10)
    (ws_frame_header libwebsockets_h release32 false (fun _ => 0) 1000 70000 0)
  = Some [129; 127; 0; 0; 0; 0; 0; 1; 17; 112].
Proof. reflexivity. Qed.

(** The aliasing guard in a build that keeps assertions. *)
Example scenario_aliasing_assert :
  res (lws_issue_raw debug64 context4k (world 100 5000 0)
         (owing (connection LWSCM_HTTP_SERVING ws_idle) 5000 10 3 4)
         ramp 5008 2) = AssertFailed.
Proof. reflexivity. Qed.

(** * Further properties of the write pipeline *)

(** ** The raw issuer, path by path *)

Lemma offered_bytes_app t u :
  offered_bytes (t ++ u) = offered_bytes t ++ offered_bytes u.
Proof.
  induction t as [|e t IH]; simpl; [reflexivity|].
  destruct e; simpl; rewrite ?IH, ?app_assoc; reflexivity.
Qed.

Lemma handle_truncated_send_sends_nothing B E wsi m buf real_len n t :
  offered_bytes (trace (handle_truncated_send B E wsi m buf real_len n t)) =
  offered_bytes t.
Proof.
  unfold handle_truncated_send.
  repeat match goal with
         | |- context [if ?c then _ else _] => destruct c
         end; simpl; rewrite ?offered_bytes_app; simpl;
    rewrite ?app_nil_r; auto.
Qed.

Lemma adapter_events_silent E buf len :
  offered_bytes (snd (lws_ssl_capable_write_no_ssl E buf len)) = [] /\
  rearms (snd (lws_ssl_capable_write_no_ssl E buf len)) = O.
Proof.
  unfold lws_ssl_capable_write_no_ssl.
  destruct (socket_send E buf len) as [r e].
  destruct (to_int r >=? 0); [split; reflexivity|].
  repeat match goal with
         | |- context [if ?c then _ else _] => destruct c
         end; split; reflexivity.
Qed.

(** What a call that reaches the socket does, by the answer of the
    transport adapter. *)
Lemma issue_raw_at_transport B cx E wsi m buf len :
  reaches_transport B E wsi buf len ->
  let off := to_int (limit_sending B cx wsi len) in
  let wsi0 := set_could_have_pending wsi true in
  exists t,
    offered t = [to_size (lp64 B) off] /\
    offered_bytes t = load_bytes m buf (to_size (lp64 B) off) /\
    rearms t = O /\
    lws_issue_raw B cx E wsi m buf len =
    match fst (lws_ssl_capable_write_no_ssl E buf off) with
    | LWS_SSL_CAPABLE_ERROR =>
        done (Ret (-1)) (set_socket_is_permanently_unusable wsi0 true) m t
    | LWS_SSL_CAPABLE_MORE_SERVICE =>
        handle_truncated_send B E wsi0 m buf len 0 t
    | Wrote k => handle_truncated_send B E wsi0 m buf len (to_uint k) t
    end.
Proof.
  intros (Hp & Hlen & Hflush & Hguard & Hext). cbv zeta.
  unfold lws_issue_raw. rewrite Hp.
  destruct (Z.eqb_spec len 0) as [|_]; [contradiction|].
  rewrite Hflush, Hguard.
  assert (Hsend : forall t0, rearms t0 = O -> offered t0 = [] ->
                             offered_bytes t0 = [] ->
    exists t,
      offered t = [to_size (lp64 B) (to_int (limit_sending B cx wsi len))] /\
      offered_bytes t =
        load_bytes m buf (to_size (lp64 B) (to_int (limit_sending B cx wsi len))) /\
      rearms t = O /\
      (let t1 := if negb (http2_substream wsi) && negb (lws_socket_is_valid E)
                 then t0 ++ [EvInvalidSockWarning] else t0 in
       let n0 := limit_sending B cx wsi len in
       let '(r, te) := lws_ssl_capable_write_no_ssl E buf (to_int n0) in
       let t2 := t1 ++ [EvSend buf (to_size (lp64 B) (to_int n0))
                               (load_bytes m buf (to_size (lp64 B) (to_int n0)))] ++ te in
       let wsi0 := set_could_have_pending wsi true in
       match r with
       | LWS_SSL_CAPABLE_ERROR =>
           done (Ret (-1)) (set_socket_is_permanently_unusable wsi0 true) m t2
       | LWS_SSL_CAPABLE_MORE_SERVICE =>
           handle_truncated_send B E wsi0 m buf len 0 t2
       | Wrote k => handle_truncated_send B E wsi0 m buf len (to_uint k) t2
       end) =
      match fst (lws_ssl_capable_write_no_ssl E buf
                   (to_int (limit_sending B cx wsi len))) with
      | LWS_SSL_CAPABLE_ERROR =>
          done (Ret (-1))
               (set_socket_is_permanently_unusable
                  (set_could_have_pending wsi true) true) m t
      | LWS_SSL_CAPABLE_MORE_SERVICE =>
          handle_truncated_send B E (set_could_have_pending wsi true) m buf len 0 t
      | Wrote k =>
          handle_truncated_send B E (set_could_have_pending wsi true) m buf len
                                (to_uint k) t
      end).
  { intros t0 Hr Ho Hb. cbv zeta.
    pose proof (adapter_events_quiet E buf (to_int (limit_sending B cx wsi len))) as Hq.
    pose proof (adapter_events_silent E buf (to_int (limit_sending B cx wsi len)))
      as [Hqb Hqr].
    destruct (lws_ssl_capable_write_no_ssl E buf _) as [r te].
    simpl in Hq, Hqb, Hqr. simpl fst.
    eexists. split; [|split; [|split; [|reflexivity]]].
    - destruct (negb (http2_substream wsi) && negb (lws_socket_is_valid E));
        repeat (rewrite ?offered_app; simpl); rewrite ?Ho, ?Hq; reflexivity.
    - destruct (negb (http2_substream wsi) && negb (lws_socket_is_valid E));
        repeat (rewrite ?offered_bytes_app; simpl);
        rewrite ?Hb, ?Hqb, ?app_nil_r; reflexivity.
    - destruct (negb (http2_substream wsi) && negb (lws_socket_is_valid E));
        repeat (rewrite ?rearms_app; simpl); rewrite ?Hr, ?Hqr; reflexivity. }
  destruct Hext as [Hx | Hx].
  - rewrite Hx. apply Hsend; reflexivity.
  - destruct (without_extensions B); [apply Hsend; reflexivity|].
    rewrite Hx. simpl (0 <? 0). simpl (negb (0 =? 0)). cbv iota.
    apply Hsend; rewrite ?offered_app, ?offered_bytes_app, ?rearms_app; reflexivity.
Qed.

(** X1.  After the truncation buffer has been flushed before a close,
    sends are ignored: on a connection whose [could_have_pending] flag is
    clear, in state FLUSHING_SEND_BEFORE_CLOSE and with an empty
    truncation buffer, the issuer answers [(int)len] without a transport
    attempt and without changing the connection or the memory.  (With the
    flag set the call fails with -1 before it gets there.) *)
Theorem issue_raw_ignores_sends_when_flushed B cx E wsi m buf len :
  could_have_pending wsi = false ->
  state wsi = LWSS_FLUSHING_SEND_BEFORE_CLOSE ->
  trunc_len wsi = 0 ->
  let r := lws_issue_raw B cx E wsi m buf len in
  res r = Ret (to_int len) /\ wsi_out r = wsi /\ mem_out r = m /\
  offered (trace r) = [] /\ rearms (trace r) = O.
Proof.
  intros Hp Hs Ht. unfold lws_issue_raw. rewrite Hp, Hs, Ht. simpl.
  destruct (Z.eqb_spec len 0) as [->|_]; simpl; repeat split; reflexivity.
Qed.

Lemma issue_raw_ignores_sends_when_flushed_witness :
  let r := lws_issue_raw release64 context4k (world 100 5000 0)
             (flushing (connection LWSCM_HTTP_SERVING ws_idle)) ramp 1000 7 in
  res r = Ret 7 /\ offered (trace r) = [].
Proof.
  destruct (issue_raw_ignores_sends_when_flushed release64 context4k
              (world 100 5000 0)
              (flushing (connection LWSCM_HTTP_SERVING ws_idle)) ramp 1000 7)
    as (H1 & _ & _ & H2 & _); try reflexivity.
  split; [exact H1|exact H2].
Defined.

(** X2.  A fatal transport error: the call returns -1, marks the socket
    permanently unusable and leaves [could_have_pending] set; the
    truncation buffer and the memory are not touched and no writable
    notification is asked for. *)
Theorem issue_raw_fatal_transport_error B cx E wsi m buf len :
  reaches_transport B E wsi buf len ->
  accepted E buf (to_int (limit_sending B cx wsi len)) = None ->
  let r := lws_issue_raw B cx E wsi m buf len in
  res r = Ret (-1) /\
  socket_is_permanently_unusable (wsi_out r) = true /\
  could_have_pending (wsi_out r) = true /\
  trunc_alloc (wsi_out r) = trunc_alloc wsi /\
  trunc_alloc_len (wsi_out r) = trunc_alloc_len wsi /\
  trunc_offset (wsi_out r) = trunc_offset wsi /\
  trunc_len (wsi_out r) = trunc_len wsi /\
  mem_out r = m /\ rearms (trace r) = O.
Proof.
  intros Hreach Hacc.
  destruct (issue_raw_at_transport B cx E wsi m buf len Hreach)
    as (t & _ & _ & Hr & Heq).
  cbv zeta. rewrite Heq. unfold accepted in Hacc.
  destruct (fst (lws_ssl_capable_write_no_ssl E buf _)); try discriminate.
  simpl. repeat split; auto.
Qed.

Lemma issue_raw_fatal_transport_error_witness :
  let r := lws_issue_raw release64 context4k broken_world
             (connection LWSCM_WS_SERVING ws_idle) ramp 1000 10 in
  res r = Ret (-1) /\ socket_is_permanently_unusable (wsi_out r) = true.
Proof.
  destruct (issue_raw_fatal_transport_error release64 context4k broken_world
              (connection LWSCM_WS_SERVING ws_idle) ramp 1000 10)
    as (H1 & H2 & _).
  - repeat split; try reflexivity; try discriminate. left; reflexivity.
  - reflexivity.
  - split; [exact H1|exact H2].
Defined.

(** A send that the transport takes whole, with nothing pending. *)
Lemma clean_send B cx E wsi m buf len :
  reaches_transport B E wsi buf len ->
  trunc_len wsi = 0 ->
  0 < len <= INT_MAX ->
  accepted E buf (to_int (limit_sending B cx wsi len)) = Some len ->
  let r := lws_issue_raw B cx E wsi m buf len in
  res r = Ret len /\
  wsi_out r = set_could_have_pending wsi true /\
  mem_out r = m /\ rearms (trace r) = O /\
  offered_bytes (trace r) = load_bytes m buf (to_int (limit_sending B cx wsi len)).
Proof.
  intros Hreach Ht Hlen Hacc.
  destruct (issue_raw_at_transport B cx E wsi m buf len Hreach)
    as (t & _ & Hb & Hr & Heq).
  rewrite (send_count_small B cx wsi len ltac:(lia)) in Hb.
  cbv zeta. rewrite Heq. unfold accepted in Hacc. unfold INT_MAX in Hlen.
  assert (Htail : forall n, n = len ->
            handle_truncated_send B E (set_could_have_pending wsi true) m buf len n t
            = done (Ret len) (set_could_have_pending wsi true) m t).
  { intros n ->. unfold handle_truncated_send. simpl trunc_len. rewrite Ht.
    simpl (negb (0 =? 0)). cbv iota. rewrite Z.eqb_refl.
    rewrite to_int_small by (unfold INT_MAX; lia). reflexivity. }
  destruct (fst (lws_ssl_capable_write_no_ssl E buf _)) as [k| |];
    inversion Hacc; subst; [|lia].
  rewrite Htail by (apply to_uint_small; lia).
  simpl. repeat split; auto.
Qed.

(** X3.  A clean send: with nothing pending, when the transport takes all
    [len] bytes the call returns [len]; the truncation buffer and the
    memory are as before, no writable notification is asked for, and the
    only change to the connection is [could_have_pending]. *)
Theorem issue_raw_clean_send B cx E wsi m buf len :
  reaches_transport B E wsi buf len ->
  trunc_len wsi = 0 ->
  0 < len <= INT_MAX ->
  accepted E buf (to_int (limit_sending B cx wsi len)) = Some len ->
  let r := lws_issue_raw B cx E wsi m buf len in
  res r = Ret len /\
  wsi_out r = set_could_have_pending wsi true /\
  mem_out r = m /\ rearms (trace r) = O /\
  offered_bytes (trace r) = load_bytes m buf (to_int (limit_sending B cx wsi len)).
Proof. exact (clean_send B cx E wsi m buf len). Qed.

Lemma issue_raw_clean_send_witness :
  let r := lws_issue_raw release64 context4k (world 100 5000 0)
             (connection LWSCM_WS_SERVING ws_idle) ramp 1000 10 in
  res r = Ret 10 /\ trunc_len (wsi_out r) = 0 /\
  offered_bytes (trace r) = load_bytes ramp 1000 10.
Proof.
  destruct (issue_raw_clean_send release64 context4k (world 100 5000 0)
              (connection LWSCM_WS_SERVING ws_idle) ramp 1000 10)
    as (H1 & H2 & _ & _ & H3).
  - repeat split; try reflexivity; try discriminate. left; reflexivity.
  - reflexivity.
  - unfold INT_MAX. lia.
  - reflexivity.
  - split; [exact H1|]. split; [rewrite H2; reflexivity|exact H3].
Defined.

(** Replaying the pending bytes the way the file pump does passes every
    entry check of the issuer. *)
Lemma replay_reaches_transport B E wsi :
  could_have_pending wsi = false ->
  0 < trunc_len wsi -> 0 <= trunc_offset wsi ->
  ext_passes B E (trunc_alloc wsi + trunc_offset wsi) (trunc_len wsi) ->
  reaches_transport B E wsi (trunc_alloc wsi + trunc_offset wsi) (trunc_len wsi).
Proof.
  intros Hp Hl Ho Hext. unfold reaches_transport.
  split; [exact Hp|]. split; [lia|].
  destruct (Z.eqb_spec (trunc_len wsi) 0); [lia|].
  split; [apply andb_false_r|]. split; [|exact Hext].
  destruct (Z.ltb_spec (trunc_alloc wsi + trunc_offset wsi) (trunc_alloc wsi)); [lia|].
  destruct (Z.gtb_spec (trunc_alloc wsi + trunc_offset wsi)
                       (trunc_alloc wsi + trunc_len wsi + trunc_offset wsi)); [lia|].
  reflexivity.
Qed.

(** X4.  The end of a replay: when the transport takes all the pending
    bytes, [trunc_len] becomes 0 while the buffer itself is kept for the
    next truncation; the call returns [len] and asks for a writable
    notification, except in state FLUSHING_SEND_BEFORE_CLOSE, where it
    returns -1 to make the caller close. *)
Theorem issue_raw_replay_completed B cx E wsi m :
  could_have_pending wsi = false ->
  trunc_fields_in_range wsi -> trunc_invariant wsi ->
  0 < trunc_len wsi <= INT_MAX ->
  ext_passes B E (trunc_alloc wsi + trunc_offset wsi) (trunc_len wsi) ->
  accepted E (trunc_alloc wsi + trunc_offset wsi)
           (to_int (limit_sending B cx wsi (trunc_len wsi)))
    = Some (trunc_len wsi) ->
  let r := lws_issue_raw B cx E wsi m (trunc_alloc wsi + trunc_offset wsi)
                         (trunc_len wsi) in
  trunc_len (wsi_out r) = 0 /\
  trunc_alloc (wsi_out r) = trunc_alloc wsi /\
  trunc_alloc_len (wsi_out r) = trunc_alloc_len wsi /\
  mem_out r = m /\
  (state wsi <> LWSS_FLUSHING_SEND_BEFORE_CLOSE ->
   res r = Ret (trunc_len wsi) /\ rearms (trace r) = 1%nat) /\
  (state wsi = LWSS_FLUSHING_SEND_BEFORE_CLOSE ->
   res r = Ret (-1) /\ rearms (trace r) = O).
Proof.
  intros Hp (Ha & Ho & Hl) Hinv Hlen Hext Hacc.
  assert (Hreach := replay_reaches_transport B E wsi Hp ltac:(lia) ltac:(lia) Hext).
  destruct (issue_raw_at_transport B cx E wsi m _ _ Hreach)
    as (t & _ & _ & Hr & Heq).
  cbv zeta. rewrite Heq. unfold accepted in Hacc. unfold INT_MAX in Hlen.
  destruct (fst (lws_ssl_capable_write_no_ssl E _ _)) as [k| |];
    inversion Hacc; subst; [|lia].
  rewrite (to_uint_small (trunc_len wsi)) by lia.
  unfold handle_truncated_send. simpl trunc_len. simpl trunc_offset.
  destruct (Z.eqb_spec (trunc_len wsi) 0); [lia|]. simpl negb. cbv iota.
  rewrite Z.sub_diag. change (to_uint 0) with 0. simpl (0 =? 0). cbv iota zeta.
  rewrite to_uint_to_int, (to_uint_small (trunc_len wsi)) by lia.
  rewrite (to_int_small (trunc_len wsi)) by (unfold INT_MAX; lia).
  simpl state.
  destruct (state wsi) eqn:Hs; simpl;
    rewrite ?rearms_app, ?Hr; simpl;
    repeat split; auto; try congruence; intros; congruence.
Qed.

Lemma issue_raw_replay_completed_witness :
  let wsi := owing (connection LWSCM_HTTP_SERVING ws_idle) 5000 10 3 4 in
  let r := lws_issue_raw release64 context4k (world 100 5000 0) wsi ramp
             (trunc_alloc wsi + trunc_offset wsi) (trunc_len wsi) in
  trunc_len (wsi_out r) = 0 /\ trunc_alloc (wsi_out r) = 5000 /\ res r = Ret 4.
Proof.
  cbv zeta.
  destruct (issue_raw_replay_completed release64 context4k (world 100 5000 0)
              (owing (connection LWSCM_HTTP_SERVING ws_idle) 5000 10 3 4) ramp)
    as (H1 & H2 & _ & _ & H3 & _).
  - reflexivity.
  - unfold trunc_fields_in_range. simpl. lia.
  - unfold trunc_invariant. simpl. lia.
  - simpl. unfold INT_MAX. lia.
  - left. reflexivity.
  - reflexivity.
  - split; [exact H1|]. split; [exact H2|]. apply H3. discriminate.
Defined.

(** X5.  One call makes at most one transport attempt. *)
Theorem issue_raw_single_attempt B cx E wsi m buf len :
  (length (offered (trace (lws_issue_raw B cx E wsi m buf len))) <= 1)%nat.
Proof.
  destruct (issue_raw_offered B cx E wsi m buf len) as [H | H];
    cbv zeta in H; rewrite H; simpl; lia.
Qed.

(** X6.  An extension that answers the [PACKET_TX_DO_SEND] callback with
    anything but 0 keeps the packet away from the socket: a negative
    answer fails the call with -1 and changes nothing; a positive answer
    [k] stands for [k] bytes sent, the socket is not called and
    [could_have_pending] stays clear. *)
Theorem issue_raw_extension_takes_over B cx E wsi m buf len :
  without_extensions B = false ->
  could_have_pending wsi = false ->
  len <> 0 ->
  state_eqb (state wsi) LWSS_FLUSHING_SEND_BEFORE_CLOSE &&
    (trunc_len wsi =? 0) = false ->
  negb (trunc_len wsi =? 0) &&
    ((buf <? trunc_alloc wsi) ||
     (buf >? trunc_alloc wsi + trunc_len wsi + trunc_offset wsi)) = false ->
  fst (ext_packet_tx_do_send E buf (to_int len)) <> 0 ->
  let r := lws_issue_raw B cx E wsi m buf len in
  offered (trace r) = [] /\
  could_have_pending (wsi_out r) = false /\
  (fst (ext_packet_tx_do_send E buf (to_int len)) < 0 ->
   res r = Ret (-1) /\ wsi_out r = wsi /\ mem_out r = m) /\
  (0 < fst (ext_packet_tx_do_send E buf (to_int len)) ->
   r = handle_truncated_send B E wsi m
         (snd (ext_packet_tx_do_send E buf (to_int len))) len
         (to_uint (fst (ext_packet_tx_do_send E buf (to_int len))))
         [EvStats LWSSTATS_C_API_WRITE 1; EvExtPacketTx buf (to_int len)]).
Proof.
  intros Hx Hp Hlen Hflush Hguard Hm.
  unfold lws_issue_raw. rewrite Hp, Hx, Hflush, Hguard.
  destruct (Z.eqb_spec len 0) as [|_]; [contradiction|].
  destruct (ext_packet_tx_do_send E buf (to_int len)) as [mx b].
  simpl fst in *. simpl snd.
  destruct (Z.ltb_spec mx 0).
  - simpl. repeat split; auto; intros; lia.
  - destruct (Z.eqb_spec mx 0) as [|_]; [contradiction|]. simpl negb. cbv iota zeta.
    pose proof (handle_truncated_send_quiet B E wsi m b len (to_uint mx)
                  ([EvStats LWSSTATS_C_API_WRITE 1] ++ [EvExtPacketTx buf (to_int len)]))
      as [Ho Hc].
    split; [rewrite Ho; reflexivity|].
    split; [rewrite Hc; exact Hp|].
    split; [intros; lia|]. intros _. reflexivity.
Qed.

Lemma issue_raw_extension_takes_over_witness :
  let r := lws_issue_raw extensions64 context4k (taken_over 5)
             (connection LWSCM_WS_SERVING ws_idle) ramp 1000 5 in
  offered (trace r) = [] /\ could_have_pending (wsi_out r) = false.
Proof.
  assert (H5 : (5 : Z) <> 0) by lia.
  pose proof (issue_raw_extension_takes_over extensions64 context4k (taken_over 5)
                (connection LWSCM_WS_SERVING ws_idle) ramp 1000 5
                eq_refl eq_refl H5 eq_refl eq_refl H5) as H.
  exact (conj (proj1 H) (proj1 (proj2 H))).
Defined.

(** The memory after a call is the memory before it, unless the tail of
    the function ran. *)
Lemma issue_raw_memory_cases B cx E wsi m buf len :
  let r := lws_issue_raw B cx E wsi m buf len in
  mem_out r = m \/
  (exists b n t c,
     r = handle_truncated_send B E (set_could_have_pending wsi c) m b len n t /\
     0 <= n < 2 ^ 32 /\
     (0 <= len -> send_contract E -> ext_contract E -> n <= len)).
Proof.
  destruct (issue_raw_cases B cx E wsi m buf len) as [_ | (b & n & t & H)].
  - cbv zeta. unfold lws_issue_raw.
    destruct (could_have_pending wsi) eqn:Hp; [left; reflexivity|].
    destruct (len =? 0); [left; reflexivity|].
    destruct (state_eqb _ _ && _); [left; reflexivity|].
    destruct (negb (trunc_len wsi =? 0) && _); [left; reflexivity|].
    assert (Hsend : forall b t0,
      let r :=
        (let t1 := if negb (http2_substream wsi) && negb (lws_socket_is_valid E)
                   then t0 ++ [EvInvalidSockWarning] else t0 in
         let n0 := limit_sending B cx wsi len in
         let '(r, te) := lws_ssl_capable_write_no_ssl E b (to_int n0) in
         let t2 := t1 ++ [EvSend b (to_size (lp64 B) (to_int n0))
                             (load_bytes m b (to_size (lp64 B) (to_int n0)))] ++ te in
         let wsi0 := set_could_have_pending wsi true in
         match r with
         | LWS_SSL_CAPABLE_ERROR =>
             done (Ret (-1)) (set_socket_is_permanently_unusable wsi0 true) m t2
         | LWS_SSL_CAPABLE_MORE_SERVICE =>
             handle_truncated_send B E wsi0 m b len 0 t2
         | Wrote k => handle_truncated_send B E wsi0 m b len (to_uint k) t2
         end) in
      mem_out r = m \/
      (exists b' n t c,
         r = handle_truncated_send B E (set_could_have_pending wsi c) m b' len n t /\
         0 <= n < 2 ^ 32 /\
         (0 <= len -> send_contract E -> ext_contract E -> n <= len))).
    { intros b t0. cbv zeta.
      pose proof (accepted_range E b (to_int (limit_sending B cx wsi len))) as Hacc.
      unfold accepted in Hacc.
      destruct (lws_ssl_capable_write_no_ssl E b _) as [r te]. simpl in Hacc.
      destruct r as [k| |].
      - right. destruct (Hacc k eq_refl) as (Hk & Hle). unfold INT_MAX in Hk.
        exists b, (to_uint k). eexists. exists true.
        split; [reflexivity|]. split; [apply to_uint_range|].
        intros Hl Hs _. specialize (Hle Hs).
        rewrite to_uint_small by lia.
        pose proof (limit_sending_le_len B cx wsi len Hl).
        pose proof (to_int_le (limit_sending B cx wsi len) ltac:(lia)). lia.
      - right. exists b, 0. eexists. exists true.
        split; [reflexivity|]. split; lia.
      - left. reflexivity. }
    destruct (without_extensions B).
    + apply Hsend.
    + destruct (ext_packet_tx_do_send E buf (to_int len)) as [mx b'] eqn:Hext.
      destruct (Z.ltb_spec mx 0); [left; reflexivity|].
      destruct (Z.eqb_spec mx 0); simpl negb; cbv iota.
      * apply Hsend.
      * right. exists b', (to_uint mx). eexists. exists false.
        replace (set_could_have_pending wsi false) with wsi
          by (destruct wsi; simpl in Hp; subst; reflexivity).
        split; [reflexivity|]. split; [apply to_uint_range|].
        intros Hl _ Hc. specialize (Hc buf (to_int len)). rewrite Hext in Hc.
        simpl in Hc. pose proof (to_int_le len Hl).
        pose proof (to_uint_le mx ltac:(lia)). lia.
  - right. destruct H as (Heq & Hn & Hle). exists b, n, t. eexists.
    split; [exact Heq|]. split; assumption.
Qed.

(** X7.  The only memory a call writes is the truncation buffer it
    fills.  For a call with [0 <= len <= INT_MAX], a [send] that reports
    -1 or no more than it was given and an extension that handles no more
    than it was given: a byte that differs after the call lies in the
    [trunc_len] bytes at [trunc_alloc] of a connection that had nothing
    pending before.  In particular the caller's buffer is only read.
    (Beyond INT_MAX the copy into the buffer is longer than the
    [trunc_len] that the connection records.) *)
Theorem issue_raw_writes_only_truncation_buffer B cx E wsi m buf len :
  0 <= len <= INT_MAX ->
  send_contract E -> ext_contract E ->
  let r := lws_issue_raw B cx E wsi m buf len in
  forall a, mem_out r a <> m a ->
    trunc_len wsi = 0 /\
    trunc_alloc (wsi_out r) <= a <
      trunc_alloc (wsi_out r) + trunc_len (wsi_out r).
Proof.
  intros Hlen Hs He r a Ha. unfold INT_MAX in Hlen.
  destruct (issue_raw_memory_cases B cx E wsi m buf len)
    as [Hm | (b & n & t & c & Heq & Hn & Hle)]; fold r in Hm || idtac.
  - fold r in Hm. rewrite Hm in Ha. contradiction.
  - fold r in Heq. specialize (Hle ltac:(lia) Hs He).
    rewrite Heq in Ha |- *. clear Heq.
    unfold handle_truncated_send in *. simpl trunc_len in *.
    simpl trunc_alloc in *. simpl trunc_alloc_len in *.
    destruct (Z.eqb_spec (trunc_len wsi) 0) as [Hz|Hnz]; simpl negb in *; cbv iota in *.
    + split; [exact Hz|].
      destruct (Z.eqb_spec n len); [simpl in Ha; contradiction|].
      rewrite (to_size_small (lp64 B) (len - n)) in * by lia.
      rewrite (to_uint_small (len - n)) in * by lia.
      cbv zeta in *.
      destruct ((trunc_alloc wsi =? 0) || (len - n >? trunc_alloc_len wsi)).
      * destruct (lws_malloc E (len - n) =? 0); [simpl in Ha; contradiction|].
        simpl in *. unfold memcpy in Ha.
        destruct (Z.leb_spec (lws_malloc E (len - n)) a);
          destruct (Z.ltb_spec a (lws_malloc E (len - n) + (len - n)));
          simpl in Ha; try contradiction. lia.
      * simpl in *. unfold memcpy in Ha.
        destruct (Z.leb_spec (trunc_alloc wsi) a);
          destruct (Z.ltb_spec a (trunc_alloc wsi + (len - n)));
          simpl in Ha; try contradiction. lia.
    + cbv zeta in Ha.
      destruct (to_uint (trunc_len wsi - n) =? 0);
        [destruct (state_eqb _ _)|]; simpl in Ha; contradiction.
Qed.

Lemma issue_raw_writes_only_truncation_buffer_witness :
  let r := lws_issue_raw release64 context4k (world 3 5000 0)
             (connection LWSCM_WS_SERVING ws_idle) ramp 1000 10 in
  mem_out r 5000 <> ramp 5000 /\
  trunc_alloc (wsi_out r) <= 5000 <
    trunc_alloc (wsi_out r) + trunc_len (wsi_out r).
Proof.
  cbv zeta.
  assert (H : mem_out (lws_issue_raw release64 context4k (world 3 5000 0)
                         (connection LWSCM_WS_SERVING ws_idle) ramp 1000 10) 5000
              <> ramp 5000) by (vm_compute; discriminate).
  split; [exact H|].
  apply (issue_raw_writes_only_truncation_buffer release64 context4k
           (world 3 5000 0) (connection LWSCM_WS_SERVING ws_idle) ramp 1000 10).
  - unfold INT_MAX. lia.
  - apply world_send_contract. lia.
  - intros b l. simpl. lia.
  - exact H.
Defined.

Lemma firstn_of_seq n : forall s k, firstn n (seq s k) = seq s (Nat.min n k).
Proof.
  induction n as [|n IH]; intros s k; [reflexivity|].
  destruct k as [|k]; [reflexivity|].
  simpl. rewrite IH. reflexivity.
Qed.

Lemma load_bytes_prefix m a x y :
  0 <= x <= y -> load_bytes m a x = firstn (Z.to_nat x) (load_bytes m a y).
Proof.
  intros H. unfold load_bytes.
  rewrite firstn_map, firstn_of_seq. do 2 f_equal. lia.
Qed.

(** X8.  A partial send is resumed where it stopped.  After a call with
    [0 < len <= INT_MAX] on a connection with nothing pending and not in
    state FLUSHING_SEND_BEFORE_CLOSE, that got [k < len] of its bytes
    through and could have the truncation buffer it needed, and after the
    writable dispatch that clears [could_have_pending], the replay of the
    truncation buffer (as the file pump issues it) offers the transport
    the bytes of the first call from byte [k] on, as many as the rate cap
    allows.  (No extension takes either packet over.) *)
Theorem issue_raw_resumes_where_it_stopped B cx E1 E2 wsi m buf len k :
  could_have_pending wsi = false ->
  trunc_len wsi = 0 ->
  state_eqb (state wsi) LWSS_FLUSHING_SEND_BEFORE_CLOSE = false ->
  0 < len <= INT_MAX ->
  ext_passes B E1 buf len ->
  accepted E1 buf (to_int (limit_sending B cx wsi len)) = Some k ->
  0 <= k < len ->
  ((trunc_alloc wsi =? 0) || (len - k >? trunc_alloc_len wsi) = true ->
   lws_malloc E1 (len - k) <> 0) ->
  let r1 := lws_issue_raw B cx E1 wsi m buf len in
  let wsi1 := set_could_have_pending (wsi_out r1) false in
  ext_passes B E2 (trunc_alloc wsi1 + trunc_offset wsi1) (trunc_len wsi1) ->
  let r2 := lws_issue_raw B cx E2 wsi1 (mem_out r1)
              (trunc_alloc wsi1 + trunc_offset wsi1) (trunc_len wsi1) in
  let off2 := to_int (limit_sending B cx wsi1 (len - k)) in
  0 <= off2 <= len - k /\
  offered (trace r2) = [off2] /\
  offered_bytes (trace r2) = load_bytes m (buf + k) off2.
Proof.
  intros Hp Ht Hs Hlen Hext Hacc Hk Hm r1 wsi1 Hext2 r2 off2.
  destruct (issue_raw_newly_truncated_aux B cx E1 wsi m buf len k
              Hp Ht Hs Hlen Hext Hacc Hk) as [_ Hok].
  destruct (Hok Hm) as (_ & Hoff & Htl & _ & _ & Hpend & _).
  fold r1 in Hoff, Htl, Hpend.
  assert (Ho1 : trunc_offset wsi1 = 0) by exact Hoff.
  assert (Hl1 : trunc_len wsi1 = len - k) by exact Htl.
  assert (Hreach : reaches_transport B E2 wsi1
                     (trunc_alloc wsi1 + trunc_offset wsi1) (trunc_len wsi1)).
  { apply replay_reaches_transport; auto; try lia; reflexivity. }
  destruct (issue_raw_at_transport B cx E2 wsi1 (mem_out r1) _ _ Hreach)
    as (t & Hto & Htb & _ & Heq).
  fold r2 in Heq. rewrite Hl1 in Hto, Htb, Heq.
  rewrite (send_count_small B cx wsi1 (len - k)) in Hto, Htb
    by (unfold INT_MAX in *; lia).
  fold off2 in Hto, Htb, Heq.
  assert (Hrange : 0 <= off2 <= len - k).
  { subst off2. unfold INT_MAX in Hlen.
    pose proof (limit_sending_le_len B cx wsi1 (len - k) ltac:(lia)).
    rewrite to_int_small by (unfold INT_MAX; lia). lia. }
  split; [exact Hrange|].
  assert (Htrace : offered (trace r2) = offered t /\
                   offered_bytes (trace r2) = offered_bytes t).
  { rewrite Heq.
    destruct (fst (lws_ssl_capable_write_no_ssl E2 _ off2)); simpl;
      rewrite ?(proj1 (handle_truncated_send_quiet _ _ _ _ _ _ _ _)),
              ?handle_truncated_send_sends_nothing; auto. }
  destruct Htrace as [-> ->]. split; [exact Hto|].
  rewrite Htb.
  rewrite (load_bytes_prefix (mem_out r1) _ off2 (len - k) Hrange).
  unfold pending_bytes in Hpend.
  change (trunc_alloc (wsi_out r1)) with (trunc_alloc wsi1) in Hpend.
  change (trunc_offset (wsi_out r1)) with (trunc_offset wsi1) in Hpend.
  change (trunc_len (wsi_out r1)) with (trunc_len wsi1) in Hpend.
  rewrite Hl1 in Hpend. rewrite Hpend.
  symmetry. apply load_bytes_prefix. exact Hrange.
Qed.

Lemma issue_raw_resumes_where_it_stopped_witness :
  let r1 := lws_issue_raw release64 context4k (world 3 5000 0)
              (connection LWSCM_WS_SERVING ws_idle) ramp 1000 10 in
  let wsi1 := set_could_have_pending (wsi_out r1) false in
  let r2 := lws_issue_raw release64 context4k (world 100 5000 0) wsi1 (mem_out r1)
              (trunc_alloc wsi1 + trunc_offset wsi1) (trunc_len wsi1) in
  offered_bytes (trace r2) = load_bytes ramp (1000 + 3) 7.
Proof.
  cbv zeta.
  refine (proj2 (proj2
    (issue_raw_resumes_where_it_stopped release64 context4k
       (world 3 5000 0) (world 100 5000 0)
       (connection LWSCM_WS_SERVING ws_idle) ramp 1000 10 3
       eq_refl eq_refl eq_refl _ _ eq_refl _ _ _))).
  - unfold INT_MAX. lia.
  - left. reflexivity.
  - lia.
  - intros _. simpl. discriminate.
  - left. reflexivity.
Defined.

(** ** Lengths beyond INT_MAX *)

(** C4, as the claim words it, fails beyond INT_MAX.  On LP64 a call with
    [len = 2^32 + 10] of which the socket takes 3 bytes returns 10, not
    [len], and records a [trunc_len] of 7, not [len - 3]: the bookkeeping
    is done in [unsigned int].  A call with [len = 2^31] buffers what the
    socket left and returns INT_MIN, a negative value on success. *)
Lemma issue_raw_length_wraps :
  let wsi := connection LWSCM_WS_SERVING ws_idle in
  let E := world 3 5000 0 in
  (let len := 2 ^ 32 + 10 in
   let r := lws_issue_raw release64 context4k E wsi ramp 1000 len in
   accepted E 1000 (to_int (limit_sending release64 context4k wsi len)) = Some 3 /\
   res r = Ret 10 /\ trunc_len (wsi_out r) = 7 /\
   res r <> Ret len /\ trunc_len (wsi_out r) <> len - 3) /\
  (let len := 2 ^ 31 in
   let r := lws_issue_raw release64 context4k E wsi ramp 1000 len in
   accepted E 1000 (to_int (limit_sending release64 context4k wsi len)) = Some 3 /\
   res r = Ret (- 2 ^ 31) /\ trunc_len (wsi_out r) = len - 3).
Proof.
  cbv zeta. split.
  - split; [reflexivity|]. split; [vm_compute; reflexivity|].
    split; [vm_compute; reflexivity|].
    split; vm_compute; discriminate.
  - split; [reflexivity|]. split; vm_compute; reflexivity.
Qed.

(** C5, as the claim words it, fails beyond INT_MAX.  With a
    [tx_packet_size] of [2^31] the cap is [2^31 + 20]; as the [int]
    argument of the transport adapter it is negative, and [send] takes it
    as a [size_t] of [2^64 - 2147483628] bytes, more than the cap and
    more than the [len] of [2^32].  And of a call with
    [len = 2^32 + 5000], of which the socket takes the 4116 bytes of the
    cap, only 884 bytes are recorded as pending, not [len - 4116]. *)
Lemma issue_raw_exceeds_rate_cap :
  (let wsi := with_packet_size (connection LWSCM_WS_SERVING ws_idle) (2 ^ 31) in
   let len := 2 ^ 32 in
   let r := lws_issue_raw release64 context4k (world 100 5000 0) wsi ramp 1000
              len in
   rate_cap release64 context4k wsi = 2 ^ 31 + 20 /\
   offered (trace r) = [2 ^ 64 - 2147483628] /\
   rate_cap release64 context4k wsi < 2 ^ 64 - 2147483628 /\
   len < 2 ^ 64 - 2147483628) /\
  (let wsi := connection LWSCM_WS_SERVING ws_idle in
   let len := 2 ^ 32 + 5000 in
   let r := lws_issue_raw release64 context4k (world 5000 5000 0) wsi ramp 1000
              len in
   rate_cap release64 context4k wsi = 4116 /\
   offered (trace r) = [4116] /\
   res r = Ret 5000 /\
   trunc_len (wsi_out r) = 884 /\
   trunc_len (wsi_out r) <> len - 4116).
Proof.
  cbv zeta. split.
  - split; [reflexivity|]. split; [|split; reflexivity].
    destruct (issue_raw_at_transport release64 context4k (world 100 5000 0)
                (with_packet_size (connection LWSCM_WS_SERVING ws_idle) (2 ^ 31))
                ramp 1000 (2 ^ 32)) as (t & Ht & _ & _ & ->).
    { repeat split; try reflexivity; try discriminate. left. reflexivity. }
    destruct (fst (lws_ssl_capable_write_no_ssl _ _ _));
      [rewrite (proj1 (handle_truncated_send_quiet _ _ _ _ _ _ _ _))
      |rewrite (proj1 (handle_truncated_send_quiet _ _ _ _ _ _ _ _))
      |unfold done; cbn [trace]];
      rewrite Ht; reflexivity.
  - split; [reflexivity|]. split; [vm_compute; reflexivity|].
    split; [vm_compute; reflexivity|]. split; [vm_compute; reflexivity|].
    vm_compute. discriminate.
Qed.

(** ** More on the raw issuer *)

Lemma handle_truncated_send_keeps_rest B E wsi m buf real_len n t :
  let r := handle_truncated_send B E wsi m buf real_len n t in
  http (wsi_out r) = http wsi /\ state (wsi_out r) = state wsi /\
  http2_substream (wsi_out r) = http2_substream wsi.
Proof.
  unfold handle_truncated_send.
  repeat match goal with
         | |- context [if ?c then _ else _] => destruct c
         end; repeat split; reflexivity.
Qed.

(** The issuer leaves the HTTP block and the state of the connection
    alone. *)
Lemma issue_raw_keeps_rest B cx E wsi m buf len :
  let r := lws_issue_raw B cx E wsi m buf len in
  http (wsi_out r) = http wsi /\ state (wsi_out r) = state wsi /\
  http2_substream (wsi_out r) = http2_substream wsi.
Proof.
  unfold lws_issue_raw.
  destruct (could_have_pending wsi); [repeat split; reflexivity|].
  destruct (len =? 0); [repeat split; reflexivity|].
  destruct (state_eqb _ _ && _); [repeat split; reflexivity|].
  destruct (negb (trunc_len wsi =? 0) && _); [repeat split; reflexivity|].
  destruct (without_extensions B).
  - simpl. destruct (lws_ssl_capable_write_no_ssl E buf _) as [r te].
    destruct r;
      first [exact (handle_truncated_send_keeps_rest B E
                      (set_could_have_pending wsi true) _ _ _ _ _)
            | repeat split; reflexivity].
  - destruct (ext_packet_tx_do_send E buf (to_int len)) as [mx b].
    destruct (mx <? 0); [repeat split; reflexivity|].
    destruct (negb (mx =? 0)).
    + apply handle_truncated_send_keeps_rest.
    + destruct (lws_ssl_capable_write_no_ssl E b _) as [r te].
      destruct r;
        first [exact (handle_truncated_send_keeps_rest B E
                        (set_could_have_pending wsi true) _ _ _ _ _)
              | repeat split; reflexivity].
Qed.

(** A call that reaches the transport leaves [could_have_pending] set. *)
Lemma at_transport_sets_pending B cx E wsi m buf len :
  reaches_transport B E wsi buf len ->
  could_have_pending (wsi_out (lws_issue_raw B cx E wsi m buf len)) = true.
Proof.
  intros Hreach.
  destruct (issue_raw_at_transport B cx E wsi m buf len Hreach)
    as (t & _ & _ & _ & Heq).
  rewrite Heq.
  destruct (fst (lws_ssl_capable_write_no_ssl E _ _));
    rewrite ?(proj2 (handle_truncated_send_quiet _ _ _ _ _ _ _ _));
    reflexivity.
Qed.

(** A send with nothing pending, of which the transport takes [k] bytes:
    the call returns [len] and the [len - k] bytes it did not take are the
    pending bytes afterwards. *)
Lemma issue_raw_fresh_send B cx E wsi m buf len k :
  reaches_transport B E wsi buf len ->
  trunc_len wsi = 0 ->
  0 < len <= INT_MAX ->
  accepted E buf (to_int (limit_sending B cx wsi len)) = Some k ->
  0 <= k <= len ->
  (k < len ->
   (trunc_alloc wsi =? 0) || (len - k >? trunc_alloc_len wsi) = true ->
   lws_malloc E (len - k) <> 0) ->
  let r := lws_issue_raw B cx E wsi m buf len in
  res r = Ret len /\
  could_have_pending (wsi_out r) = true /\
  trunc_len (wsi_out r) = len - k /\
  pending_bytes (wsi_out r) (mem_out r) = load_bytes m (buf + k) (len - k).
Proof.
  intros Hreach Ht Hlen Hacc Hk Hmal.
  destruct (Z.eq_dec k len) as [->|Hne].
  - destruct (clean_send B cx E wsi m buf len Hreach Ht Hlen Hacc)
      as (H1 & H2 & H3 & _).
    cbv zeta in *. rewrite H1, H2. unfold pending_bytes. simpl.
    rewrite Ht, Z.sub_diag. repeat split; reflexivity.
  - pose proof (at_transport_sets_pending B cx E wsi m buf len Hreach) as Hcp.
    destruct Hreach as (Hp & Hnz & Hflush & Hguard & Hext).
    assert (Hs : state_eqb (state wsi) LWSS_FLUSHING_SEND_BEFORE_CLOSE = false).
    { rewrite Ht in Hflush. simpl in Hflush. rewrite andb_true_r in Hflush.
      exact Hflush. }
    destruct (issue_raw_newly_truncated_aux B cx E wsi m buf len k
                Hp Ht Hs Hlen Hext Hacc ltac:(lia)) as [_ Hok].
    destruct Hok as (H1 & _ & H3 & _ & _ & H6 & H7).
    + apply Hmal. lia.
    + cbv zeta. split; [exact H1|]. split; [exact Hcp|].
      split; [exact H3|exact H6].
Qed.

(** ** Transient socket errors *)

Lemma blocking_hints_app t u :
  blocking_hints (t ++ u) = (blocking_hints t + blocking_hints u)%nat.
Proof.
  induction t as [|e t IH]; [reflexivity|].
  destruct e; simpl; rewrite ?IH; reflexivity.
Qed.

Lemma handle_truncated_send_hints B E wsi m buf real_len n t :
  blocking_hints (trace (handle_truncated_send B E wsi m buf real_len n t))
  = blocking_hints t.
Proof.
  unfold handle_truncated_send.
  repeat match goal with
         | |- context [if ?c then _ else _] => destruct c
         end; simpl; repeat (rewrite ?blocking_hints_app; simpl); lia.
Qed.

(** The blocking-send hints of a call that reaches the transport are those
    of the adapter. *)
Lemma issue_raw_hints B cx E wsi m buf len :
  reaches_transport B E wsi buf len ->
  blocking_hints (trace (lws_issue_raw B cx E wsi m buf len)) =
  blocking_hints
    (snd (lws_ssl_capable_write_no_ssl E buf
            (to_int (limit_sending B cx wsi len)))).
Proof.
  intros (Hp & Hlen & Hflush & Hguard & Hext).
  unfold lws_issue_raw. rewrite Hp.
  destruct (Z.eqb_spec len 0) as [|_]; [contradiction|].
  rewrite Hflush, Hguard.
  assert (Hsend : forall t0, blocking_hints t0 = O ->
    blocking_hints (trace
      (let t1 := if negb (http2_substream wsi) && negb (lws_socket_is_valid E)
                 then t0 ++ [EvInvalidSockWarning] else t0 in
       let n0 := limit_sending B cx wsi len in
       let '(r, te) := lws_ssl_capable_write_no_ssl E buf (to_int n0) in
       let t2 := t1 ++ [EvSend buf (to_size (lp64 B) (to_int n0))
                               (load_bytes m buf (to_size (lp64 B) (to_int n0)))] ++ te in
       let wsi0 := set_could_have_pending wsi true in
       match r with
       | LWS_SSL_CAPABLE_ERROR =>
           done (Ret (-1)) (set_socket_is_permanently_unusable wsi0 true) m t2
       | LWS_SSL_CAPABLE_MORE_SERVICE =>
           handle_truncated_send B E wsi0 m buf len 0 t2
       | Wrote k => handle_truncated_send B E wsi0 m buf len (to_uint k) t2
       end)) =
    blocking_hints
      (snd (lws_ssl_capable_write_no_ssl E buf
              (to_int (limit_sending B cx wsi len))))).
  { intros t0 H0. cbv zeta.
    destruct (lws_ssl_capable_write_no_ssl E buf _) as [r te]. simpl snd.
    destruct r; rewrite ?handle_truncated_send_hints; simpl trace;
      destruct (negb (http2_substream wsi) && negb (lws_socket_is_valid E));
      repeat (rewrite ?blocking_hints_app; simpl); rewrite H0; lia. }
  destruct Hext as [Hx | Hx].
  - rewrite Hx. apply Hsend; reflexivity.
  - destruct (without_extensions B); [apply Hsend; reflexivity|].
    rewrite Hx. simpl (0 <? 0). simpl (negb (0 =? 0)). cbv iota.
    apply Hsend; rewrite ?blocking_hints_app; reflexivity.
Qed.

(** X9.  A transient socket error loses nothing.  When a call with
    [0 < len <= INT_MAX] reaches the socket on a connection with nothing
    pending and [send] fails with an [errno] that equals LWS_EAGAIN,
    LWS_EWOULDBLOCK or LWS_EINTR, the call still returns [len] if the
    truncation buffer can be had: all [len] bytes become the pending
    bytes of the truncation buffer, a writable notification is asked for
    and the socket is not marked unusable.  The blocking-send hint is
    raised exactly when [errno] equals LWS_EWOULDBLOCK, so also for
    EAGAIN on a platform where the two are one number. *)
Theorem issue_raw_transient_error B cx E wsi m buf len :
  reaches_transport B E wsi buf len ->
  trunc_len wsi = 0 ->
  0 < len <= INT_MAX ->
  let off := to_int (limit_sending B cx wsi len) in
  let errno := snd (socket_send E buf off) in
  to_int (fst (socket_send E buf off)) < 0 ->
  errno = LWS_EAGAIN E \/ errno = LWS_EWOULDBLOCK E \/ errno = LWS_EINTR E ->
  ((trunc_alloc wsi =? 0) || (len >? trunc_alloc_len wsi) = true ->
   lws_malloc E len <> 0) ->
  let r := lws_issue_raw B cx E wsi m buf len in
  res r = Ret len /\
  socket_is_permanently_unusable (wsi_out r) =
    socket_is_permanently_unusable wsi /\
  trunc_len (wsi_out r) = len /\
  pending_bytes (wsi_out r) (mem_out r) = load_bytes m buf len /\
  rearms (trace r) = 1%nat /\
  blocking_hints (trace r) =
    (if errno =? LWS_EWOULDBLOCK E then 1%nat else O).
Proof.
  intros Hreach Ht Hlen off errno Hneg Herr Hmal r.
  assert (Had : lws_ssl_capable_write_no_ssl E buf off =
                (LWS_SSL_CAPABLE_MORE_SERVICE,
                 if errno =? LWS_EWOULDBLOCK E then [EvSetBlockingSend] else [])).
  { unfold lws_ssl_capable_write_no_ssl. subst errno.
    destruct (socket_send E buf off) as [x e]. simpl in Hneg, Herr |- *.
    destruct (Z.geb_spec (to_int x) 0); [lia|].
    assert (Hc : (e =? LWS_EAGAIN E) || (e =? LWS_EWOULDBLOCK E) ||
                 (e =? LWS_EINTR E) = true).
    { destruct Herr as [-> | [-> | ->]]; rewrite Z.eqb_refl;
        rewrite ?orb_true_r; reflexivity. }
    rewrite Hc. reflexivity. }
  assert (Hacc : accepted E buf off = Some 0)
    by (unfold accepted; rewrite Had; reflexivity).
  pose proof Hreach as (Hp & _ & Hflush & _ & Hext).
  assert (Hs : state_eqb (state wsi) LWSS_FLUSHING_SEND_BEFORE_CLOSE = false).
  { rewrite Ht in Hflush. simpl in Hflush. rewrite andb_true_r in Hflush.
    exact Hflush. }
  destruct (issue_raw_newly_truncated_aux B cx E wsi m buf len 0
              Hp Ht Hs Hlen Hext Hacc ltac:(lia)) as [_ Hok].
  rewrite Z.sub_0_r, Z.add_0_r in Hok.
  destruct (Hok Hmal) as (H1 & _ & H3 & _ & _ & H6 & H7).
  fold r in H1, H3, H6, H7.
  split; [exact H1|]. split; [|split; [exact H3|split; [exact H6|split; [exact H7|]]]].
  - subst r.
    destruct (issue_raw_at_transport B cx E wsi m buf len Hreach)
      as (t & _ & _ & _ & Heq).
    rewrite Heq. fold off. rewrite Had. simpl fst.
    unfold handle_truncated_send. simpl trunc_len. rewrite Ht.
    repeat match goal with
           | |- context [if ?c then _ else _] => destruct c
           end; reflexivity.
  - subst r. rewrite (issue_raw_hints B cx E wsi m buf len Hreach).
    fold off. rewrite Had. simpl snd.
    destruct (errno =? LWS_EWOULDBLOCK E); reflexivity.
Qed.

Lemma issue_raw_transient_error_witness :
  let r := lws_issue_raw release64 context4k blocked_world
             (connection LWSCM_WS_SERVING ws_idle) ramp 1000 5 in
  res r = Ret 5 /\ pending_bytes (wsi_out r) (mem_out r) = load_bytes ramp 1000 5 /\
  blocking_hints (trace r) = 1%nat.
Proof.
  assert (Hreach : reaches_transport release64 blocked_world
                     (connection LWSCM_WS_SERVING ws_idle) 1000 5).
  { repeat split; try reflexivity; try discriminate. left; reflexivity. }
  destruct (issue_raw_transient_error release64 context4k blocked_world
              (connection LWSCM_WS_SERVING ws_idle) ramp 1000 5
              Hreach eq_refl ltac:(vm_compute; split; [reflexivity|discriminate])
              ltac:(vm_compute; reflexivity) (or_introl eq_refl)
              ltac:(vm_compute; discriminate))
    as (H1 & _ & _ & H4 & _ & H6).
  split; [exact H1|]. split; [exact H4|exact H6].
Defined.

(** ** The write dispatcher, path by path *)

(** X10.  On a connection that does not delegate its I/O to a parent, a
    length that is negative as an [int] fails the write with -1 before
    anything is accounted, framed or sent.  (A delegated write never
    looks at the sign: it goes to the parent and returns [(int)len].) *)
Theorem write_rejects_negative_length K B cx E wsi m buf len wp :
  parent_carries_io wsi = false ->
  to_int len < 0 ->
  let r := lws_write K B cx E wsi m buf len wp in
  res r = Ret (-1) /\ wsi_out r = wsi /\ mem_out r = m /\
  offered (trace r) = [] /\ rearms (trace r) = O.
Proof.
  intros Hp Hl. unfold lws_write. rewrite Hp.
  destruct (Z.ltb_spec (to_int len) 0); [|lia].
  simpl. repeat split; reflexivity.
Qed.

Lemma write_rejects_negative_length_witness :
  res (lws_write libwebsockets_h release64 context4k (world 100 5000 0)
         (connection LWSCM_WS_SERVING ws_idle) ramp 1000 (2 ^ 31) 0) = Ret (-1).
Proof.
  apply (write_rejects_negative_length libwebsockets_h release64 context4k
           (world 100 5000 0) (connection LWSCM_WS_SERVING ws_idle)
           ramp 1000 (2 ^ 31) 0 eq_refl).
  vm_compute. reflexivity.
Defined.

(** X11.  A WebSocket write on a connection that is not in a state to
    send WebSocket data is dropped: the dispatcher returns 0 and nothing
    is framed or sent, unless the write is a CLOSE in one of the three
    closing states.  The dropped bytes are counted as transmitted all the
    same: the accounting comes before the test. *)
Theorem write_drops_when_not_ws K B cx E wsi m buf len wp :
  parent_carries_io wsi = false ->
  0 <= to_int len ->
  http_code K (Z.land wp 31) = false ->
  lws_state_is_ws E (state wsi) = false ->
  closing_state (state wsi) = false \/ Z.land wp 31 <> LWS_WRITE_CLOSE K ->
  let r := lws_write K B cx E wsi m buf len wp in
  res r = Ret 0 /\ mem_out r = m /\
  wsi_out r = accounted B wsi len /\
  offered (trace r) = [] /\ rearms (trace r) = O.
Proof.
  intros Hp Hl Hh Hs Hc. unfold lws_write. rewrite Hp.
  destruct (Z.ltb_spec (to_int len) 0); [lia|].
  fold (accounted B wsi len).
  change (state (accounted B wsi len)) with (state wsi) in *.
  rewrite Hs in *.
  destruct (ws (accounted B wsi len)) as [w|];
    rewrite ?andb_false_r; cbv iota zeta;
    unfold http_code in Hh; rewrite Hh;
    change (state (accounted B wsi len)) with (state wsi); rewrite Hs;
    simpl negb;
    assert (Hg : negb (state_eqb (state wsi) LWSS_RETURNED_CLOSE_ALREADY) &&
                 negb (state_eqb (state wsi) LWSS_WAITING_TO_SEND_CLOSE_NOTIFICATION) &&
                 negb (state_eqb (state wsi) LWSS_AWAITING_CLOSE_ACK)
                 || negb (Z.land wp 31 =? LWS_WRITE_CLOSE K) = true)
      by (destruct Hc as [Hc|Hc];
          [unfold closing_state in Hc;
           apply orb_false_iff in Hc; destruct Hc as [Hc H3];
           apply orb_false_iff in Hc; destruct Hc as [H1 H2];
           rewrite H1, H2, H3; reflexivity
          |destruct (Z.eqb_spec (Z.land wp 31) (LWS_WRITE_CLOSE K));
           [contradiction|apply orb_true_r]]);
    rewrite Hg; simpl; repeat split; reflexivity.
Qed.

Lemma write_drops_when_not_ws_witness :
  let r := lws_write libwebsockets_h release64 context4k (world 100 5000 0)
             (in_http_state (connection LWSCM_WS_SERVING ws_idle))
             ramp 1000 5 0 in
  res r = Ret 0 /\ vhost_tx (wsi_out r) = Some 5 /\ offered (trace r) = [].
Proof.
  destruct (write_drops_when_not_ws libwebsockets_h release64 context4k
              (world 100 5000 0)
              (in_http_state (connection LWSCM_WS_SERVING ws_idle))
              ramp 1000 5 0)
    as (H1 & _ & H2 & H3 & _); try reflexivity.
  - vm_compute. discriminate.
  - left. reflexivity.
  - split; [exact H1|]. split; [rewrite H2; reflexivity|exact H3].
Defined.

Lemma write_when_not_draining K B cx E wsi m buf len wp :
  parent_carries_io wsi = false ->
  0 <= to_int len ->
  draining E wsi = false ->
  lws_write K B cx E wsi m buf len wp =
  write_dispatch K B cx E (accounted B wsi len) m buf len wp len
                 (write_prologue len).
Proof.
  intros Hp Hl Hd. unfold lws_write. rewrite Hp.
  destruct (Z.ltb_spec (to_int len) 0); [lia|].
  fold (accounted B wsi len). unfold draining in Hd.
  change (ws (accounted B wsi len)) with (ws wsi).
  change (state (accounted B wsi len)) with (state wsi).
  destruct (ws wsi) as [w|] eqn:Hw; [rewrite Hd|];
    unfold write_dispatch, http_code;
    change (ws (accounted B wsi len)) with (ws wsi);
    change (state (accounted B wsi len)) with (state wsi);
    change (mode (accounted B wsi len)) with (mode wsi);
    rewrite Hw; reflexivity.
Qed.

Lemma write_when_draining K B cx E wsi m buf len wp w :
  parent_carries_io wsi = false ->
  0 <= to_int len ->
  ws wsi = Some w ->
  draining E wsi = true ->
  lws_write K B cx E wsi m buf len wp =
  write_dispatch K B cx E
    (set_ws (accounted B wsi len) (set_draining w false (tx_draining_stashed_wp w)))
    m buf len
    (Z.lor (Z.land (tx_draining_stashed_wp w) 192) (LWS_WRITE_CONTINUATION K))
    len
    ([EvStats LWSSTATS_C_API_LWS_WRITE 1; EvStats LWSSTATS_B_WRITE len;
      EvDrainListRemove; EvRestartPingPongTimer]).
Proof.
  intros Hp Hl Hw Hd. unfold lws_write. rewrite Hp.
  destruct (Z.ltb_spec (to_int len) 0); [lia|].
  fold (accounted B wsi len). unfold draining in Hd. rewrite Hw in Hd.
  change (ws (accounted B wsi len)) with (ws wsi).
  change (state (accounted B wsi len)) with (state wsi).
  rewrite Hw, Hd. unfold write_dispatch, http_code. reflexivity.
Qed.

(** X12.  While an extension is draining, the write type of the caller
    does not count: the dispatcher takes the connection off the drain
    list and sends a CONTINUATION with the flag bits of the stashed write
    type, so that two writes that differ only in [wp] do the same. *)
Theorem write_while_draining_ignores_wp K B cx E wsi m buf len w :
  parent_carries_io wsi = false ->
  0 <= to_int len ->
  ws wsi = Some w ->
  tx_draining_ext w = true ->
  lws_state_is_ws E (state wsi) = true ->
  forall wp wp',
    lws_write K B cx E wsi m buf len wp = lws_write K B cx E wsi m buf len wp'.
Proof.
  intros Hp Hl Hw Hd Hs wp wp'.
  assert (Hdr : draining E wsi = true)
    by (unfold draining; rewrite Hw, Hd, Hs; reflexivity).
  rewrite !(write_when_draining K B cx E wsi m buf len _ w Hp Hl Hw Hdr).
  reflexivity.
Qed.

Lemma write_while_draining_ignores_wp_witness :
  let w1 := lws_write libwebsockets_h release64 context4k (world 100 5000 0)
              (connection LWSCM_WS_SERVING ws_draining) ramp 1000 2 1 in
  let w5 := lws_write libwebsockets_h release64 context4k (world 100 5000 0)
              (connection LWSCM_WS_SERVING ws_draining) ramp 1000 2 5 in
  w1 = w5 /\ offered_bytes (trace w1) = [128; 2; 232; 233].
Proof.
  split; [|reflexivity].
  apply (write_while_draining_ignores_wp libwebsockets_h release64 context4k
           (world 100 5000 0) (connection LWSCM_WS_SERVING ws_draining)
           ramp 1000 2 ws_draining); try reflexivity.
  vm_compute. discriminate.
Defined.

Lemma Some_inj {A : Type} (x y : A) : Some x = Some y -> x = y.
Proof. intros H. injection H as H. exact H. Qed.

(** Where the frame header goes, and what it leaves alone. *)
Lemma frame_header_headroom K B masked7 m buf len wp f :
  ws_frame_header K B masked7 m buf len wp = Some f ->
  let slot := if masked7 then 4 else 0 in
  (fr_pre f = slot + 2 \/ fr_pre f = slot + 4 \/ fr_pre f = slot + 10) /\
  fr_dropmask f = (if masked7 then buf - 4 else 0) /\
  forall a, a < buf - fr_pre f \/ buf - slot <= a -> fr_mem f a = m a.
Proof.
  unfold ws_frame_header. intros Hf.
  destruct (ws_opcode K wp) as [op|]; [|discriminate].
  assert (Hd : (if masked7 then buf + (0 - (if masked7 then 4 else 0)) else 0)
               = (if masked7 then buf - 4 else 0))
    by (destruct masked7; lia).
  destruct (len <? 126); [|destruct (len <? 65536); [|destruct (lp64 B)]];
    apply Some_inj in Hf; subst f; cbn [fr_pre fr_mem fr_dropmask];
    (split; [lia|]); (split; [exact Hd|]); intros a Ha;
    unfold store; destruct masked7; eqb_decide; reflexivity.
Qed.

(** X13.  The header stage writes into the headroom only: the header
    takes the [pre] bytes before the payload (less the four bytes of the
    nonce slot on a client connection), [pre] is one of 2, 4 and 10 (plus
    4 on a client connection), so at most 14, and every byte outside
    [buf[-pre .. -1]] keeps its value. *)
Theorem ws_frame_header_stays_in_headroom K B masked7 m buf len wp f :
  ws_frame_header K B masked7 m buf len wp = Some f ->
  let slot := if masked7 then 4 else 0 in
  (fr_pre f = slot + 2 \/ fr_pre f = slot + 4 \/ fr_pre f = slot + 10) /\
  fr_dropmask f = (if masked7 then buf - 4 else 0) /\
  forall a, a < buf - fr_pre f \/ buf - slot <= a -> fr_mem f a = m a.
Proof. exact (frame_header_headroom K B masked7 m buf len wp f). Qed.

Lemma ws_frame_header_stays_in_headroom_witness :
  exists f,
    ws_frame_header libwebsockets_h release64 true ramp 1000 200 1 = Some f /\
    fr_dropmask f = 996 /\ fr_mem f 1000 = ramp 1000.
Proof.
  destruct (ws_frame_header libwebsockets_h release64 true ramp 1000 200 1)
    as [f|] eqn:Hf; [|discriminate Hf].
  exists f. split; [reflexivity|].
  destruct (ws_frame_header_stays_in_headroom libwebsockets_h release64 true
              ramp 1000 200 1 f Hf) as (_ & Hd & Hm).
  split; [exact Hd|]. apply Hm. right. simpl. lia.
Defined.

Lemma goes_raw_http K wsi c :
  http_code K c = true -> data_code K c = false -> goes_raw K wsi c = true.
Proof.
  unfold http_code, data_code, goes_raw. intros Hh Hd. rewrite Hd.
  destruct (c =? LWS_WRITE_HTTP K), (c =? LWS_WRITE_HTTP_FINAL K),
           (c =? LWS_WRITE_HTTP_HEADERS_CONTINUATION K),
           (c =? LWS_WRITE_HTTP_HEADERS K), (c =? LWS_WRITE_CLOSE K);
    simpl in *; try reflexivity; discriminate.
Qed.

(** An HTTP write outside HTTP/2 is the raw issue of its buffer. *)
Lemma write_http_raw K B cx E wsi m buf len wp :
  parent_carries_io wsi = false ->
  0 <= len <= INT_MAX ->
  draining E wsi = false ->
  http_code K (Z.land wp 31) = true ->
  data_code K (Z.land wp 31) = false ->
  h2_mode B wsi = false ->
  let r := lws_write K B cx E wsi m buf len wp in
  let r' := lws_issue_raw B cx E (accounted B wsi len) m buf len in
  res r = res r' /\ wsi_out r = wsi_out r' /\ mem_out r = mem_out r' /\
  trace r = write_prologue len ++ trace r'.
Proof.
  intros Hp Hl Hd Hh Hdc Hm. unfold INT_MAX in Hl.
  cbv zeta.
  rewrite write_when_not_draining; auto;
    [|rewrite to_int_small by (unfold INT_MAX; lia); lia].
  unfold write_dispatch. rewrite Hh. unfold send_raw.
  rewrite (goes_raw_http K _ _ Hh Hdc).
  unfold h2_mode in Hm.
  change (mode (accounted B wsi len)) with (mode wsi). rewrite Hm.
  rewrite Z.sub_0_r, Z.add_0_r, (to_size_small (lp64 B) len) by lia.
  simpl. repeat split; reflexivity.
Qed.

(** X14.  The HTTP write types bypass the WebSocket framing.  On a
    connection that is not delegated and not draining an extension,
    outside HTTP/2, a write of type HTTP, HTTP_FINAL, HTTP_HEADERS or
    HTTP_HEADERS_CONTINUATION (codes that are none of the data codes)
    with [0 <= len <= INT_MAX] is the raw issue of the caller's [buf] and
    [len], in whatever state the connection is otherwise, after the
    accounting of [len] bytes: same result, same connection and same
    memory, and the events of the raw issue after those of the
    accounting.  (On a draining connection the dispatcher replaces the
    write type, and the bytes go out as a WebSocket frame.) *)
Theorem write_http_goes_raw K B cx E wsi m buf len wp :
  parent_carries_io wsi = false ->
  0 <= len <= INT_MAX ->
  draining E wsi = false ->
  http_code K (Z.land wp 31) = true ->
  data_code K (Z.land wp 31) = false ->
  h2_mode B wsi = false ->
  let r := lws_write K B cx E wsi m buf len wp in
  let r' := lws_issue_raw B cx E (accounted B wsi len) m buf len in
  res r = res r' /\ wsi_out r = wsi_out r' /\ mem_out r = mem_out r' /\
  trace r = write_prologue len ++ trace r'.
Proof. exact (write_http_raw K B cx E wsi m buf len wp). Qed.

Lemma write_http_goes_raw_witness :
  let r := lws_write libwebsockets_h release64 context4k (world 100 5000 0)
             (in_http_state (connection LWSCM_HTTP_SERVING ws_idle))
             ramp 1000 4 3 in
  res r = Ret 4 /\ offered_bytes (trace r) = load_bytes ramp 1000 4.
Proof.
  destruct (write_http_goes_raw libwebsockets_h release64 context4k
              (world 100 5000 0)
              (in_http_state (connection LWSCM_HTTP_SERVING ws_idle))
              ramp 1000 4 3) as (H1 & _ & _ & H2); try reflexivity.
  - unfold INT_MAX. lia.
  - cbv zeta in H1, H2. split; [rewrite H1|rewrite H2]; reflexivity.
Defined.

(** When no extension changes the payload and no write type is stashed,
    the extension stage hands the caller's buffer on as it is, with the
    length that the [int] [token_len] holds. *)
Lemma payload_tx_passthrough K B E w buf len wp wp1f :
  payload_passes K B E buf len wp ->
  stashed_write_pending w = false ->
  buf <> 0 -> 0 <= to_int len ->
  exists te,
    (te = [] \/ te = [EvExtPayloadTx buf (to_int len) wp]) /\
    payload_tx_stage K B E w buf len wp wp1f =
    TxContinue (set_clean_buffer w true) buf (to_int len) wp wp1f te.
Proof.
  intros Hpass Hs Hb Hl. unfold payload_tx_stage.
  rewrite (to_size_to_int (lp64 B) len Hl).
  destruct (Z.eqb_spec buf 0) as [|_]; [contradiction|].
  fold (control_code K wp).
  destruct (control_code K wp) eqn:Hc.
  { exists []. split; [left; reflexivity|reflexivity]. }
  destruct (without_extensions B) eqn:Hx.
  - exists []. split; [left; reflexivity|].
    change (0 <? 0) with false. cbv iota.
    change (stashed_write_pending (set_clean_buffer w true))
      with (stashed_write_pending w).
    rewrite Hs, andb_false_r, Z.eqb_refl. cbn [negb andb]. cbv iota.
    destruct (Z.eqb_spec buf 0) as [|_]; [contradiction|].
    rewrite ?(to_size_to_int (lp64 B) len Hl). reflexivity.
  - destruct Hpass as [Hp|[Hp|Hp]]; try congruence.
    exists [EvExtPayloadTx buf (to_int len) wp]. split; [right; reflexivity|].
    rewrite Hp. change (0 =? 0) with true. change (0 <=? 0) with true.
    cbn [negb andb]. cbv iota beta zeta.
    change (0 <? 0) with false. cbv iota.
    change (stashed_write_pending (set_clean_buffer w true))
      with (stashed_write_pending w).
    rewrite Hs, andb_false_r, Z.eqb_refl. cbn [negb andb]. cbv iota.
    destruct (Z.eqb_spec buf 0) as [|_]; [contradiction|].
    rewrite ?(to_size_to_int (lp64 B) len Hl). reflexivity.
Qed.

(** A first fragment goes from the entry of the dispatcher to the header
    stage and on to the masking and send stages. *)
Lemma write_first_fragment K B cx E wsi w m buf len wp :
  ready_for_frame E wsi w ->
  payload_passes K B E buf len wp ->
  buf <> 0 -> 0 <= to_int len ->
  http_code K (Z.land wp 31) = false ->
  exists te,
    (te = [] \/ te = [EvExtPayloadTx buf (to_int len) wp]) /\
    lws_write K B cx E wsi m buf len wp =
    match ws_frame_header K B (mode_eqb (mode wsi) LWSCM_WS_CLIENT) m buf
                          (to_int len) wp with
    | None => done (Ret (-1)) (set_ws (accounted B wsi len) (set_clean_buffer w true))
                   m (write_prologue len ++ te)
    | Some f =>
        do_more_inside_frame K B cx E (accounted B wsi len) (set_clean_buffer w true)
          (fr_mem f) buf (to_int len) (fr_pre f) (fr_dropmask f) wp (Z.land wp 31) len
          (write_prologue len ++ te)
    end.
Proof.
  intros (Hp & Hw & Hd & Hin & Hst & Hrev & Hs) Hpass Hb Hl Hh.
  destruct (payload_tx_passthrough K B E w buf len wp (Z.land wp 31)
              Hpass Hst Hb Hl) as (te & Hte & Hstage).
  exists te. split; [exact Hte|].
  rewrite write_when_not_draining; auto.
  - unfold write_dispatch. rewrite Hh.
    change (state (accounted B wsi len)) with (state wsi).
    change (ws (accounted B wsi len)) with (ws wsi).
    change (mode (accounted B wsi len)) with (mode wsi).
    rewrite Hs, Hw, Hin. cbn [negb andb]. cbv iota.
    rewrite Hstage.
    change (ietf_spec_revision (set_clean_buffer w true))
      with (ietf_spec_revision w).
    rewrite Hrev. change (13 =? 13) with true. cbv iota. reflexivity.
  - unfold draining. rewrite Hw, Hd. reflexivity.
Qed.

(** X15.  On a connection that is ready for the first fragment of a frame
    (not delegated, not draining, in a WebSocket state, protocol revision
    13, not inside a frame, no stashed write type), for a write that is
    not of an HTTP type, with a non-NULL [buf], [(int)len >= 0] and a
    payload that no extension changes: a write type whose low four bits
    name none of the six frame opcodes fails the write with -1: nothing
    is written before the payload, nothing is sent, and the connection
    does not enter a frame. *)
Theorem write_rejects_unknown_opcode K B cx E wsi w m buf len wp :
  ready_for_frame E wsi w ->
  payload_passes K B E buf len wp ->
  buf <> 0 -> 0 <= to_int len ->
  http_code K (Z.land wp 31) = false ->
  ws_opcode K wp = None ->
  let r := lws_write K B cx E wsi m buf len wp in
  res r = Ret (-1) /\ mem_out r = m /\ offered (trace r) = [] /\
  option_map inside_frame (ws (wsi_out r)) = Some false.
Proof.
  intros Hr Hpass Hb Hl Hh Hop. cbv zeta.
  destruct (write_first_fragment K B cx E wsi w m buf len wp Hr Hpass Hb Hl Hh)
    as (te & Hte & ->).
  unfold ws_frame_header. rewrite Hop.
  destruct Hr as (_ & _ & _ & Hin & _).
  destruct Hte as [-> | ->]; simpl; rewrite Hin; repeat split; reflexivity.
Qed.

Lemma write_rejects_unknown_opcode_witness :
  let r := lws_write libwebsockets_h extensions64 context4k (world 100 5000 0)
             (connection LWSCM_WS_SERVING ws_idle) ramp 1000 5 10 in
  res r = Ret (-1) /\ offered (trace r) = [].
Proof.
  destruct (write_rejects_unknown_opcode libwebsockets_h extensions64 context4k
              (world 100 5000 0) (connection LWSCM_WS_SERVING ws_idle)
              ws_idle ramp 1000 5 10
              ltac:(repeat split; reflexivity)
              (or_intror (or_intror eq_refl))
              ltac:(discriminate) ltac:(vm_compute; discriminate)
              eq_refl eq_refl) as (H1 & _ & H2 & _).
  split; [exact H1|exact H2].
Defined.

(** X16.  On a client connection that is ready for the first fragment of
    a frame (not delegated, not draining, in a WebSocket state, protocol
    revision 13, not inside a frame, no stashed write type), for a write
    that is not of an HTTP type, with one of the six frame opcodes, a
    non-NULL [buf], [(int)len >= 0] and a payload that no extension
    changes: a random source that does not deliver the four bytes of the
    nonce fails the write with -1: nothing is sent, [mask_idx] is not
    reset and the connection does not enter a frame (the frame header has
    already been written before the payload). *)
Theorem write_fails_without_nonce K B cx E wsi w m buf len wp op :
  ready_for_frame E wsi w ->
  payload_passes K B E buf len wp ->
  buf <> 0 -> 0 <= to_int len ->
  http_code K (Z.land wp 31) = false ->
  ws_opcode K wp = Some op ->
  mode wsi = LWSCM_WS_CLIENT ->
  fst (lws_get_random E) <> 4 ->
  let r := lws_write K B cx E wsi m buf len wp in
  res r = Ret (-1) /\ offered (trace r) = [] /\
  option_map inside_frame (ws (wsi_out r)) = Some false /\
  option_map mask_idx (ws (wsi_out r)) = Some (mask_idx w) /\
  (forall a, buf <= a -> mem_out r a = m a).
Proof.
  intros Hr Hpass Hb Hl Hh Hop Hmode Hrnd. cbv zeta.
  destruct (write_first_fragment K B cx E wsi w m buf len wp Hr Hpass Hb Hl Hh)
    as (te & Hte & ->).
  rewrite Hmode. simpl mode_eqb.
  destruct (ws_frame_header K B true m buf (to_int len) wp) as [f|] eqn:Hf.
  2:{ unfold ws_frame_header in Hf. rewrite Hop in Hf.
      destruct (to_int len <? 126); [discriminate|].
      destruct (to_int len <? 65536); discriminate. }
  unfold do_more_inside_frame.
  change (mode (accounted B wsi len)) with (mode wsi). rewrite Hmode.
  simpl mode_eqb. unfold mask_stage.
  destruct Hr as (_ & _ & _ & Hin & _).
  change (inside_frame (set_clean_buffer w true)) with (inside_frame w).
  rewrite Hin. simpl negb. cbv iota.
  unfold lws_0405_frame_mask_generate.
  destruct (lws_get_random E) as [n bytes]. simpl in Hrnd.
  destruct (Z.eqb_spec n 4) as [|_]; [contradiction|]. simpl negb. cbv iota.
  simpl (negb (1 =? 0)). cbv iota.
  assert (Hm : forall a, buf <= a -> fr_mem f a = m a).
  { intros a Ha.
    destruct (frame_header_headroom K B true m buf (to_int len) wp f Hf)
      as (_ & _ & Hfr).
    apply Hfr. right. lia. }
  destruct Hte as [-> | ->]; simpl; rewrite Hin;
    (repeat split; try reflexivity; exact Hm).
Qed.

Lemma write_fails_without_nonce_witness :
  let r := lws_write libwebsockets_h release64 context4k broken_world
             (connection LWSCM_WS_CLIENT ws_idle) ramp 1000 5 1 in
  res r = Ret (-1) /\ offered (trace r) = [].
Proof.
  destruct (write_fails_without_nonce libwebsockets_h release64 context4k
              broken_world (connection LWSCM_WS_CLIENT ws_idle)
              ws_idle ramp 1000 5 1 2
              ltac:(repeat split; reflexivity)
              (or_introl eq_refl)
              ltac:(discriminate) ltac:(vm_compute; discriminate)
              eq_refl eq_refl eq_refl
              ltac:(simpl; discriminate)) as (H1 & H2 & _).
  split; [exact H1|exact H2].
Defined.

(** X17.  Masking is its own inverse: running the masking loop a second
    time over the same range, with the same key and start index, gives
    the payload back.  (This is how the peer unmasks the frame.) *)
Theorem mask_loop_involution key d count m n idx :
  forall a,
    fst (mask_loop count (fst (mask_loop count m d n key idx)) d n key idx) a
    = m a.
Proof.
  intros a.
  rewrite (proj2 (mask_loop_spec key d count _ n idx)).
  rewrite (proj2 (mask_loop_spec key d count m n idx)).
  destruct ((d + n <=? a) && (a <? d + n + Z.of_nat count)); [|reflexivity].
  rewrite Z.lxor_assoc, Z.lxor_nilpotent, Z.lxor_0_r. reflexivity.
Qed.

Lemma load_bytes_app_nat m j k : forall a,
  load_bytes m a (Z.of_nat (k + j)) =
  load_bytes m a (Z.of_nat k) ++ load_bytes m (a + Z.of_nat k) (Z.of_nat j).
Proof.
  induction k as [|k IH]; intros a.
  - simpl Nat.add. simpl Z.of_nat. rewrite Z.add_0_r. reflexivity.
  - change (S k + j)%nat with (S (k + j)).
    rewrite !load_bytes_succ, IH. simpl app. do 2 f_equal. f_equal. lia.
Qed.

Lemma load_bytes_app m a x y :
  0 <= x -> 0 <= y ->
  load_bytes m a (x + y) = load_bytes m a x ++ load_bytes m (a + x) y.
Proof.
  intros Hx Hy.
  rewrite <- (Z2Nat.id x Hx), <- (Z2Nat.id y Hy), <- Nat2Z.inj_add.
  apply load_bytes_app_nat.
Qed.

Lemma load_bytes_ext m1 m2 a n :
  (forall x, a <= x < a + n -> m1 x = m2 x) ->
  load_bytes m1 a n = load_bytes m2 a n.
Proof.
  intros H. unfold load_bytes. apply map_ext_in. intros i Hi.
  apply in_seq in Hi. apply H. lia.
Qed.

Lemma handle_truncated_send_keeps_ws B E wsi m buf real_len n t :
  ws (wsi_out (handle_truncated_send B E wsi m buf real_len n t)) = ws wsi.
Proof.
  unfold handle_truncated_send.
  repeat match goal with
         | |- context [if ?c then _ else _] => destruct c
         end; reflexivity.
Qed.

(** The issuer does not touch the WebSocket block of the connection. *)
Lemma issue_raw_keeps_ws B cx E wsi m buf len :
  ws (wsi_out (lws_issue_raw B cx E wsi m buf len)) = ws wsi.
Proof.
  unfold lws_issue_raw.
  destruct (could_have_pending wsi); [reflexivity|].
  destruct (len =? 0); [reflexivity|].
  destruct (state_eqb _ _ && _); [reflexivity|].
  destruct (negb (trunc_len wsi =? 0) && _); [reflexivity|].
  destruct (without_extensions B).
  - simpl. destruct (lws_ssl_capable_write_no_ssl E buf _) as [r te].
    destruct r; rewrite ?handle_truncated_send_keeps_ws; reflexivity.
  - destruct (ext_packet_tx_do_send E buf (to_int len)) as [mx b].
    destruct (mx <? 0); [reflexivity|].
    destruct (negb (mx =? 0)).
    + rewrite handle_truncated_send_keeps_ws. reflexivity.
    + destruct (lws_ssl_capable_write_no_ssl E b _) as [r te].
      destruct r; rewrite ?handle_truncated_send_keeps_ws; reflexivity.
Qed.

(** Outside HTTP/2, and for every data write, the send stage adds the
    trace of one raw issue to the trace. *)
Lemma send_raw_trace K B cx E wsi m buf len pre wp wp1f orig_len t :
  goes_raw K wsi wp1f = false \/ h2_mode B wsi = false ->
  trace (send_raw K B cx E wsi m buf len pre wp wp1f orig_len t) =
  t ++ trace (lws_issue_raw B cx E wsi m (buf - pre)
                            (to_size (lp64 B) (len + pre))).
Proof.
  intros H. unfold send_raw, lws_issue_raw_ext_access.
  destruct (goes_raw K wsi wp1f).
  - destruct H as [H|H]; [discriminate|].
    unfold h2_mode in H. rewrite H. reflexivity.
  - destruct (ws (wsi_out _)); [|reflexivity].
    destruct (res _) as [v| |]; try reflexivity.
    destruct (v <=? 0); [reflexivity|].
    destruct (v =? to_int len + pre); reflexivity.
Qed.

(** It keeps the nonce and the mask index of the connection. *)
Lemma send_raw_keeps_mask K B cx E wsi w m buf len pre wp wp1f orig_len t :
  goes_raw K wsi wp1f = false \/ h2_mode B wsi = false ->
  ws wsi = Some w ->
  let r := send_raw K B cx E wsi m buf len pre wp wp1f orig_len t in
  option_map mask (ws (wsi_out r)) = Some (mask w) /\
  option_map mask_idx (ws (wsi_out r)) = Some (mask_idx w).
Proof.
  intros H Hw. cbv zeta. unfold send_raw, lws_issue_raw_ext_access.
  destruct (goes_raw K wsi wp1f).
  - destruct H as [H|H]; [discriminate|].
    unfold h2_mode in H. rewrite H. cbn [wsi_out done].
    rewrite issue_raw_keeps_ws, Hw. split; reflexivity.
  - rewrite issue_raw_keeps_ws, Hw.
    destruct (res _) as [v| |]; cbn [wsi_out done];
      rewrite ?issue_raw_keeps_ws, ?Hw; try (split; reflexivity).
    destruct (v <=? 0); [split; reflexivity|].
    destruct (v =? to_int len + pre); split; reflexivity.
Qed.

(** What a call that reaches the socket offers it. *)
Lemma issue_raw_wire B cx E wsi m buf len :
  reaches_transport B E wsi buf len ->
  offered_bytes (trace (lws_issue_raw B cx E wsi m buf len)) =
  load_bytes m buf (to_size (lp64 B) (to_int (limit_sending B cx wsi len))).
Proof.
  intros Hreach.
  destruct (issue_raw_at_transport B cx E wsi m buf len Hreach)
    as (t & _ & Htb & _ & ->).
  destruct (fst (lws_ssl_capable_write_no_ssl E buf _));
    rewrite ?handle_truncated_send_sends_nothing; exact Htb.
Qed.

Lemma nonces_drawn_app t u :
  nonces_drawn (t ++ u) = (nonces_drawn t + nonces_drawn u)%nat.
Proof.
  induction t as [|e t IH]; [reflexivity|].
  destruct e; simpl; rewrite ?IH; reflexivity.
Qed.

Lemma handle_truncated_send_draws_nothing B E wsi m buf real_len n t :
  nonces_drawn (trace (handle_truncated_send B E wsi m buf real_len n t))
  = nonces_drawn t.
Proof.
  unfold handle_truncated_send.
  repeat match goal with
         | |- context [if ?c then _ else _] => destruct c
         end; simpl; repeat (rewrite ?nonces_drawn_app; simpl); lia.
Qed.

(** The raw issuer never asks the random source for anything. *)
Lemma issue_raw_draws_nothing B cx E wsi m buf len :
  nonces_drawn (trace (lws_issue_raw B cx E wsi m buf len)) = O.
Proof.
  unfold lws_issue_raw.
  destruct (could_have_pending wsi); [reflexivity|].
  destruct (len =? 0); [reflexivity|].
  destruct (state_eqb _ _ && _); [reflexivity|].
  destruct (negb (trunc_len wsi =? 0) && _); [reflexivity|].
  assert (Hsend : forall b t0, nonces_drawn t0 = O ->
    nonces_drawn (trace
      (let t1 := if negb (http2_substream wsi) && negb (lws_socket_is_valid E)
                 then t0 ++ [EvInvalidSockWarning] else t0 in
       let n0 := limit_sending B cx wsi len in
       let '(r, te) := lws_ssl_capable_write_no_ssl E b (to_int n0) in
       let t2 := t1 ++ [EvSend b (to_size (lp64 B) (to_int n0))
                             (load_bytes m b (to_size (lp64 B) (to_int n0)))] ++ te in
       let wsi0 := set_could_have_pending wsi true in
       match r with
       | LWS_SSL_CAPABLE_ERROR =>
           done (Ret (-1)) (set_socket_is_permanently_unusable wsi0 true) m t2
       | LWS_SSL_CAPABLE_MORE_SERVICE =>
           handle_truncated_send B E wsi0 m b len 0 t2
       | Wrote k => handle_truncated_send B E wsi0 m b len (to_uint k) t2
       end)) = O).
  { intros b t0 Ho. cbv zeta.
    assert (Hq : nonces_drawn
                   (snd (lws_ssl_capable_write_no_ssl E b
                           (to_int (limit_sending B cx wsi len)))) = O).
    { unfold lws_ssl_capable_write_no_ssl.
      destruct (socket_send E b _) as [r e].
      destruct (to_int r >=? 0); [reflexivity|].
      repeat match goal with
             | |- context [if ?c then _ else _] => destruct c
             end; reflexivity. }
    destruct (lws_ssl_capable_write_no_ssl E b _) as [r te]. simpl in Hq.
    destruct r; simpl; rewrite ?handle_truncated_send_draws_nothing;
      destruct (negb (http2_substream wsi) && negb (lws_socket_is_valid E));
      repeat (rewrite ?nonces_drawn_app; simpl); rewrite Ho, Hq; reflexivity. }
  destruct (without_extensions B).
  - apply Hsend. reflexivity.
  - destruct (ext_packet_tx_do_send E buf (to_int len)) as [mx b].
    destruct (mx <? 0); [reflexivity|].
    destruct (negb (mx =? 0)).
    + rewrite handle_truncated_send_draws_nothing. reflexivity.
    + apply Hsend. reflexivity.
Qed.

(** The masking stage draws at most one nonce and sends nothing; it
    leaves the bytes before [dropmask] alone, and all of them on a
    connection that is not a client. *)
Lemma mask_stage_frame E masked7 w m dropmask len om w' te :
  mask_stage E masked7 w m dropmask len = (om, w', te) ->
  (te = [] \/ te = [EvGetRandom]) /\
  forall m', om = Some m' ->
    forall a, (masked7 = true -> a < dropmask) -> m' a = m a.
Proof.
  unfold mask_stage. intros H.
  destruct masked7.
  2:{ apply pair_equal_spec in H. destruct H as [H <-].
      apply pair_equal_spec in H. destruct H as [<- _].
      split; [left; reflexivity|].
      intros m' Hm a _. apply Some_inj in Hm. subst m'. reflexivity. }
  destruct (negb (inside_frame w)).
  - unfold lws_0405_frame_mask_generate in H.
    destruct (lws_get_random E) as [n bytes].
    destruct (negb (n =? 4)).
    + simpl in H. apply pair_equal_spec in H. destruct H as [H <-].
      apply pair_equal_spec in H. destruct H as [<- _].
      split; [right; reflexivity|]. intros m' Hm. discriminate Hm.
    + change (negb (0 =? 0)) with false in H. cbv iota in H.
      destruct (negb (dropmask =? 0)) eqn:Hd.
      * pose proof (mask_loop_spec
                      (mask {| mask := bytes; mask_idx := 0;
                               inside_frame := inside_frame w;
                               clean_buffer := clean_buffer w;
                               tx_draining_ext := tx_draining_ext w;
                               tx_draining_stashed_wp := tx_draining_stashed_wp w;
                               stashed_write_pending := stashed_write_pending w;
                               stashed_write_type := stashed_write_type w;
                               ietf_spec_revision := ietf_spec_revision w |})
                      dropmask (Z.to_nat (to_int len + 4 - 4)) m 4 0)
          as [_ Hm].
        cbn [mask mask_idx] in H, Hm.
        destruct (mask_loop _ m dropmask 4 bytes 0) as [m1 idx].
        apply pair_equal_spec in H. destruct H as [H <-].
        apply pair_equal_spec in H. destruct H as [<- _].
        split; [right; reflexivity|].
        intros m' Hm' a Ha. apply Some_inj in Hm'. subst m'.
        specialize (Ha eq_refl).
        rewrite store_bytes_get.
        destruct (Z.leb_spec dropmask a); [lia|]. cbn [andb].
        simpl in Hm. rewrite Hm.
        destruct (Z.leb_spec (dropmask + 4) a); [lia|]. reflexivity.
      * apply pair_equal_spec in H. destruct H as [H <-].
        apply pair_equal_spec in H. destruct H as [<- _].
        split; [right; reflexivity|].
        intros m' Hm' a _. apply Some_inj in Hm'. subst m'. reflexivity.
  - change (negb (0 =? 0)) with false in H. cbv iota in H.
    destruct (negb (dropmask =? 0)) eqn:Hd.
    + pose proof (mask_loop_spec (mask w) dropmask
                    (Z.to_nat (to_int len + 4 - 4)) m 4 (mask_idx w)) as [_ Hm].
      destruct (mask_loop _ m dropmask 4 (mask w) (mask_idx w)) as [m1 idx].
      apply pair_equal_spec in H. destruct H as [H <-].
      apply pair_equal_spec in H. destruct H as [<- _].
      split; [left; reflexivity|].
      intros m' Hm' a Ha. apply Some_inj in Hm'. subst m'.
      specialize (Ha eq_refl).
      rewrite store_bytes_get.
      destruct (Z.leb_spec dropmask a); [lia|]. cbn [andb].
      simpl in Hm. rewrite Hm.
      destruct (Z.leb_spec (dropmask + 4) a); [lia|]. reflexivity.
    + apply pair_equal_spec in H. destruct H as [H <-].
      apply pair_equal_spec in H. destruct H as [<- _].
      split; [left; reflexivity|].
      intros m' Hm' a _. apply Some_inj in Hm'. subst m'. reflexivity.
Qed.

(** A first fragment on the wire: when the masking stage succeeds and the
    frame reaches the socket in one piece, what the dispatcher offers the
    socket is the memory that the masking stage leaves, from the header
    to the end of the payload. *)
Lemma frame_wire K B cx E wsi w m buf len wp f m' w' te :
  ready_for_frame E wsi w ->
  payload_passes K B E buf len wp ->
  buf <> 0 -> 0 <= to_int len ->
  http_code K (Z.land wp 31) = false ->
  ws_frame_header K B (mode_eqb (mode wsi) LWSCM_WS_CLIENT) m buf
                  (to_int len) wp = Some f ->
  mask_stage E (mode_eqb (mode wsi) LWSCM_WS_CLIENT) (set_clean_buffer w true)
             (fr_mem f) (fr_dropmask f) (to_int len) = (Some m', w', te) ->
  goes_raw K wsi (Z.land wp 31) = false \/ h2_mode B wsi = false ->
  could_have_pending wsi = false ->
  trunc_len wsi = 0 ->
  state wsi <> LWSS_FLUSHING_SEND_BEFORE_CLOSE ->
  ext_passes B E (buf - fr_pre f) (to_int len + fr_pre f) ->
  to_int len + fr_pre f <= INT_MAX ->
  limit_sending B cx wsi (to_int len + fr_pre f) = to_int len + fr_pre f ->
  let r := lws_write K B cx E wsi m buf len wp in
  let L := to_int len + fr_pre f in
  let wsi2 := set_ws (accounted B wsi len) w' in
  reaches_transport B E wsi2 (buf - fr_pre f) L /\
  (exists t, r = send_raw K B cx E wsi2 m' buf (to_int len) (fr_pre f) wp
                   (Z.land wp 31) len t /\
             nonces_drawn t = nonces_drawn te) /\
  offered_bytes (trace r) = load_bytes m' (buf - fr_pre f) L.
Proof.
  intros Hr Hpass Hb Hl Hh Hf Hms Hgo Hp Ht Hst Hext HL Hlim.
  destruct (frame_header_headroom K B _ m buf (to_int len) wp f Hf)
    as (Hpre & _ & _).
  assert (Hpre' : 2 <= fr_pre f)
    by (destruct (mode_eqb (mode wsi) LWSCM_WS_CLIENT); lia).
  cbv zeta.
  set (L := to_int len + fr_pre f) in *.
  set (wsi2 := set_ws (accounted B wsi len) w').
  assert (HLs : to_size (lp64 B) L = L)
    by (apply to_size_small; unfold INT_MAX in HL; lia).
  assert (Hreach : reaches_transport B E wsi2 (buf - fr_pre f) L).
  { unfold reaches_transport. subst wsi2. simpl.
    rewrite Hp, Ht. simpl.
    split; [reflexivity|]. split; [lia|].
    split; [destruct (state wsi); try reflexivity; contradiction|].
    split; [reflexivity|]. exact Hext. }
  destruct (mask_stage_frame _ _ _ _ _ _ _ _ _ Hms) as [Hte _].
  destruct (write_first_fragment K B cx E wsi w m buf len wp Hr Hpass Hb Hl Hh)
    as (tx & Htx & Heq).
  rewrite Hf in Heq. unfold do_more_inside_frame in Heq.
  change (mode (accounted B wsi len)) with (mode wsi) in Heq.
  rewrite Hms in Heq. fold wsi2 in Heq.
  split; [exact Hreach|]. split.
  - eexists. split; [exact Heq|].
    destruct Htx as [-> | ->], Hte as [-> | ->]; reflexivity.
  - rewrite Heq, send_raw_trace by exact Hgo.
    fold L. rewrite HLs, offered_bytes_app, (issue_raw_wire _ _ _ _ _ _ _ Hreach).
    change (limit_sending B cx wsi2 L) with (limit_sending B cx wsi L).
    rewrite Hlim, (to_int_small L), HLs by lia.
    replace (offered_bytes ((write_prologue len ++ tx) ++ te)) with (@nil Z)
      by (destruct Htx as [-> | ->], Hte as [-> | ->]; reflexivity).
    reflexivity.
Qed.

(** X18.  A server frame on the wire.  On a connection that is not a
    client and is ready for the first fragment of a frame (not delegated,
    not draining, in a WebSocket state, protocol revision 13, not inside
    a frame, no stashed write type), for a data write (not carried by an
    HTTP/2 stream) with one of the frame opcodes, a non-NULL [buf],
    [(int)len >= 0] and a payload that no extension changes, when the
    frame reaches the socket in one piece ([could_have_pending] clear,
    truncation buffer empty, state not FLUSHING_SEND_BEFORE_CLOSE, no
    extension taking the packet over, header and payload together at most
    INT_MAX bytes and within the rate cap): what [lws_write] offers the
    transport is the frame header followed by the caller's payload,
    unchanged; and when the transport takes it, whole or in part (the
    allocation of the truncation buffer succeeding), the caller gets
    [(int)len] back and the connection is outside a frame again. *)
Theorem write_server_frame_on_the_wire K B cx E wsi w m buf len wp f :
  ready_for_frame E wsi w ->
  payload_passes K B E buf len wp ->
  buf <> 0 -> 0 <= to_int len ->
  data_code K (Z.land wp 31) = true ->
  http_code K (Z.land wp 31) = false ->
  h2_stream_carries_ws wsi = false ->
  mode wsi <> LWSCM_WS_CLIENT ->
  ws_frame_header K B false m buf (to_int len) wp = Some f ->
  could_have_pending wsi = false ->
  trunc_len wsi = 0 ->
  state wsi <> LWSS_FLUSHING_SEND_BEFORE_CLOSE ->
  ext_passes B E (buf - fr_pre f) (to_int len + fr_pre f) ->
  to_int len + fr_pre f <= INT_MAX ->
  limit_sending B cx wsi (to_int len + fr_pre f) = to_int len + fr_pre f ->
  let r := lws_write K B cx E wsi m buf len wp in
  let L := to_int len + fr_pre f in
  offered_bytes (trace r) =
    load_bytes (fr_mem f) (buf - fr_pre f) (fr_pre f) ++
    load_bytes m buf (to_int len) /\
  forall n,
    accepted E (buf - fr_pre f) L = Some n ->
    n <= L ->
    (n < L ->
     (trunc_alloc wsi =? 0) || (L - n >? trunc_alloc_len wsi) = true ->
     lws_malloc E (L - n) <> 0) ->
    res r = Ret (to_int len) /\
    option_map inside_frame (ws (wsi_out r)) = Some false /\
    could_have_pending (wsi_out r) = true.
Proof.
  intros Hr Hpass Hb Hl Hdc Hh Hcar Hmode Hf Hp Ht Hst Hext HL Hlim.
  destruct (frame_header_headroom K B false m buf (to_int len) wp f Hf)
    as (Hpre & Hdrop & Hfr). simpl in Hpre, Hdrop, Hfr.
  assert (Hpre' : 2 <= fr_pre f <= 10) by lia.
  assert (Hcli : mode_eqb (mode wsi) LWSCM_WS_CLIENT = false)
    by (destruct (mode wsi); try reflexivity; contradiction).
  assert (Hgo : goes_raw K wsi (Z.land wp 31) = false).
  { unfold goes_raw. unfold data_code in Hdc. rewrite Hdc. exact Hcar. }
  rewrite <- Hcli in Hf.
  assert (Hms : mask_stage E (mode_eqb (mode wsi) LWSCM_WS_CLIENT)
                  (set_clean_buffer w true) (fr_mem f) (fr_dropmask f)
                  (to_int len) = (Some (fr_mem f), set_clean_buffer w true, []))
    by (rewrite Hcli; reflexivity).
  destruct (frame_wire K B cx E wsi w m buf len wp f _ _ _ Hr Hpass Hb Hl Hh
              Hf Hms (or_introl Hgo) Hp Ht Hst Hext HL Hlim)
    as (Hreach & (t & Heq & _) & Hwire).
  cbv zeta in *.
  set (L := to_int len + fr_pre f) in *.
  set (wsi2 := set_ws (accounted B wsi len) (set_clean_buffer w true)) in *.
  split.
  - rewrite Hwire. subst L.
    rewrite (Z.add_comm (to_int len) (fr_pre f)), load_bytes_app by lia.
    f_equal. replace (buf - fr_pre f + fr_pre f) with buf by lia.
    apply load_bytes_ext. intros x Hxr. apply Hfr. right. lia.
  - intros n Hacc Hn Hmal.
    destruct (accepted_range E _ _ n Hacc) as (Hn0 & _).
    assert (HLs : to_size (lp64 B) L = L)
      by (apply to_size_small; unfold INT_MAX in HL; lia).
    assert (Hacc2 : accepted E (buf - fr_pre f)
                      (to_int (limit_sending B cx wsi2 L)) = Some n).
    { change (limit_sending B cx wsi2 L) with (limit_sending B cx wsi L).
      rewrite Hlim, (to_int_small L) by lia. exact Hacc. }
    destruct (issue_raw_fresh_send B cx E wsi2 (fr_mem f) (buf - fr_pre f) L n
                Hreach Ht ltac:(lia) Hacc2 ltac:(lia) Hmal)
      as (Hres & Hchp & _).
    rewrite Heq. unfold send_raw.
    change (goes_raw K wsi2 (Z.land wp 31)) with (goes_raw K wsi (Z.land wp 31)).
    rewrite Hgo. unfold lws_issue_raw_ext_access.
    fold L. rewrite HLs, issue_raw_keeps_ws, Hres.
    change (ws wsi2) with (Some (set_clean_buffer w true)). cbv iota.
    destruct (Z.leb_spec L 0); [lia|].
    rewrite (to_int_small (to_int len)) by lia.
    subst L. rewrite Z.eqb_refl. simpl.
    rewrite Hchp. repeat split; reflexivity.
Qed.

Lemma write_server_frame_on_the_wire_witness :
  let r := lws_write libwebsockets_h extensions64 context4k (world 3 5000 0)
             (connection LWSCM_WS_SERVING ws_idle) ramp 1000 4 1 in
  offered_bytes (trace r) = [130; 4] ++ load_bytes ramp 1000 4 /\
  res r = Ret 4.
Proof.
  destruct (ws_frame_header libwebsockets_h extensions64 false ramp 1000 4 1)
    as [f|] eqn:Hf; [|discriminate].
  assert (Hpre : fr_pre f = 2)
    by (apply Some_inj in Hf; subst f; reflexivity).
  assert (Hhdr : load_bytes (fr_mem f) (1000 - fr_pre f) (fr_pre f) = [130; 4])
    by (apply Some_inj in Hf; subst f; reflexivity).
  destruct (write_server_frame_on_the_wire libwebsockets_h extensions64
              context4k (world 3 5000 0) (connection LWSCM_WS_SERVING ws_idle)
              ws_idle ramp 1000 4 1 f
              ltac:(repeat split; reflexivity)
              (or_intror (or_intror eq_refl))
              ltac:(discriminate) ltac:(vm_compute; discriminate)
              eq_refl eq_refl eq_refl ltac:(discriminate) Hf
              eq_refl eq_refl ltac:(discriminate)
              (or_intror eq_refl)
              ltac:(rewrite Hpre; vm_compute; discriminate)
              ltac:(rewrite Hpre; reflexivity)) as (H1 & H2).
  cbv zeta in H1, H2. rewrite Hhdr in H1. split; [exact H1|].
  apply (H2 3).
  - rewrite Hpre. reflexivity.
  - rewrite Hpre. vm_compute. discriminate.
  - intros _ _. simpl. discriminate.
Defined.

(** ** A client frame on the wire *)

(** The masking stage of the first fragment on a client connection: the
    nonce goes into the four bytes at [dropmask], the payload behind it is
    XORed with it, nothing before [dropmask] changes, and the connection
    keeps the nonce and the mask index that the loop reached. *)
Lemma mask_stage_client E w m dropmask len nonce :
  0 <= len <= INT_MAX ->
  inside_frame w = false ->
  dropmask <> 0 ->
  lws_get_random E = (4, nonce) ->
  length nonce = 4%nat ->
  exists m' w',
    mask_stage E true w m dropmask len = (Some m', w', [EvGetRandom]) /\
    mask w' = nonce /\ mask_idx w' = to_uchar len /\
    (forall a, a < dropmask -> m' a = m a) /\
    load_bytes m' dropmask 4 = nonce /\
    load_bytes m' (dropmask + 4) len = masked_payload m (dropmask + 4) len nonce.
Proof.
  intros Hlen Hin Hd Hr H4.
  unfold mask_stage, lws_0405_frame_mask_generate.
  rewrite Hin, Hr. simpl negb. cbv iota.
  simpl (4 =? 4). simpl negb. cbv iota.
  simpl (negb (0 =? 0)). cbv iota.
  destruct (Z.eqb_spec dropmask 0) as [|_]; [contradiction|].
  simpl negb. cbv iota. cbn [mask mask_idx].
  rewrite (to_int_small len Hlen).
  replace (len + 4 - 4) with len by lia.
  pose proof (mask_loop_spec nonce dropmask (Z.to_nat len) m 4 0) as [Hi Hm].
  destruct (mask_loop (Z.to_nat len) m dropmask 4 nonce 0) as [m1 idx].
  simpl in Hi, Hm.
  assert (Hfn : firstn 4 nonce = nonce) by (apply firstn_all2; lia).
  rewrite Hfn.
  eexists. eexists. split; [reflexivity|].
  cbn [mask mask_idx set_mask_idx].
  split; [reflexivity|]. split; [|split; [|split]].
  - rewrite Hi. rewrite Z2Nat.id by lia.
    destruct (Nat.eqb_spec (Z.to_nat len) 0) as [Hz|Hz]; [|reflexivity].
    replace len with 0 by lia. reflexivity.
  - intros a Ha. rewrite store_bytes_get.
    destruct (Z.leb_spec dropmask a); [lia|]. simpl. rewrite Hm.
    destruct (Z.leb_spec (dropmask + 4) a); [lia|]. reflexivity.
  - replace 4 with (Z.of_nat (length nonce)) by lia.
    apply load_store_bytes.
  - unfold load_bytes, masked_payload. apply map_ext_in.
    intros i Hi'. apply in_seq in Hi'.
    rewrite store_bytes_get, H4.
    destruct (Z.leb_spec dropmask (dropmask + 4 + Z.of_nat i)); [|lia].
    destruct (Z.ltb_spec (dropmask + 4 + Z.of_nat i) (dropmask + Z.of_nat 4));
      [lia|].
    simpl. rewrite Hm.
    destruct (Z.leb_spec (dropmask + 4) (dropmask + 4 + Z.of_nat i)); [|lia].
    destruct (Z.ltb_spec (dropmask + 4 + Z.of_nat i)
                         (dropmask + 4 + Z.of_nat (Z.to_nat len))); [|lia].
    simpl. do 4 f_equal. lia.
Qed.

(** The first fragment of a client frame, from the entry of the
    dispatcher to the socket. *)
Lemma client_first_fragment K B cx E wsi w m buf len wp f nonce :
  ready_for_frame E wsi w ->
  payload_passes K B E buf len wp ->
  buf <> 0 -> buf <> 4 -> 0 <= to_int len ->
  http_code K (Z.land wp 31) = false ->
  mode wsi = LWSCM_WS_CLIENT ->
  ws_frame_header K B true m buf (to_int len) wp = Some f ->
  lws_get_random E = (4, nonce) -> length nonce = 4%nat ->
  could_have_pending wsi = false ->
  trunc_len wsi = 0 ->
  state wsi <> LWSS_FLUSHING_SEND_BEFORE_CLOSE ->
  ext_passes B E (buf - fr_pre f) (to_int len + fr_pre f) ->
  to_int len + fr_pre f <= INT_MAX ->
  limit_sending B cx wsi (to_int len + fr_pre f) = to_int len + fr_pre f ->
  let r := lws_write K B cx E wsi m buf len wp in
  nonces_drawn (trace r) = 1%nat /\
  offered_bytes (trace r) =
    load_bytes (fr_mem f) (buf - fr_pre f) (fr_pre f - 4) ++
    nonce ++ masked_payload m buf (to_int len) nonce /\
  option_map mask (ws (wsi_out r)) = Some nonce /\
  option_map mask_idx (ws (wsi_out r)) = Some (to_uchar (to_int len)).
Proof.
  intros Hr Hpass Hb Hb4 Hl Hh Hmode Hf Hrand H4 Hp Ht Hst Hext HL Hlim.
  destruct (frame_header_headroom K B true m buf (to_int len) wp f Hf)
    as (Hpre & Hdrop & Hfr). simpl in Hpre, Hdrop, Hfr.
  assert (Hpre' : 6 <= fr_pre f <= 14) by lia.
  assert (Hl' : 0 <= to_int len <= INT_MAX) by lia.
  assert (Hcli : mode_eqb (mode wsi) LWSCM_WS_CLIENT = true)
    by (rewrite Hmode; reflexivity).
  assert (Hh2 : h2_mode B wsi = false)
    by (unfold h2_mode; rewrite Hmode; apply andb_false_r).
  pose proof Hr as (_ & _ & _ & Hin & _).
  destruct (mask_stage_client E (set_clean_buffer w true) (fr_mem f) (buf - 4)
              (to_int len) nonce Hl' Hin ltac:(lia) Hrand H4)
    as (m' & w' & Hms & Hmask & Hidx & Hbefore & Hnonce & Hpay).
  assert (Hms' : mask_stage E (mode_eqb (mode wsi) LWSCM_WS_CLIENT)
                   (set_clean_buffer w true) (fr_mem f) (fr_dropmask f)
                   (to_int len) = (Some m', w', [EvGetRandom]))
    by (rewrite Hcli, Hdrop; exact Hms).
  clear Hms. rename Hms' into Hms.
  rewrite <- Hcli in Hf.
  destruct (frame_wire K B cx E wsi w m buf len wp f _ _ _ Hr Hpass Hb Hl Hh
              Hf Hms (or_intror Hh2) Hp Ht Hst Hext HL Hlim)
    as (Hreach & (t & Heq & Hnon) & Hwire).
  cbv zeta in *. split; [|split].
  - rewrite Heq, send_raw_trace by (right; exact Hh2).
    rewrite nonces_drawn_app, Hnon, issue_raw_draws_nothing. reflexivity.
  - rewrite Hwire.
    replace (to_int len + fr_pre f) with ((fr_pre f - 4) + (4 + to_int len)) by lia.
    rewrite load_bytes_app by lia.
    rewrite (load_bytes_app m' _ 4 (to_int len)) by lia.
    replace (buf - fr_pre f + (fr_pre f - 4)) with (buf - 4) by lia.
    rewrite Hnonce, Hpay.
    replace (buf - 4 + 4) with buf by lia.
    f_equal.
    + apply load_bytes_ext. intros x Hxr. apply Hbefore. lia.
    + f_equal. unfold masked_payload. apply map_ext. intros i.
      rewrite Hfr by (right; lia). reflexivity.
  - rewrite Heq.
    destruct (send_raw_keeps_mask K B cx E (set_ws (accounted B wsi len) w') w'
                m' buf (to_int len) (fr_pre f) wp (Z.land wp 31) len t
                (or_intror Hh2) eq_refl) as [H1 H2].
    cbv zeta in H1, H2. rewrite H1, H2, Hmask, Hidx. split; reflexivity.
Qed.

(** X19.  A client frame on the wire.  On a client connection that is
    ready for the first fragment of a frame (not delegated, not draining,
    in a WebSocket state, protocol revision 13, not inside a frame, no
    stashed write type), for a write that is not of an HTTP type, with
    one of the frame opcodes, a [buf] that is not NULL and has the nonce
    slot [buf - 4] not NULL, [(int)len >= 0] and a payload that no
    extension changes, with a random source that delivers the four bytes
    of the nonce, when the frame reaches the socket in one piece
    ([could_have_pending] clear, truncation buffer empty, state not
    FLUSHING_SEND_BEFORE_CLOSE, no extension taking the packet over,
    header and payload together at most INT_MAX bytes and within the rate
    cap): what [lws_write] offers the transport is the frame header, the
    four bytes of the fresh nonce, and the caller's payload with byte [i]
    XORed with [nonce[i mod 4]]. *)
Theorem write_client_frame_on_the_wire K B cx E wsi w m buf len wp f nonce :
  ready_for_frame E wsi w ->
  payload_passes K B E buf len wp ->
  buf <> 0 -> buf <> 4 -> 0 <= to_int len ->
  http_code K (Z.land wp 31) = false ->
  mode wsi = LWSCM_WS_CLIENT ->
  ws_frame_header K B true m buf (to_int len) wp = Some f ->
  lws_get_random E = (4, nonce) -> length nonce = 4%nat ->
  could_have_pending wsi = false ->
  trunc_len wsi = 0 ->
  state wsi <> LWSS_FLUSHING_SEND_BEFORE_CLOSE ->
  ext_passes B E (buf - fr_pre f) (to_int len + fr_pre f) ->
  to_int len + fr_pre f <= INT_MAX ->
  limit_sending B cx wsi (to_int len + fr_pre f) = to_int len + fr_pre f ->
  let r := lws_write K B cx E wsi m buf len wp in
  offered_bytes (trace r) =
    load_bytes (fr_mem f) (buf - fr_pre f) (fr_pre f - 4) ++
    nonce ++ masked_payload m buf (to_int len) nonce.
Proof.
  intros Hr Hpass Hb Hb4 Hl Hh Hmode Hf Hrand H4 Hp Ht Hst Hext HL Hlim.
  exact (proj1 (proj2 (client_first_fragment K B cx E wsi w m buf len wp f nonce
                         Hr Hpass Hb Hb4 Hl Hh Hmode Hf Hrand H4 Hp Ht Hst
                         Hext HL Hlim))).
Qed.

Lemma write_client_frame_on_the_wire_witness :
  let r := lws_write libwebsockets_h extensions64 context4k (world 100 5000 0)
             (connection LWSCM_WS_CLIENT ws_idle) ramp 1000 4 1 in
  offered_bytes (trace r) =
    [130; 132] ++ [161; 178; 195; 212] ++
    masked_payload ramp 1000 4 [161; 178; 195; 212].
Proof.
  destruct (ws_frame_header libwebsockets_h extensions64 true ramp 1000 4 1)
    as [f|] eqn:Hf; [|discriminate Hf].
  assert (Hpre : fr_pre f = 6)
    by (apply Some_inj in Hf; subst f; reflexivity).
  assert (Hhdr : load_bytes (fr_mem f) (1000 - fr_pre f) (fr_pre f - 4)
                 = [130; 132])
    by (apply Some_inj in Hf; subst f; reflexivity).
  pose proof (write_client_frame_on_the_wire libwebsockets_h extensions64
                context4k (world 100 5000 0)
                (connection LWSCM_WS_CLIENT ws_idle) ws_idle ramp 1000 4 1 f
                [161; 178; 195; 212]
                ltac:(repeat split; reflexivity)
                (or_intror (or_intror eq_refl))
                ltac:(discriminate) ltac:(discriminate)
                ltac:(vm_compute; discriminate)
                eq_refl eq_refl Hf eq_refl eq_refl eq_refl
                eq_refl ltac:(discriminate)
                (or_intror eq_refl)
                ltac:(rewrite Hpre; vm_compute; discriminate)
                ltac:(rewrite Hpre; reflexivity))
    as H.
  cbv zeta in H. rewrite Hhdr in H. exact H.
Defined.

(** ** The frame header that the dispatcher writes *)





(** ** Masking on a client connection *)



(** ** HTTP/2 *)

(** An HTTP write on a connection served over HTTP/2 is one call of the
    HTTP/2 framer. *)
Lemma write_http_h2 K B cx E wsi m buf len wp :
  parent_carries_io wsi = false ->
  0 <= len <= INT_MAX ->
  draining E wsi = false ->
  http_code K (Z.land wp 31) = true ->
  data_code K (Z.land wp 31) = false ->
  h2_mode B wsi = true ->
  lws_write K B cx E wsi m buf len wp =
  h2_reframe K E (accounted B wsi len) m buf len 0 wp (Z.land wp 31)
             (write_prologue len).
Proof.
  intros Hp Hl Hd Hh Hdc Hm. unfold INT_MAX in Hl.
  rewrite write_when_not_draining; auto;
    [|rewrite to_int_small by (unfold INT_MAX; lia); lia].
  unfold write_dispatch. rewrite Hh. unfold send_raw.
  rewrite (goes_raw_http K _ _ Hh Hdc).
  unfold h2_mode in Hm.
  change (mode (accounted B wsi len)) with (mode wsi). rewrite Hm.
  reflexivity.
Qed.



Ltac framer_answer :=
  match goal with
  | |- context [lws_h2_frame_write ?E ?m ?ty ?fl ?sid ?l ?b] =>
      destruct (lws_h2_frame_write E m ty fl sid l b) as [[v m'] sent]
  end.

(** X20.  One write, one frame.  On a connection that is not delegated
    and not draining, an HTTP write (of a code that is none of the data
    codes, with [0 <= len <= INT_MAX]) served over HTTP/2 by a build that
    has it hands exactly one frame to the HTTP/2 framer, with the
    caller's [len] bytes at [buf] as its payload, and sends nothing
    itself: after the accounting, the events of the write are that frame
    and the sends of the framer.  What the framer answers is what the
    write returns, and the memory the framer leaves is the memory the
    write leaves.  The END_STREAM latch of the stream is never cleared,
    and it is set whenever the frame carries the END_STREAM flag. *)
Theorem write_h2_one_frame K B cx E wsi m buf len wp :
  parent_carries_io wsi = false ->
  0 <= len <= INT_MAX ->
  draining E wsi = false ->
  http_code K (Z.land wp 31) = true ->
  data_code K (Z.land wp 31) = false ->
  h2_mode B wsi = true ->
  let r := lws_write K B cx E wsi m buf len wp in
  exists ty fl,
    trace r =
      write_prologue len ++
      [EvH2FrameWrite ty fl (my_sid (h2 wsi)) len buf (load_bytes m buf len)] ++
      framer_sends
        (snd (lws_h2_frame_write E m ty fl (my_sid (h2 wsi)) len buf)) /\
    res r =
      Ret (fst (fst (lws_h2_frame_write E m ty fl (my_sid (h2 wsi)) len buf))) /\
    mem_out r =
      snd (fst (lws_h2_frame_write E m ty fl (my_sid (h2 wsi)) len buf)) /\
    (LWS_H2_FLAG_END_STREAM fl = true ->
     send_END_STREAM (h2 (wsi_out r)) = true) /\
    (send_END_STREAM (h2 wsi) = true ->
     send_END_STREAM (h2 (wsi_out r)) = true).
Proof.
  intros Hp Hl Hd Hh Hdc Hm. cbv zeta.
  rewrite (write_http_h2 K B cx E wsi m buf len wp Hp Hl Hd Hh Hdc Hm).
  unfold h2_reframe.
  change (send_END_STREAM (h2 (accounted B wsi len)))
    with (send_END_STREAM (h2 wsi)).
  change (my_sid (h2 (accounted B wsi len))) with (my_sid (h2 wsi)).
  rewrite (to_int_small len Hl), Z.add_0_r, Z.sub_0_r.
  destruct (Z.land wp 31 =? LWS_WRITE_HTTP_HEADERS K),
           (Z.land wp 31 =? LWS_WRITE_HTTP_HEADERS_CONTINUATION K),
           (negb (Z.land wp (LWS_WRITE_NO_FIN K) =? 0)),
           (negb (Z.land wp (LWS_WRITE_H2_STREAM_END K) =? 0)) eqn:Hse,
           (send_END_STREAM (h2 wsi)) eqn:Hs;
    cbn [negb orb andb];
    repeat match goal with
           | |- context [if ?c then _ else _] => destruct c
           end;
    cbn [negb orb andb]; cbv beta iota zeta;
    cbn [my_sid h2 set_h2_http];
    match goal with
    | |- context [lws_h2_frame_write E m ?ty ?fl _ _ _] => exists ty, fl
    end;
    framer_answer; unfold done;
    cbn [trace res wsi_out mem_out fst snd];
    (split; [reflexivity|]);
    (split; [reflexivity|]); (split; [reflexivity|]);
    split; simpl; congruence.
Qed.


Lemma write_h2_one_frame_witness :
  let r := lws_write libwebsockets_h h2_build context4k framing_world
             h2_last_bytes ramp 1000 4 8 in
  exists ty fl,
    trace r =
      write_prologue 4 ++
      [EvH2FrameWrite ty fl 3 4 1000 (load_bytes ramp 1000 4)] ++
      framer_sends (snd (lws_h2_frame_write framing_world ramp ty fl 3 4 1000)) /\
    res r = Ret 4 /\
    load_bytes (mem_out r) 991 3 = [0; 0; 4].
Proof.
  destruct (write_h2_one_frame libwebsockets_h h2_build context4k
              framing_world h2_last_bytes ramp 1000 4 8
              eq_refl ltac:(vm_compute; split; discriminate)
              eq_refl eq_refl eq_refl eq_refl)
    as (ty & fl & H1 & H2 & H3 & _).
  exists ty, fl. split; [exact H1|]. split; [exact H2|].
  cbv zeta in H3. rewrite H3. reflexivity.
Defined.


(** ** Extensions that hold the payload back *)

(** X22.  The write type lost to an extension comes back.  When an
    extension takes the payload into a buffer of its own and has nothing
    to issue yet, the write returns [len] at once and remembers the low
    six bits of the write type.  The next write for which the extension
    has output goes out with that remembered type in place of its own,
    keeping only its own two flag bits (and NO_FIN when the extension
    has more to drain); the remembered type is used once. *)
Theorem stashed_write_type_comes_back K B E w
    buf len wp wp1f n1 tok1 buf2 len2 wp2 wp1f2 n2 tok2 out2 :
  without_extensions B = false ->
  control_code K wp = false -> control_code K wp2 = false ->
  stashed_write_pending w = false ->
  len <> 0 ->
  ext_payload_tx E buf (to_int len) wp = (n1, (tok1, 0)) ->
  0 <= n1 -> tok1 <> buf ->
  ext_payload_tx E buf2 (to_int len2) wp2 = (n2, (tok2, out2)) ->
  0 <= n2 -> out2 <> 0 -> tok2 <> 0 -> tok2 <> buf2 ->
  exists w1 t1,
    payload_tx_stage K B E w buf len wp wp1f = TxReturn (to_int len) w1 t1 /\
    stashed_write_pending w1 = true /\
    stashed_write_type w1 = Z.land wp 0x3f /\
    let wp2' := if n2 =? 0 then wp2 else Z.lor wp2 (LWS_WRITE_NO_FIN K) in
    let wp' := Z.lor (Z.land wp2' 0xc0) (Z.land wp 0x3f) in
    exists w2 t2,
      payload_tx_stage K B E w1 buf2 len2 wp2 wp1f2 =
      TxContinue w2 tok2 (to_size (lp64 B) out2) wp' (Z.land wp' 0x1f) t2 /\
      stashed_write_pending w2 = false /\
      clean_buffer w2 = false /\
      tx_draining_ext w2 = tx_draining_ext w || negb (n2 =? 0).
Proof.
  intros Hx Hc Hc2 Hs Hlen He1 Hn1 Ht1 He2 Hn2 Ho2 Htk2 Htb2.
  unfold control_code in Hc, Hc2.
  unfold payload_tx_stage at 1. rewrite Hc, Hx, He1.
  simpl (negb (0 =? 0)). rewrite andb_false_r.
  destruct (Z.ltb_spec n1 0) as [|_]; [lia|].
  simpl (negb (0 =? 0)). cbn [andb].
  change (stashed_write_pending (set_clean_buffer w true))
    with (stashed_write_pending w).
  destruct (Z.eqb_spec buf tok1) as [|_]; [congruence|].
  destruct (Z.eqb_spec len 0) as [|_]; [contradiction|].
  simpl. rewrite Hs. simpl.
  do 2 eexists. split; [reflexivity|]. split; [reflexivity|].
  split; [reflexivity|].
  assert (Ho : (out2 =? 0) = false) by (apply Z.eqb_neq; exact Ho2).
  assert (Hb2 : (buf2 =? tok2) = false) by (apply Z.eqb_neq; congruence).
  assert (Htk : (tok2 =? 0) = false) by (apply Z.eqb_neq; exact Htk2).
  assert (Hlt : (n2 <? 0) = false) by (apply Z.ltb_ge; exact Hn2).
  assert (Hle : (0 <=? n2) = true) by (apply Z.leb_le; exact Hn2).
  unfold payload_tx_stage. rewrite Hc2, Hx, He2.
  destruct (Z.eqb_spec n2 0) as [Hz|Hz];
    repeat (rewrite ?Ho, ?Hb2, ?Htk, ?Hlt, ?Hle, ?andb_false_r, ?andb_true_r;
            cbn [stashed_write_pending set_clean_buffer set_stashed_write
                 set_draining stashed_write_type negb andb];
            cbv beta iota zeta);
    do 2 eexists; (split; [reflexivity|]); repeat split;
    cbn [tx_draining_ext set_clean_buffer set_stashed_write set_draining];
    rewrite ?orb_false_r, ?orb_true_r; reflexivity.
Qed.

Lemma stashed_write_type_comes_back_witness :
  exists w1 t1 w2 t2,
    payload_tx_stage libwebsockets_h extensions64 compressing_world
      ws_idle 1000 5 0 0 = TxReturn 5 w1 t1 /\
    payload_tx_stage libwebsockets_h extensions64 compressing_world
      w1 2000 8 2 2 = TxContinue w2 7000 9 0 0 t2.
Proof.
  destruct (stashed_write_type_comes_back libwebsockets_h extensions64
              compressing_world ws_idle 1000 5 0 0 0 7000 2000 8 2 2 0 7000 9
              eq_refl eq_refl eq_refl eq_refl ltac:(discriminate) eq_refl
              ltac:(discriminate) ltac:(discriminate) eq_refl
              ltac:(discriminate) ltac:(discriminate) ltac:(discriminate)
              ltac:(discriminate))
    as (w1 & t1 & H1 & _ & _ & w2 & t2 & H2 & _).
  exists w1, t1, w2, t2. split; [exact H1|exact H2].
Defined.

(** * The file pump *)

Lemma load_bytes_length m a n : length (load_bytes m a n) = Z.to_nat n.
Proof. unfold load_bytes. rewrite length_map, length_seq. reflexivity. Qed.

Lemma load_bytes_skipn m a n k :
  0 <= k <= n ->
  skipn (Z.to_nat k) (load_bytes m a n) = load_bytes m (a + k) (n - k).
Proof.
  intros H. replace n with (k + (n - k)) at 1 by lia.
  rewrite load_bytes_app by lia.
  rewrite skipn_app, load_bytes_length, Nat.sub_diag, skipn_all2
    by (rewrite load_bytes_length; lia).
  reflexivity.
Qed.




(** The fragment of a pass on a connection that is neither in a range nor
    chunked nor interpreted, in a build without HTTP/2: the bytes the file
    delivered, at the start of the scratch buffer. *)
Lemma payload_plain K B cx P wsi m rd bytes :
  filepos (http wsi) <> filelen (http wsi) ->
  range_count_ranges (range (http wsi)) = 0 ->
  with_http2 B = false ->
  sending_chunked wsi = false -> interpreting wsi = false ->
  let pstart := serv_buf cx + LWS_H2_FRAME_HEADER_LENGTH B in
  let n := Z.of_nat (length bytes) in
  lws_vfs_file_read P pstart (read_budget B cx wsi) = (rd, bytes) ->
  0 <= rd -> 0 < n <= INT_MAX ->
  serve_http_file_fragment_payload K B cx P wsi m =
  WriteFragment (set_h2_http wsi (h2 wsi) (http wsi))
    (store_bytes m pstart bytes) pstart n
    (if to_u64 (filepos (http wsi) + n) =? filelen (http wsi)
     then LWS_WRITE_HTTP_FINAL K else LWS_WRITE_HTTP K)
    n.
Proof.
  intros Hpos Hcr Hh2 Hch Hin pstart n Hrd Hrd0 Hn.
  assert (Hen : with_ranges B &&
                negb (range_count_ranges (range (http wsi)) =? 0) = false)
    by (rewrite Hcr; apply andb_false_r).
  unfold serve_http_file_fragment_payload.
  destruct (Z.eqb_spec (filepos (http wsi)) (filelen (http wsi))) as [|_];
    [contradiction|].
  rewrite Hen. simpl andb. cbv iota beta zeta.
  rewrite Hen, Hh2, Hch. simpl andb. cbv iota beta zeta.
  fold pstart. rewrite Z.add_0_r.
  unfold read_budget in Hrd. cbv zeta in Hrd. rewrite Hrd.
  destruct (Z.ltb_spec rd 0) as [|_]; [lia|].
  fold n. rewrite Z.sub_diag, Z.add_0_l, (to_int_small n) by lia.
  destruct (Z.eqb_spec n 0) as [|_]; [lia|].
  change (interpreting (set_h2_http wsi (h2 wsi) (http wsi)))
    with (interpreting wsi). rewrite Hin.
  change (0 <? 0) with false. cbv iota.
  rewrite Hcr. change (0 >? 1) with false.
  rewrite andb_false_r, andb_false_l. reflexivity.
Qed.

(** What a pass did is what its write did, whenever the write returned. *)
Lemma after_write_trace B P S w n amount v :
  res w = Ret v ->
  pass_trace (after_write B P S w n amount) = trace w.
Proof.
  intros Hv. unfold after_write, all_sent. rewrite Hv.
  repeat match goal with
         | |- context [let '(_, _) := ?c in _] => destruct c
         | |- context [if ?c then _ else _] => destruct c
         | |- context [match ?c with Some _ => _ | None => _ end] => destruct c
         end; reflexivity.
Qed.

(** X24.  From the file to the wire.  In a build without HTTP/2, on a
    plain HTTP/1 connection (no range, not chunked, not interpreted, not
    delegated, not draining) whose pipe is not choked, with
    [could_have_pending] clear, an empty truncation buffer, a state other
    than FLUSHING_SEND_BEFORE_CLOSE and the file position not at the file
    length, when the file read delivers between 1 and INT_MAX bytes and
    no extension takes the packet over (the two write types of the pump
    being HTTP codes and no data codes): a pass offers the transport the
    bytes the file read delivered, cut to the size cap of one transport
    attempt when they exceed it.  When the transport takes [k] of them,
    the file position moves on by the whole read, the bytes not taken are
    the pending bytes of the truncation buffer (if it can be had), and
    the pass reports completion exactly when everything was taken and the
    position has reached the file length. *)
Theorem pump_sends_file_bytes K B cx E P S wsi wsi1 m rd bytes :
  pump_codes K ->
  lws_send_pipe_choked S wsi = (false, wsi1) ->
  could_have_pending wsi1 = false -> trunc_len wsi1 = 0 ->
  state wsi1 <> LWSS_FLUSHING_SEND_BEFORE_CLOSE ->
  parent_carries_io wsi1 = false -> draining E wsi1 = false ->
  with_http2 B = false ->
  sending_chunked wsi1 = false -> interpreting wsi1 = false ->
  range_count_ranges (range (http wsi1)) = 0 ->
  filepos (http wsi1) <> filelen (http wsi1) ->
  let pstart := serv_buf cx + LWS_H2_FRAME_HEADER_LENGTH B in
  let n := Z.of_nat (length bytes) in
  lws_vfs_file_read P pstart (read_budget B cx wsi1) = (rd, bytes) ->
  0 <= rd -> 0 < n <= INT_MAX ->
  ext_passes B E pstart n ->
  let ps := serve_http_file_fragment_pass K B cx E P S wsi m in
  let cut := limit_sending B cx wsi1 n in
  offered_bytes (pass_trace ps) = firstn (Z.to_nat cut) bytes /\
  forall k,
    accepted E pstart cut = Some k -> 0 <= k <= n ->
    (k < n ->
     (trunc_alloc wsi1 =? 0) || (n - k >? trunc_alloc_len wsi1) = true ->
     lws_malloc E (n - k) <> 0) ->
    exists w' m',
      pass_state ps = Some (w', m') /\
      filepos (http w') = to_u64 (filepos (http wsi1) + n) /\
      trunc_len w' = n - k /\
      pending_bytes w' m' = skipn (Z.to_nat k) bytes /\
      (completed ps = true <->
       k = n /\ filelen (http wsi1) <= to_u64 (filepos (http wsi1) + n)).
Proof.
  intros HK Hch Hp Ht Hst Hpar Hdr Hh2 Hck Hin Hcr Hpos pstart n Hrd Hrd0 Hn
         Hext ps cut.
  assert (Hcut : 0 <= cut <= n)
    by (apply (limit_sending_le_len B cx wsi1 n); lia).
  set (wp := if to_u64 (filepos (http wsi1) + n) =? filelen (http wsi1)
             then LWS_WRITE_HTTP_FINAL K else LWS_WRITE_HTTP K).
  set (wsi2 := set_h2_http wsi1 (h2 wsi1) (http wsi1)).
  set (m2 := store_bytes m pstart bytes).
  assert (Hps : ps = after_write B P S
                  (lws_write K B cx E wsi2 m2 pstart n wp) n n).
  { subst ps. unfold serve_http_file_fragment_pass. rewrite Hch, Ht.
    simpl (negb (0 =? 0)). cbv iota.
    rewrite (payload_plain K B cx P wsi1 m rd bytes Hpos Hcr Hh2 Hck Hin
               Hrd Hrd0 Hn).
    fold pstart n wp wsi2 m2.
    rewrite (to_size_small (lp64 B) n) by (unfold INT_MAX in Hn; lia).
    reflexivity. }
  assert (Hwp : wp = LWS_WRITE_HTTP K \/ wp = LWS_WRITE_HTTP_FINAL K)
    by (subst wp; destruct (_ =? _); auto).
  destruct (HK wp Hwp) as [Hhc Hdc].
  destruct (write_http_raw K B cx E wsi2 m2 pstart n wp)
    as (Hres & Hout & Hmem & Htr); auto; try lia.
  { unfold h2_mode. rewrite Hh2. reflexivity. }
  cbv zeta in Hres, Hout, Hmem, Htr.
  set (wsi3 := accounted B wsi2 n) in *.
  set (r := lws_issue_raw B cx E wsi3 m2 pstart n) in *.
  assert (Hreach : reaches_transport B E wsi3 pstart n).
  { unfold reaches_transport. subst wsi3 wsi2. simpl. rewrite Hp, Ht. simpl.
    split; [reflexivity|]. split; [lia|].
    split; [destruct (state wsi1); try reflexivity; contradiction|].
    split; [reflexivity|exact Hext]. }
  assert (Hoff : to_int (limit_sending B cx wsi3 n) = cut).
  { change (limit_sending B cx wsi3 n) with cut. apply to_int_small. lia. }
  assert (Hload : load_bytes m2 pstart n = bytes).
  { subst m2 n. apply load_store_bytes. }
  destruct (issue_raw_at_transport B cx E wsi3 m2 pstart n Hreach)
    as (t & _ & Hb & _ & Heq).
  cbv zeta in Hb, Heq. rewrite Hoff in Hb, Heq. fold r in Heq.
  rewrite (to_size_small (lp64 B) cut) in Hb by (unfold INT_MAX in Hn; lia).
  assert (Hret : exists v, res r = Ret v).
  { rewrite Heq.
    destruct (fst (lws_ssl_capable_write_no_ssl E pstart cut)); simpl;
      eauto; unfold handle_truncated_send;
      repeat match goal with
             | |- context [if ?c then _ else _] => destruct c
             end; simpl; eauto. }
  assert (Hob : offered_bytes (trace r) = firstn (Z.to_nat cut) bytes).
  { rewrite Heq.
    destruct (fst (lws_ssl_capable_write_no_ssl E pstart cut));
      rewrite ?handle_truncated_send_sends_nothing; simpl;
      rewrite Hb, <- Hload; apply load_bytes_prefix; lia. }
  split.
  - destruct Hret as [v Hv]. rewrite Hps.
    rewrite (after_write_trace B P S _ n n v) by (rewrite Hres; exact Hv).
    rewrite Htr, offered_bytes_app. simpl. exact Hob.
  - intros k Hacc Hk Hmal.
    destruct (issue_raw_fresh_send B cx E wsi3 m2 pstart n k Hreach)
      as (Hr1 & _ & Hr3 & Hr4); auto.
    { rewrite Hoff. exact Hacc. }
    fold r in Hr1, Hr3, Hr4.
    destruct (issue_raw_keeps_rest B cx E wsi3 m2 pstart n) as (Hh & _).
    fold r in Hh. change (http wsi3) with (http wsi1) in Hh.
    rewrite Hps. unfold after_write. rewrite Hres, Hr1.
    destruct (Z.ltb_spec n 0) as [|_]; [lia|].
    rewrite Hout, Hh, Hcr.
    replace (with_ranges B && (0 >=? 1)) with false
      by (rewrite andb_false_r; reflexivity).
    cbv iota beta zeta. rewrite Z.eqb_refl. simpl negb. simpl andb. cbv iota.
    unfold all_sent. rewrite andb_false_r, orb_false_r.
    change (trunc_len (set_h2_http (wsi_out r) (h2 (wsi_out r))
              (set_range (http wsi1) (to_u64 (filepos (http wsi1) + n))
                 (range (http wsi1)))))
      with (trunc_len (wsi_out r)).
    change (http (set_h2_http (wsi_out r) (h2 (wsi_out r))
              (set_range (http wsi1) (to_u64 (filepos (http wsi1) + n))
                 (range (http wsi1)))))
      with (set_range (http wsi1) (to_u64 (filepos (http wsi1) + n))
              (range (http wsi1))).
    cbn [filepos filelen set_range].
    rewrite Hr3, Hmem.
    assert (Hpend : pending_bytes (wsi_out r) (mem_out r)
                    = skipn (Z.to_nat k) bytes).
    { rewrite Hr4, <- Hload. symmetry. apply load_bytes_skipn. lia. }
    destruct (Z.eqb_spec (n - k) 0) as [Hz|Hnz];
      [destruct (Z.geb_spec (to_u64 (filepos (http wsi1) + n))
                            (filelen (http wsi1))) as [Hge|Hlt]|].
    + simpl andb. cbv beta iota zeta.
      assert (Hfin : forall v t',
        exists w' m',
          pass_state (Completed v
             (set_state (set_h2_http (wsi_out r) (h2 (wsi_out r))
                (set_range (http wsi1) (to_u64 (filepos (http wsi1) + n))
                   (range (http wsi1)))) LWSS_HTTP) (mem_out r) t')
          = Some (w', m') /\
          filepos (http w') = to_u64 (filepos (http wsi1) + n) /\
          trunc_len w' = n - k /\
          pending_bytes w' m' = skipn (Z.to_nat k) bytes /\
          (true = true <->
           k = n /\ filelen (http wsi1) <= to_u64 (filepos (http wsi1) + n))).
      { intros v t'. eexists _, _. split; [reflexivity|].
        split; [reflexivity|]. split; [exact Hr3|].
        split; [exact Hpend|]. split; [intros _; lia|reflexivity]. }
      destruct (http_file_completion S) as [c|]; [destruct (c <? 0)|];
        exact (Hfin _ _).
    + simpl andb. cbv iota. eexists _, _. split; [reflexivity|].
      split; [reflexivity|]. split; [exact Hr3|]. split; [exact Hpend|].
      simpl. split; [discriminate|lia].
    + simpl andb. cbv iota. eexists _, _. split; [reflexivity|].
      split; [reflexivity|]. split; [exact Hr3|]. split; [exact Hpend|].
      simpl. split; [discriminate|lia].
Qed.

Lemma pump_sends_file_bytes_witness :
  let ps := serve_http_file_fragment_pass libwebsockets_h release64 context4k
              (world 100 5000 0) ten_byte_file open_pipe serving_file ramp in
  offered_bytes (pass_trace ps) = [0; 1; 2; 3; 4; 5; 6; 7; 8; 9] /\
  completed ps = true.
Proof.
  destruct (pump_sends_file_bytes libwebsockets_h release64 context4k
              (world 100 5000 0) ten_byte_file open_pipe serving_file
              (set_could_have_pending serving_file false) ramp
              0 [0; 1; 2; 3; 4; 5; 6; 7; 8; 9]
              ltac:(intros wp [-> | ->]; split; reflexivity)
              eq_refl eq_refl eq_refl
              ltac:(discriminate) eq_refl eq_refl eq_refl eq_refl eq_refl
              eq_refl ltac:(vm_compute; discriminate) eq_refl
              ltac:(lia) ltac:(vm_compute; split; [reflexivity|discriminate])
              (or_introl eq_refl))
    as [H1 H2].
  split; [exact H1|].
  destruct (H2 10 eq_refl ltac:(vm_compute; split; discriminate)
              ltac:(vm_compute; discriminate))
    as (w' & m' & _ & _ & _ & _ & Hc).
  apply Hc. split; [reflexivity|]. vm_compute. discriminate.
Defined.

Lemma all_sent_completed B S fin wsi m t v w' m' t' :
  all_sent B S fin wsi m t = Completed v w' m' t' ->
  w' = set_state wsi LWSS_HTTP /\ m' = m /\ t' = t /\
  (v = 1 \/
   v = -1 /\ http2_substream wsi = false /\
   exists c, http_file_completion S = Some c /\ c < 0) /\
  (trunc_len wsi = 0 /\ filelen (http wsi) <= filepos (http wsi) \/
   with_ranges B = true /\ fin = true).
Proof.
  unfold all_sent. intros H.
  assert (Hc : (trunc_len wsi =? 0) &&
               (filepos (http wsi) >=? filelen (http wsi)) ||
               with_ranges B && fin = true).
  { destruct (_ || _); [reflexivity|discriminate]. }
  rewrite Hc in H.
  assert (Hwhy : trunc_len wsi = 0 /\ filelen (http wsi) <= filepos (http wsi) \/
                 with_ranges B = true /\ fin = true).
  { apply orb_true_iff in Hc. destruct Hc as [Hc|Hc];
      apply andb_true_iff in Hc; destruct Hc as [H1 H2]; [left|right; auto].
    split; [apply Z.eqb_eq; exact H1|].
    destruct (Z.geb_spec (filepos (http wsi)) (filelen (http wsi)));
      [lia|discriminate]. }
  cbv zeta in H.
  change (http2_substream (set_state wsi LWSS_HTTP))
    with (http2_substream wsi) in H.
  destruct (http_file_completion S) as [c|] eqn:Hcb.
  - destruct (Z.ltb_spec c 0).
    + destruct (http2_substream wsi) eqn:Hsub; inversion H; subst;
        repeat split; auto.
      right. repeat split; auto. exists c. split; [reflexivity|assumption].
    + inversion H; subst. repeat split; auto.
  - inversion H; subst. repeat split; auto.
Qed.

(** X25.  When the pump reports completion.  A pass that ends at the
    completion block leaves the connection in state HTTP and returns 1,
    or -1 when the completion callback answered a negative value on a
    connection that is not an HTTP/2 substream.  It gets there only with
    an empty truncation buffer and the file position at or past the file
    length, or, in a build with ranges, after the write of this pass used
    up the budget of the current range and [lws_ranges_next], asked about
    the range the pass has just left, answered less than 1; the range of
    the connection is then the one [lws_ranges_next] left. *)
Theorem pump_completion_rule K B cx E P S wsi m v w' m' t :
  serve_http_file_fragment_pass K B cx E P S wsi m = Completed v w' m' t ->
  state w' = LWSS_HTTP /\
  (v = 1 \/
   v = -1 /\ http2_substream w' = false /\
   exists c, http_file_completion S = Some c /\ c < 0) /\
  (trunc_len w' = 0 /\ filelen (http w') <= filepos (http w') \/
   with_ranges B = true /\
   exists wsi1 w2 m2 p n wp amount,
     lws_send_pipe_choked S wsi = (false, wsi1) /\
     serve_http_file_fragment_payload K B cx P wsi1 m =
       WriteFragment w2 m2 p n wp amount /\
     let w := lws_write K B cx E w2 m2 p (to_size (lp64 B) n) wp in
     let left := leave_range S (spend_budget (range (http (wsi_out w))) amount) in
     range_budget left = 0 /\
     fst (lws_ranges_next S left) < 1 /\
     range (http w') = snd (lws_ranges_next S left)).
Proof.
  unfold serve_http_file_fragment_pass.
  destruct (lws_send_pipe_choked S wsi) as [choked wsi1].
  destruct choked; [discriminate|].
  destruct (negb (trunc_len wsi1 =? 0)).
  { unfold replay_truncated.
    destruct (res _) as [x| |]; try discriminate.
    destruct (x <? 0); discriminate. }
  assert (Hall : forall (Q : Prop) fin wsi2 m2 t2,
    (fin = true -> w' = set_state wsi2 LWSS_HTTP -> Q) ->
    all_sent B S fin wsi2 m2 t2 = Completed v w' m' t ->
    state w' = LWSS_HTTP /\
    (v = 1 \/
     v = -1 /\ http2_substream w' = false /\
     exists c, http_file_completion S = Some c /\ c < 0) /\
    (trunc_len w' = 0 /\ filelen (http w') <= filepos (http w') \/
     with_ranges B = true /\ Q)).
  { intros Q fin wsi2 m2 t2 Hfin H.
    apply all_sent_completed in H.
    destruct H as (Hw & _ & _ & Hv & Hwhy).
    specialize (fun Hf => Hfin Hf Hw). subst w'.
    split; [reflexivity|]. split; [exact Hv|].
    destruct Hwhy as [Hw|[Hw1 Hw2]]; [left; exact Hw|right; auto]. }
  destruct (serve_http_file_fragment_payload K B cx P wsi1 m)
    as [ | | | w2 m2 | w2 m2 p n wp amount] eqn:Hpay; try discriminate.
  - apply Hall. discriminate.
  - apply Hall. discriminate.
  - unfold after_write.
    destruct (res _) as [x| |]; try discriminate.
    destruct (x <? 0); [discriminate|].
    destruct (with_ranges B && _).
    + destruct (range_budget _ =? 0) eqn:Hbud.
      * destruct (lws_ranges_next S _) as [nx r'] eqn:Hnx.
        destruct (Z.ltb_spec nx 1) as [Hlt|Hge].
        -- apply Hall. intros _ Hw.
           exists wsi1, w2, m2, p, n, wp, amount.
           split; [reflexivity|]. split; [exact Hpay|]. cbv zeta.
           split; [apply Z.eqb_eq; exact Hbud|].
           rewrite Hnx. split; [exact Hlt|]. rewrite Hw. reflexivity.
        -- destruct (negb _ && _); [discriminate|].
           apply Hall. discriminate.
      * destruct (negb _ && _); [discriminate|]. apply Hall. discriminate.
    + destruct (negb _ && _); [discriminate|]. apply Hall. discriminate.
Qed.

Lemma pump_completion_rule_witness :
  exists w' m' t,
    serve_http_file_fragment_pass libwebsockets_h release64 context4k
      (world 100 5000 0) ten_byte_file open_pipe serving_file ramp
    = Completed 1 w' m' t /\
    state w' = LWSS_HTTP.
Proof.
  eexists _, _, _. split; [reflexivity|].
  apply (pump_completion_rule libwebsockets_h release64 context4k
           (world 100 5000 0) ten_byte_file open_pipe serving_file ramp 1
           _ _ _ eq_refl).
Defined.

(** ** Entering a range *)



